(** * AI Card Composer: the business-card export path of [src/pages/Index.tsx]

    [Index.tsx] holds three revisions of the [BusinessCardMaker] component.
    The first (lines 1-625) and the third (lines 1209-1963) are embedded
    here as [Rev1] and [Rev3]; the second, [Rev2], differs from the first
    only in its default colours, in the font family ([Inter, Arial]) and
    in an empty [drawTemplateIndicators].

    A handler of the component is a program of the monad [M]: it reads the
    state of the current render, calls state setters, issues calls on the
    2D context of a canvas and registers image [onload] callbacks.

    Numbers are exact rationals: the template coordinates are small
    integers and the only division in the code is by two.  Strings are
    sequences of code units below 256.  Property keys are kept in
    insertion order, which is the enumeration order of JavaScript for keys
    that are not array indices.

    A key looked up in [templates], or in a template, may also name a
    member that every object inherits from [Object.prototype], such as
    [constructor].  The lookup then finds a built-in and does not throw.
    A built-in is no template and no field position: it has no property
    of its own to enumerate and no coordinates, and the calls made with it
    ([ctx.font = "undefined undefinedpx Arial"] and
    [ctx.fillText(text, undefined, undefined)] among them) paint nothing.
    Those calls are not recorded. *)

From Stdlib Require Import String Ascii List Bool QArith ZArith Lia.
Import ListNotations.

Set Implicit Arguments.

(** ** JavaScript values used by the component *)

Module Js.

(** The names under which every object finds a member that it inherits
    from [Object.prototype] (ECMA-262, 20.1.3 and B.2.2.1). *)
Definition objectPrototype : list string :=
  [ "constructor"%string; "hasOwnProperty"%string; "isPrototypeOf"%string;
    "propertyIsEnumerable"%string; "toLocaleString"%string;
    "toString"%string; "valueOf"%string; "__proto__"%string;
    "__defineGetter__"%string; "__defineSetter__"%string;
    "__lookupGetter__"%string; "__lookupSetter__"%string ].

Section Object.
Variable A : Type.

(** An object as the ordered list of its own properties. *)
Definition object := list (string * A).

(** The property that [o] has of its own under [k], if it has one. *)
Fixpoint get (o : object) (k : string) : option A :=
  match o with
  | [] => None
  | (k', v) :: rest => if String.eqb k' k then Some v else get rest k
  end.

(** [{...o, [k]: v}] : an existing key keeps its place. *)
Fixpoint set (o : object) (k : string) (v : A) : object :=
  match o with
  | [] => [(k, v)]
  | (k', v') :: rest =>
      if String.eqb k' k then (k', v) :: rest else (k', v') :: set rest k v
  end.

(** An object literal [{k1: v1, k2: v2, ...}] : of two properties with
    one key the later value wins, at the place of the earlier. *)
Definition literal (props : list (string * A)) : object :=
  fold_left (fun o kv => set o (fst kv) (snd kv)) props [].

(** [Object.entries(o)] *)
Definition entries (o : object) : list (string * A) := o.

(** What [o[k]] finds on an object literal [o]: a property of [o] itself;
    or, [o] having none of that name, the member that [o] inherits under
    it from [Object.prototype]; or nothing, and the value is
    [undefined]. *)
Inductive found : Type :=
| Own (a : A)
| Inherited (member : string)
| Missing.

Definition lookup (o : object) (k : string) : found :=
  match get o k with
  | Some a => Own a
  | None =>
      if existsb (String.eqb k) objectPrototype then Inherited k else Missing
  end.

Definition keys (o : object) : list string := map fst o.

(** No key occurs twice. *)
Definition wf (o : object) : Prop := NoDup (keys o).
End Object.

Arguments Inherited {A} member.
Arguments Missing {A}.

(** Whether reading [member[k]] throws.  The inherited members are
    built-in functions, but for [__proto__], which is [Object.prototype]
    itself; and reading [caller] or [arguments] of a built-in function is
    a [TypeError] (ECMA-262, 10.2.4).  No other property of a member
    throws, and none is a field position. *)
Definition restricted (member k : string) : bool :=
  negb (String.eqb member "__proto__")
  && (String.eqb k "caller" || String.eqb k "arguments").

(** [member.name] : the name of a built-in function is the key under
    which it is inherited, but for [constructor], which is [Object];
    [Object.prototype] has no name. *)
Definition memberName (member : string) : option string :=
  if String.eqb member "__proto__" then None
  else if String.eqb member "constructor" then Some "Object"%string
  else Some member.

(** A value of the design object: a string, [null] or [undefined]. *)
Inductive value : Type :=
| Undefined
| Null
| Str (s : string).

(** [o.k] on an object of values, for a key [k] that names no inherited
    member: [undefined] when [o] has no such property. *)
Definition prop (o : object value) (k : string) : value :=
  match get o k with
  | Some v => v
  | None => Undefined
  end.

(** [String(v)], as a template literal or a property key converts. *)
Definition toString (v : value) : string :=
  match v with
  | Undefined => "undefined"
  | Null => "null"
  | Str s => s
  end.

(** The string that makes [v] truthy, if any. *)
Definition truthy (v : value) : option string :=
  match v with
  | Str (String c s) => Some (String c s)
  | _ => None
  end.

Definition nonEmpty (s : string) : bool :=
  match s with
  | EmptyString => false
  | String _ _ => true
  end.

(** [\s] below U+0100: tab, line feed, vertical tab, form feed, carriage
    return, space and no-break space. *)
Definition isSpace (c : ascii) : bool :=
  let n := nat_of_ascii c in
  ((9 <=? n) && (n <=? 13) || (n =? 32) || (n =? 160))%nat.

(** [s.replace(/\s+/g, '-')] : [inRun] tells that the previous code unit
    was white space, already replaced. *)
Fixpoint replaceSpaces (inRun : bool) (s : string) : string :=
  match s with
  | EmptyString => EmptyString
  | String c rest =>
      if isSpace c
      then if inRun then replaceSpaces true rest
           else String "-" (replaceSpaces true rest)
      else String c (replaceSpaces false rest)
  end.

(** [toLowerCase] of one code unit below U+0100: A-Z, and U+00C0-U+00DE
    but for the multiplication sign U+00D7. *)
Definition lowerChar (c : ascii) : ascii :=
  let n := nat_of_ascii c in
  if ((65 <=? n) && (n <=? 90)
      || (192 <=? n) && (n <=? 222) && negb (n =? 215))%nat
  then ascii_of_nat (n + 32)
  else c.

Fixpoint toLowerCase (s : string) : string :=
  match s with
  | EmptyString => EmptyString
  | String c rest => String (lowerChar c) (toLowerCase rest)
  end.

End Js.

Notation "o .[ k ]" := (Js.get o k) (at level 1, format "o .[ k ]").
Notation "o .[ k := v ]" := (Js.set o k v) (at level 1, format "o .[ k  :=  v ]").

(** ** The canvas and the component state *)

Inductive Align : Type := left | center | right.

(** [interface FieldPosition] *)
Record FieldPosition : Type := {
  x : Q;
  y : Q;
  size : Q;
  weight : string;
  width : Q;
  height : Q;
  align : option Align
}.

(** [a || b] on numbers: [a] unless it is zero. *)
Definition orElse (a b : Q) : Q := if Qeq_bool a 0 then b else a.

(** A call on the 2D context of the export canvas, or on the download
    link.  A font is kept as its three parts rather than as the string
    [`${weight} ${size}px family`]; every arc of the code is a full circle;
    [Save name] is [link.download = name; link.href = canvas.toDataURL(...);
    link.click()], which captures the canvas as it is at that moment. *)
Inductive Call : Type :=
| SetFillStyle (colour : Js.value)
| SetStrokeStyle (colour : string)
| SetLineWidth (w : Q)
| SetLineDash (segments : list Q)
| FillRect (x y w h : Q)
| StrokeRect (x y w h : Q)
| BeginPath
| Arc (x y r : Q)
| Fill
| DrawImage (src : string) (x y w h : Q)
| SetFont (weight : string) (size : Q) (family : string)
| SetTextAlign (a : Align)
| FillText (text : string) (x y : Q)
| Save (filename : string).

(** The [useState] cells of the component. *)
Record State : Type := {
  cardData : Js.object string;
  design : Js.object Js.value;
  activeField : option string;
  showIndicators : bool
}.

(** What the browser decides: whether the preview card is mounted
    ([cardRef.current]), whether a canvas gives a 2D context, and which
    image sources decode, so that their [onload] fires. *)
Record Host : Type := {
  cardRef_current : bool;
  getContext_2d : bool;
  decodes : string -> bool
}.

(** ** Handlers as programs *)

(** The outcome of a handler: its return value ([None] when an exception
    escaped), the state once the handler and its callbacks have run, the
    calls of the handler's own task, and the calls of the [onload]
    callbacks it registered, which run after that task has ended. *)
Record Outcome (A : Type) : Type := {
  returned : option A;
  stateAfter : State;
  ran : list Call;
  deferred : list Call
}.

Definition M (A : Type) : Type := Host -> State -> Outcome A.

Definition ret {A} (a : A) : M A :=
  fun _ s => {| returned := Some a; stateAfter := s; ran := []; deferred := [] |}.

Definition bind {A B} (m : M A) (f : A -> M B) : M B :=
  fun h s =>
    let o := m h s in
    match returned o with
    | None =>
        {| returned := None; stateAfter := stateAfter o;
           ran := ran o; deferred := deferred o |}
    | Some a =>
        let o' := f a h (stateAfter o) in
        {| returned := returned o'; stateAfter := stateAfter o';
           ran := ran o ++ ran o'; deferred := deferred o ++ deferred o' |}
    end.

Declare Scope handler_scope.
Delimit Scope handler_scope with handler.
Bind Scope handler_scope with M.
Notation "v <- m ;; k" := (bind m (fun v => k))
  (at level 61, m at next level, right associativity) : handler_scope.
Notation "m ;; k" := (bind m (fun _ => k))
  (at level 61, right associativity) : handler_scope.
Open Scope handler_scope.

(** A call on the context or on the link. *)
Definition call (c : Call) : M unit :=
  fun _ s => {| returned := Some tt; stateAfter := s; ran := [c]; deferred := [] |}.

(** [TypeError]: a property of [undefined] was read. *)
Definition throw {A} : M A :=
  fun _ s => {| returned := None; stateAfter := s; ran := []; deferred := [] |}.

(** The cells as the closure of the current render sees them. *)
Definition render : M State :=
  fun _ s => {| returned := Some s; stateAfter := s; ran := []; deferred := [] |}.

Definition host : M Host :=
  fun h s => {| returned := Some h; stateAfter := s; ran := []; deferred := [] |}.

Definition setCardData (f : Js.object string -> Js.object string) : M unit :=
  fun _ s =>
    {| returned := Some tt;
       stateAfter := {| cardData := f (cardData s); design := design s;
                        activeField := activeField s;
                        showIndicators := showIndicators s |};
       ran := []; deferred := [] |}.

Definition setDesign (f : Js.object Js.value -> Js.object Js.value) : M unit :=
  fun _ s =>
    {| returned := Some tt;
       stateAfter := {| cardData := cardData s; design := f (design s);
                        activeField := activeField s;
                        showIndicators := showIndicators s |};
       ran := []; deferred := [] |}.

Definition setShowIndicators (b : bool) : M unit :=
  fun _ s =>
    {| returned := Some tt;
       stateAfter := {| cardData := cardData s; design := design s;
                        activeField := activeField s; showIndicators := b |};
       ran := []; deferred := [] |}.

(** [img.onload = () => body; img.src = src] : when the source decodes the
    callback runs in a later task; an exception in it ends that task
    only. *)
Definition onload (src : string) (body : M unit) : M unit :=
  fun h s =>
    if decodes h src
    then let o := body h s in
         {| returned := Some tt; stateAfter := stateAfter o;
            ran := []; deferred := ran o ++ deferred o |}
    else {| returned := Some tt; stateAfter := s; ran := []; deferred := [] |}.

(** [list.forEach(body)] *)
Fixpoint forEach {A} (l : list A) (body : A -> M unit) : M unit :=
  match l with
  | [] => ret tt
  | a :: rest => body a ;; forEach rest body
  end.

(** All the calls a handler causes, in the order in which they happen. *)
Definition timeline {A} (o : Outcome A) : list Call := ran o ++ deferred o.

(** The picture a download captures: the calls before the first [Save],
    with the file name. *)
Fixpoint exported (calls : list Call) : option (list Call * string) :=
  match calls with
  | [] => None
  | Save name :: _ => Some ([], name)
  | c :: rest =>
      match exported rest with
      | Some (drawn, name) => Some (c :: drawn, name)
      | None => None
      end
  end.

(** [handleTextChange] (lines 79-84, 703-708, 1345-1350) *)
Definition handleTextChange (field value : string) : M unit :=
  setCardData (fun prev => prev.[field := value]).

(** [handleColorChange] (lines 86-91, 710-715, 1352-1357) *)
Definition handleColorChange (type color : string) : M unit :=
  setDesign (fun prev => prev.[type := Js.Str color]).

(** The button of lines 282, 869 and 1561. *)
Definition toggleIndicators : M unit :=
  s <- render ;; setShowIndicators (negb (showIndicators s)).

(** ** First revision (lines 1-625) *)

Module Rev1.

Local Open Scope string_scope.
Local Open Scope Q_scope.

(** [interface Template] *)
Definition Template : Type := Js.object FieldPosition.

Definition at_ (x y size : Q) (weight : string) (width height : Q)
    (align : option Align) : FieldPosition :=
  {| x := x; y := y; size := size; weight := weight;
     width := width; height := height; align := align |}.

(** [templates] (lines 44-77) *)
Definition templates : Js.object Template :=
  Js.literal
    [ ("modern", Js.literal
         [ ("name", at_ 40 60 24 "bold" 200 30 None);
           ("title", at_ 40 90 16 "normal" 180 20 None);
           ("company", at_ 40 115 14 "normal" 160 18 None);
           ("phone", at_ 40 155 12 "normal" 140 16 None);
           ("email", at_ 40 175 12 "normal" 180 16 None);
           ("website", at_ 40 195 12 "normal" 160 16 None) ]);
      ("classic", Js.literal
         [ ("name", at_ 200 60 22 "bold" 160 28 (Some center));
           ("title", at_ 200 85 14 "normal" 140 18 (Some center));
           ("company", at_ 200 105 14 "bold" 140 18 (Some center));
           ("phone", at_ 60 155 11 "normal" 120 15 None);
           ("email", at_ 60 175 11 "normal" 140 15 None);
           ("website", at_ 60 195 11 "normal" 120 15 None) ]);
      ("minimal", Js.literal
         [ ("name", at_ 200 80 26 "light" 180 32 (Some center));
           ("title", at_ 200 105 14 "normal" 120 18 (Some center));
           ("company", at_ 200 125 12 "normal" 100 16 (Some center));
           ("phone", at_ 280 165 10 "normal" 100 14 (Some right));
           ("email", at_ 280 180 10 "normal" 120 14 (Some right));
           ("website", at_ 280 195 10 "normal" 100 14 (Some right)) ]);
      ("executive", Js.literal
         [ ("name", at_ 60 50 20 "bold" 160 26 None);
           ("title", at_ 60 75 13 "normal" 140 17 None);
           ("company", at_ 60 95 15 "bold" 150 19 None);
           ("phone", at_ 240 155 11 "normal" 120 15 (Some right));
           ("email", at_ 240 175 11 "normal" 140 15 (Some right));
           ("website", at_ 240 195 11 "normal" 120 15 (Some right)) ]) ].

(** The initial [cardData] and [design] (lines 23-40). *)
Definition initialState : State :=
  {| cardData := Js.literal
       [ ("name", "John Doe");
         ("title", "Creative Director");
         ("company", "Design Studio");
         ("phone", "+1 (555) 123-4567");
         ("email", "john@designstudio.com");
         ("website", "www.designstudio.com") ];
     design := Js.literal
       [ ("backgroundColor", Js.Str "#ffffff");
         ("textColor", Js.Str "#1e293b");
         ("backgroundImage", Js.Null);
         ("template", Js.Str "modern") ];
     activeField := None;
     showIndicators := true |}.

(** [templates[design.template]] *)
Definition activeTemplate (design : Js.object Js.value) : Js.found Template :=
  Js.lookup templates (Js.toString (Js.prop design "template")).

(** [rectX] of [drawTemplateIndicators] (lines 128-134) *)
Definition rectX (pos : FieldPosition) (width : Q) : Q :=
  match align pos with
  | Some center => x pos - (width / 2) - 4
  | Some right => x pos - width - 4
  | _ => x pos - 4
  end.

(** [drawTemplateIndicators] (lines 115-159): [Object.entries] throws on
    [undefined], and finds no property to enumerate on an inherited
    member. *)
Definition drawTemplateIndicators (design : Js.object Js.value) : M unit :=
  let template := activeTemplate design in
  call (SetStrokeStyle "rgba(0, 0, 0, 0.08)") ;;
  call (SetLineWidth 1) ;;
  call (SetLineDash []) ;;
  call (SetFillStyle (Js.Str "rgba(0, 0, 0, 0.02)")) ;;
  match template with
  | Js.Missing => throw
  | Js.Inherited _ => ret tt
  | Js.Own template =>
      forEach (Js.entries template) (fun '(field, pos) =>
        let width := orElse (width pos) (size pos * 6) in
        let height := orElse (height pos) (size pos + 8) in
        let rectX := rectX pos width in
        let rectY := y pos - size pos - 3 in
        let dotSize := 2 in
        call (SetFillStyle (Js.Str "rgba(0, 0, 0, 0.15)")) ;;
        call BeginPath ;;
        call (Arc rectX rectY dotSize) ;;
        call Fill ;;
        call BeginPath ;;
        call (Arc (rectX + width + 8) rectY dotSize) ;;
        call Fill ;;
        call BeginPath ;;
        call (Arc rectX (rectY + height + 6) dotSize) ;;
        call Fill ;;
        call BeginPath ;;
        call (Arc (rectX + width + 8) (rectY + height + 6) dotSize) ;;
        call Fill)
  end.

(** [downloadTemplate] (lines 107-182) *)
Definition downloadTemplate : M unit :=
  s <- render ;;
  h <- host ;;
  if negb (getContext_2d h) then ret tt
  else
    let design := design s in
    let name :=
      ("business-card-template-"
         ++ Js.toString (Js.prop design "template") ++ ".png")%string in
    match Js.truthy (Js.prop design "backgroundImage") with
    | Some src =>
        onload src
          (call (DrawImage src 0 0 400 240) ;;
           drawTemplateIndicators design ;;
           call (Save name))
    | None =>
        call (SetFillStyle (Js.prop design "backgroundColor")) ;;
        call (FillRect 0 0 400 240) ;;
        drawTemplateIndicators design ;;
        call (Save name)
    end.

(** The body of the loop of [drawTextOnCanvas] (lines 197-212).  Reading
    [template[field]] throws when the template is [undefined], and when
    it is a built-in function and the field is [caller] or [arguments].
    The value read is a position of the template, or it is no position
    ([undefined], or a built-in), and nothing is painted. *)
Definition drawField (template : Js.found Template)
    (design : Js.object Js.value) (entry : string * string) : M unit :=
  let '(field, text) := entry in
  match template with
  | Js.Missing => throw
  | Js.Inherited member =>
      if Js.restricted member field then throw else ret tt
  | Js.Own template =>
      match template.[field] with
      | Some pos =>
          if Js.nonEmpty text
          then
            call (SetFont (weight pos) (size pos) "Arial") ;;
            call (SetFillStyle (Js.prop design "textColor")) ;;
            match align pos with
            | Some center =>
                call (SetTextAlign center) ;;
                call (FillText text (x pos) (y pos))
            | Some right =>
                call (SetTextAlign right) ;;
                call (FillText text (x pos) (y pos))
            | _ =>
                call (SetTextAlign left) ;;
                call (FillText text (x pos) (y pos))
            end
          else ret tt
      | None => ret tt
      end
  end.

(** [drawTextOnCanvas] (lines 193-214) *)
Definition drawTextOnCanvas (cardData : Js.object string)
    (design : Js.object Js.value) : M unit :=
  let template := activeTemplate design in
  forEach (Js.entries cardData) (drawField template design).

(** [cardData.name.replace(/\s+/g, '-').toLowerCase()] : reading
    [replace] of a missing name throws. *)
Definition nameSlug (cardData : Js.object string) : M string :=
  match cardData.["name"] with
  | Some name => ret (Js.toLowerCase (Js.replaceSpaces false name))
  | None => throw
  end.

(** [downloadFinalCard] (lines 184-238) *)
Definition downloadFinalCard : M unit :=
  s <- render ;;
  h <- host ;;
  if cardRef_current h
  then
    if negb (getContext_2d h) then ret tt
    else
      let cardData := cardData s in
      let design := design s in
      match Js.truthy (Js.prop design "backgroundImage") with
      | Some src =>
          onload src
            (call (DrawImage src 0 0 400 240) ;;
             drawTextOnCanvas cardData design ;;
             slug <- nameSlug cardData ;;
             call (Save ("business-card-final-" ++ slug ++ ".png")%string))
      | None =>
          call (SetFillStyle (Js.prop design "backgroundColor")) ;;
          call (FillRect 0 0 400 240) ;;
          drawTextOnCanvas cardData design ;;
          slug <- nameSlug cardData ;;
          call (Save ("business-card-final-" ++ slug ++ ".png")%string)
      end
  else ret tt.

End Rev1.

(** ** Third revision (lines 1209-1963) *)

Module Rev3.

Local Open Scope string_scope.
Local Open Scope Q_scope.

(** A property of a template: [interface Template] (lines 1228-1232)
    gives it a [name] and a [description] that are strings, beside the
    field positions. *)
Inductive TemplateValue : Type :=
| Text (s : string)
| Position (pos : FieldPosition).

Definition Template : Type := Js.object TemplateValue.

Definition at_ (x y size : Q) (weight : string) (width height : Q)
    (align : option Align) : TemplateValue :=
  Position {| x := x; y := y; size := size; weight := weight;
              width := width; height := height; align := align |}.

(** [templates] (lines 1262-1343): every literal writes the key [name]
    twice. *)
Definition templates : Js.object Template :=
  Js.literal
    [ ("modern", Js.literal
         [ ("name", Text "Modern Professional");
           ("description", Text "Clean left-aligned layout with bold typography");
           ("name", at_ 40 60 24 "bold" 200 30 None);
           ("title", at_ 40 90 16 "normal" 180 20 None);
           ("company", at_ 40 115 14 "normal" 160 18 None);
           ("phone", at_ 40 155 12 "normal" 140 16 None);
           ("email", at_ 40 175 12 "normal" 180 16 None);
           ("website", at_ 40 195 12 "normal" 160 16 None) ]);
      ("classic", Js.literal
         [ ("name", Text "Classic Centered");
           ("description", Text "Traditional centered design with elegant spacing");
           ("name", at_ 200 60 22 "bold" 160 28 (Some center));
           ("title", at_ 200 85 14 "normal" 140 18 (Some center));
           ("company", at_ 200 105 14 "bold" 140 18 (Some center));
           ("phone", at_ 60 155 11 "normal" 120 15 None);
           ("email", at_ 60 175 11 "normal" 140 15 None);
           ("website", at_ 60 195 11 "normal" 120 15 None) ]);
      ("minimal", Js.literal
         [ ("name", Text "Minimal Elegant");
           ("description", Text "Spacious layout with right-aligned contact info");
           ("name", at_ 200 80 26 "light" 180 32 (Some center));
           ("title", at_ 200 105 14 "normal" 120 18 (Some center));
           ("company", at_ 200 125 12 "normal" 100 16 (Some center));
           ("phone", at_ 360 165 10 "normal" 100 14 (Some right));
           ("email", at_ 360 180 10 "normal" 120 14 (Some right));
           ("website", at_ 360 195 10 "normal" 100 14 (Some right)) ]);
      ("executive", Js.literal
         [ ("name", Text "Executive Bold");
           ("description", Text "Corporate style with strong hierarchy");
           ("name", at_ 60 50 20 "bold" 160 26 None);
           ("title", at_ 60 75 13 "normal" 140 17 None);
           ("company", at_ 60 95 15 "bold" 150 19 None);
           ("phone", at_ 340 155 11 "normal" 120 15 (Some right));
           ("email", at_ 340 175 11 "normal" 140 15 (Some right));
           ("website", at_ 340 195 11 "normal" 120 15 (Some right)) ]);
      ("creative", Js.literal
         [ ("name", Text "Creative Asymmetric");
           ("description", Text "Dynamic layout with creative positioning");
           ("name", at_ 50 70 28 "bold" 220 34 None);
           ("title", at_ 50 100 16 "normal" 180 20 None);
           ("company", at_ 280 50 14 "bold" 100 18 (Some right));
           ("phone", at_ 50 160 12 "normal" 140 16 None);
           ("email", at_ 50 180 12 "normal" 180 16 None);
           ("website", at_ 280 200 12 "normal" 100 16 (Some right)) ]);
      ("corporate", Js.literal
         [ ("name", Text "Corporate Standard");
           ("description", Text "Professional business layout with clear hierarchy");
           ("name", at_ 40 55 22 "bold" 180 28 None);
           ("title", at_ 40 80 14 "normal" 160 18 None);
           ("company", at_ 40 100 16 "bold" 170 20 None);
           ("phone", at_ 40 140 11 "normal" 130 15 None);
           ("email", at_ 40 160 11 "normal" 170 15 None);
           ("website", at_ 40 180 11 "normal" 150 15 None) ]);
      ("boutique", Js.literal
         [ ("name", Text "Boutique Luxury");
           ("description", Text "Elegant centered layout for premium brands");
           ("name", at_ 200 90 24 "light" 200 30 (Some center));
           ("title", at_ 200 115 13 "normal" 150 17 (Some center));
           ("company", at_ 200 135 11 "normal" 120 15 (Some center));
           ("phone", at_ 200 170 10 "normal" 110 14 (Some center));
           ("email", at_ 200 185 10 "normal" 140 14 (Some center));
           ("website", at_ 200 200 10 "normal" 120 14 (Some center)) ]);
      ("startup", Js.literal
         [ ("name", Text "Startup Dynamic");
           ("description", Text "Modern tech-focused layout with energy");
           ("name", at_ 45 65 26 "bold" 210 32 None);
           ("title", at_ 45 95 15 "normal" 170 19 None);
           ("company", at_ 45 120 13 "bold" 150 17 None);
           ("phone", at_ 320 150 11 "normal" 120 15 (Some right));
           ("email", at_ 320 170 11 "normal" 150 15 (Some right));
           ("website", at_ 320 190 11 "normal" 130 15 (Some right)) ]) ].

(** The initial [cardData] and [design] (lines 1239-1257). *)
Definition initialState : State :=
  {| cardData := Js.literal
       [ ("name", "John Doe");
         ("title", "Creative Director");
         ("company", "Design Studio");
         ("phone", "+1 (555) 123-4567");
         ("email", "john@designstudio.com");
         ("website", "www.designstudio.com") ];
     design := Js.literal
       [ ("backgroundColor", Js.Str "#ffffff");
         ("textColor", Js.Str "#1e293b");
         ("backgroundImage", Js.Null);
         ("logoImage", Js.Null);
         ("template", Js.Str "modern") ];
     activeField := None;
     showIndicators := true |}.

(** [templates[design.template]] *)
Definition activeTemplate (design : Js.object Js.value) : Js.found Template :=
  Js.lookup templates (Js.toString (Js.prop design "template")).

(** [field === 'name' || field === 'description'] *)
Definition isMeta (field : string) : bool :=
  String.eqb field "name" || String.eqb field "description".

(** [rectX] of [drawTemplate] (lines 1405-1410) *)
Definition rectX (pos : FieldPosition) (width : Q) : Q :=
  match align pos with
  | Some center => x pos - (width / 2) - 4
  | Some right => x pos - width - 4
  | _ => x pos - 4
  end.

(** [drawTemplate] (lines 1395-1423): [Object.entries] throws on
    [undefined], and finds no property to enumerate on an inherited
    member.  A text under another key than [name] and [description]
    would give coordinates that are not numbers; [templates] has none. *)
Definition drawTemplate (design : Js.object Js.value) : M unit :=
  match activeTemplate design with
  | Js.Missing => throw
  | Js.Inherited _ => ret tt
  | Js.Own template =>
      forEach (Js.entries template) (fun '(field, value) =>
        if isMeta field then ret tt
        else
          match value with
          | Text _ => ret tt
          | Position pos =>
              let width := orElse (width pos) 150 in
              let height := orElse (height pos) (size pos + 8) in
              let rectX := rectX pos width in
              let rectY := y pos - size pos - 3 in
              call (SetStrokeStyle "rgba(59, 130, 246, 0.3)") ;;
              call (SetLineWidth 1) ;;
              call (StrokeRect rectX rectY (width + 8) (height + 6)) ;;
              call (SetFillStyle (Js.Str "rgba(59, 130, 246, 0.05)")) ;;
              call (FillRect rectX rectY (width + 8) (height + 6))
          end)
  end.

(** [downloadTemplate] (lines 1387-1446) *)
Definition downloadTemplate : M unit :=
  s <- render ;;
  h <- host ;;
  if negb (getContext_2d h) then ret tt
  else
    let design := design s in
    let name :=
      ("ai-template-" ++ Js.toString (Js.prop design "template") ++ ".png")%string in
    match Js.truthy (Js.prop design "backgroundImage") with
    | Some src =>
        onload src
          (call (DrawImage src 0 0 400 240) ;;
           drawTemplate design ;;
           call (Save name))
    | None =>
        call (SetFillStyle (Js.prop design "backgroundColor")) ;;
        call (FillRect 0 0 400 240) ;;
        drawTemplate design ;;
        call (Save name)
    end.

(** The body of the loop of [drawText] (lines 1475-1490).  Reading
    [template[field]], the first operand of the test, throws when the
    template is [undefined], and when it is a built-in function and the
    field is [caller] or [arguments].  The test is true of a position and
    of a text that is not empty; a text passes the whole test under no
    key of [templates]; any other value read is no position, and nothing
    is painted. *)
Definition drawField (template : Js.found Template)
    (design : Js.object Js.value) (entry : string * string) : M unit :=
  let '(field, text) := entry in
  match template with
  | Js.Missing => throw
  | Js.Inherited member =>
      if Js.restricted member field then throw else ret tt
  | Js.Own template =>
      match template.[field] with
      | Some (Position pos) =>
          if Js.nonEmpty text && negb (String.eqb field "name")
             && negb (String.eqb field "description")
          then
            call (SetFont (weight pos) (size pos) "Arial, sans-serif") ;;
            call (SetFillStyle (Js.prop design "textColor")) ;;
            match align pos with
            | Some center =>
                call (SetTextAlign center) ;;
                call (FillText text (x pos) (y pos))
            | Some right =>
                call (SetTextAlign right) ;;
                call (FillText text (x pos) (y pos))
            | _ =>
                call (SetTextAlign left) ;;
                call (FillText text (x pos) (y pos))
            end
          else ret tt
      | Some (Text _) => ret tt
      | None => ret tt
      end
  end.

(** [drawText] (lines 1473-1492) *)
Definition drawText (template : Js.found Template)
    (cardData : Js.object string) (design : Js.object Js.value) : M unit :=
  forEach (Js.entries cardData) (drawField template design).

(** [drawFinalCard] (lines 1456-1493) *)
Definition drawFinalCard (cardData : Js.object string)
    (design : Js.object Js.value) : M unit :=
  let template := activeTemplate design in
  match Js.truthy (Js.prop design "logoImage") with
  | Some logo =>
      onload logo
        (let logoSize := 40 in
         call (DrawImage logo 340 20 logoSize logoSize) ;;
         drawText template cardData design)
  | None => drawText template cardData design
  end.

(** [cardData.name.replace(/\s+/g, '-').toLowerCase()] *)
Definition nameSlug (cardData : Js.object string) : M string :=
  match cardData.["name"] with
  | Some name => ret (Js.toLowerCase (Js.replaceSpaces false name))
  | None => throw
  end.

(** [downloadFinalCard] (lines 1448-1516) *)
Definition downloadFinalCard : M unit :=
  s <- render ;;
  h <- host ;;
  if negb (getContext_2d h) then ret tt
  else
    let cardData := cardData s in
    let design := design s in
    match Js.truthy (Js.prop design "backgroundImage") with
    | Some src =>
        onload src
          (call (DrawImage src 0 0 400 240) ;;
           drawFinalCard cardData design ;;
           slug <- nameSlug cardData ;;
           call (Save ("business-card-" ++ slug ++ ".png")%string))
    | None =>
        call (SetFillStyle (Js.prop design "backgroundColor")) ;;
        call (FillRect 0 0 400 240) ;;
        drawFinalCard cardData design ;;
        slug <- nameSlug cardData ;;
        call (Save ("business-card-" ++ slug ++ ".png")%string)
    end.

End Rev3.

(** ** The history of the pipeline engine

    [core/types/pipeline.types.ts] declares [PipelineState],
    [HistoryState] and [PipelineSnapshot] (lines 59-152); the engine that
    implements [undo] and [redo] is not part of the sources. *)

Module Pipeline.

(** [interface PipelineSnapshot] (lines 147-152): its [fields] and
    [design], named apart from those of the state, and its time as a
    number of milliseconds. *)
Record PipelineSnapshot : Type := {
  snapFields : Js.object string;
  snapDesign : Js.object Js.value;
  timestamp : Z
}.

(** [interface HistoryState] (lines 140-145): the head of a stack is its
    most recent snapshot; [canUndo] and [canRedo] are read off the
    stacks. *)
Record HistoryState : Type := {
  past : list PipelineSnapshot;
  future : list PipelineSnapshot
}.

Definition canUndo (h : HistoryState) : bool :=
  match past h with [] => false | _ :: _ => true end.

Definition canRedo (h : HistoryState) : bool :=
  match future h with [] => false | _ :: _ => true end.

Section Engine.

(** The cells no history operation reads or writes: status, widget,
    template, preset, generation state, render state and errors. *)
Variable Other : Type.

(** [interface PipelineState] (lines 59-93) *)
Record PipelineState : Type := {
  fields : Js.object string;
  design : Js.object Js.value;
  isDirty : bool;
  history : HistoryState;
  other : Other
}.

(** Modelled from the spec: the update operations merge the given values
    into the current ones (section 4.5), as [{...o, ...patch}] does; the
    engine is missing from the sources. *)
Definition merge {A} (o patch : Js.object A) : Js.object A :=
  fold_left (fun acc kv => acc.[fst kv := snd kv]) (Js.entries patch) o.

(** Modelled from the spec: a [HistorySnapshot] is an immutable
    capture of [{fields, design, timestamp}] (section 3); the engine
    that takes it is missing from the sources. *)
Definition snapshot (now : Z) (st : PipelineState) : PipelineSnapshot :=
  {| snapFields := fields st; snapDesign := design st; timestamp := now |}.

(** Modelled from the spec: [initialize] sets the loaded defaults and
    pushes the initial history snapshot (section 4.5); the engine is
    missing from the sources. *)
Definition initialize (now : Z) (fields0 : Js.object string)
    (design0 : Js.object Js.value) (other0 : Other) : PipelineState :=
  let st := {| fields := fields0; design := design0; isDirty := false;
               history := {| past := []; future := [] |};
               other := other0 |} in
  {| fields := fields0; design := design0; isDirty := false;
     history := {| past := [snapshot now st]; future := [] |};
     other := other0 |}.

(** Modelled from the spec: [updateFields(values)] merges into the
    current state, marks it dirty and pushes a snapshot of the prior
    state; pushing a new mutation clears the future stack (sections 3
    and 4.5); the engine is missing from the sources. *)
Definition updateFields (now : Z) (values : Js.object string)
    (st : PipelineState) : PipelineState :=
  {| fields := merge (fields st) values;
     design := design st;
     isDirty := true;
     history := {| past := snapshot now st :: past (history st);
                   future := [] |};
     other := other st |}.

(** Modelled from the spec: [updateDesign(patch)], as [updateFields]
    (section 4.5); the engine is missing from the sources. *)
Definition updateDesign (now : Z) (patch : Js.object Js.value)
    (st : PipelineState) : PipelineState :=
  {| fields := fields st;
     design := merge (design st) patch;
     isDirty := true;
     history := {| past := snapshot now st :: past (history st);
                   future := [] |};
     other := other st |}.

(** Modelled from the spec: [undo()] pops the past stack and pushes on
    the future stack; applying a snapshot replaces fields and design
    wholesale; beyond the oldest snapshot it is a no-op (sections 4.5
    and 8); the engine is missing from the sources.  What is pushed is
    a snapshot of the state that is left, which is what lets [redo]
    come back to it. *)
Definition undo (now : Z) (st : PipelineState) : PipelineState :=
  match past (history st) with
  | [] => st
  | snap :: older =>
      {| fields := snapFields snap;
         design := snapDesign snap;
         isDirty := isDirty st;
         history := {| past := older;
                       future := snapshot now st :: future (history st) |};
         other := other st |}
  end.

(** Modelled from the spec: [redo()], the mirror image of [undo]; with
    an empty future stack it is a no-op (sections 4.5 and 8); the
    engine is missing from the sources. *)
Definition redo (now : Z) (st : PipelineState) : PipelineState :=
  match future (history st) with
  | [] => st
  | snap :: newer =>
      {| fields := snapFields snap;
         design := snapDesign snap;
         isDirty := isDirty st;
         history := {| past := snapshot now st :: past (history st);
                       future := newer |};
         other := other st |}
  end.

(** A call of [updateFields] or of [updateDesign]. *)
Inductive Mutation : Type :=
| UpdateFields (values : Js.object string)
| UpdateDesign (patch : Js.object Js.value).

Definition mutate (st : PipelineState) (m : Z * Mutation) : PipelineState :=
  match snd m with
  | UpdateFields values => updateFields (fst m) values st
  | UpdateDesign patch => updateDesign (fst m) patch st
  end.

(** Mutations, undos and redos in call order, each at its time. *)
Definition mutateAll (ms : list (Z * Mutation)) (st : PipelineState) :=
  fold_left mutate ms st.

Definition undoAll (times : list Z) (st : PipelineState) :=
  fold_left (fun s now => undo now s) times st.

Definition redoAll (times : list Z) (st : PipelineState) :=
  fold_left (fun s now => redo now s) times st.

(** What of a snapshot is applied. *)
Definition content (snap : PipelineSnapshot) :=
  (snapFields snap, snapDesign snap).

(** Two states that differ at most in the times of their snapshots. *)
Definition sameState (a b : PipelineState) : Prop :=
  fields a = fields b /\ design a = design b /\ isDirty a = isDirty b
  /\ other a = other b
  /\ map content (past (history a)) = map content (past (history b))
  /\ map content (future (history a)) = map content (future (history b)).

End Engine.

End Pipeline.

(** ** Observations on outcomes *)

(** The alignment a field is drawn with: [left] unless it says otherwise. *)
Definition alignment (pos : FieldPosition) : Align :=
  match align pos with
  | Some a => a
  | None => left
  end.

(** The texts painted by a list of calls, each with its origin. *)
Fixpoint textOrigins (calls : list Call) : list (string * Q * Q) :=
  match calls with
  | [] => []
  | FillText text x y :: rest => (text, x, y) :: textOrigins rest
  | _ :: rest => textOrigins rest
  end.

(** The file name under which a handler saved its canvas, if it did. *)
Definition savedAs {A} (o : Outcome A) : option string :=
  option_map snd (exported (timeline o)).

(** The calls baked into the saved picture. *)
Definition savedPicture {A} (o : Outcome A) : list Call :=
  match exported (timeline o) with
  | Some (drawn, _) => drawn
  | None => []
  end.

(** [m] only draws: it returns, leaves the state alone, registers no
    callback and issues the calls [cs]. *)
Definition draws (m : M unit) (cs : list Call) : Prop :=
  forall h s,
    m h s = {| returned := Some tt; stateAfter := s; ran := cs; deferred := [] |}.

(** [m] calls no setter, neither in its task nor in its callbacks. *)
Definition readOnly {A} (m : M A) : Prop :=
  forall h s, stateAfter (m h s) = s.

(** The same state with the guides toggle at [b]. *)
Definition withIndicators (b : bool) (s : State) : State :=
  {| cardData := cardData s; design := design s;
     activeField := activeField s; showIndicators := b |}.

(** A call that paints the whole 400 x 240 canvas. *)
Definition paintsCanvas (c : Call) : bool :=
  match c with
  | FillRect x y w h | DrawImage _ x y w h =>
      Qeq_bool x 0 && Qeq_bool y 0 && Qeq_bool w 400 && Qeq_bool h 240
  | _ => false
  end.

(** No text is painted before the canvas has been painted whole;
    [painted] tells that it has been. *)
Fixpoint textAfterBackground (painted : bool) (calls : list Call) : bool :=
  match calls with
  | [] => true
  | FillText _ _ _ :: rest => painted && textAfterBackground painted rest
  | c :: rest => textAfterBackground (painted || paintsCanvas c) rest
  end.

(** A call by which the guides are drawn: the corner dots of
    [Rev1.drawTemplateIndicators], the outlines of [Rev3.drawTemplate]. *)
Definition isGuideCall (c : Call) : bool :=
  match c with
  | SetStrokeStyle _ | SetLineWidth _ | SetLineDash _ | StrokeRect _ _ _ _
  | BeginPath | Arc _ _ _ | Fill => true
  | FillRect _ _ _ _ => negb (paintsCanvas c)
  | _ => false
  end.

(** What a call of the final card may be, in the state [s]: the
    background, the logo, or the value of a card-data entry painted in the
    text colour; never a stroke, a path, a rectangle inside the canvas or
    the label of a field. *)
Definition finalCardCall (s : State) (c : Call) : Prop :=
  match c with
  | SetFillStyle colour =>
      colour = Js.prop (design s) "backgroundColor"
      \/ colour = Js.prop (design s) "textColor"
  | FillRect x y w h => (x, y, w, h) = (0, 0, 400, 240)
  | DrawImage src x y w h =>
      (Js.truthy (Js.prop (design s) "backgroundImage") = Some src
       /\ (x, y, w, h) = (0, 0, 400, 240))
      \/ (Js.truthy (Js.prop (design s) "logoImage") = Some src
          /\ (x, y, w, h) = (340, 20, 40, 40))
  | SetFont _ _ _ | SetTextAlign _ | Save _ => True
  | FillText text _ _ => exists field, In (field, text) (Js.entries (cardData s))
  | _ => False
  end.

(** The origin the specification gives to a field of box width [w]:
    the anchor, moved left by half the box when centred and by the whole
    box when right-aligned. *)
Definition specOrigin (pos : FieldPosition) (w : Q) : Q :=
  match align pos with
  | Some center => x pos - w / 2
  | Some right => x pos - w
  | _ => x pos
  end.

(** A host in which the card is mounted, the canvas has a context and
    every image decodes. *)
Definition browser : Host :=
  {| cardRef_current := true; getContext_2d := true; decodes := fun _ => true |}.

(** *** The calls of the final card, as a function of the captured values *)

Definition slugOf (name : string) : string :=
  Js.toLowerCase (Js.replaceSpaces false name).

(** The calls of [Rev1.drawField] under the template [tpl]. *)
Definition rev1FieldCalls (tpl : Rev1.Template) (d : Js.object Js.value)
    (entry : string * string) : list Call :=
  match tpl.[fst entry] with
  | Some pos =>
      if Js.nonEmpty (snd entry)
      then [ SetFont (weight pos) (size pos) "Arial";
             SetFillStyle (Js.prop d "textColor");
             SetTextAlign (alignment pos);
             FillText (snd entry) (x pos) (y pos) ]
      else []
  | None => []
  end.

Definition rev1Save (cd : Js.object string) : list Call :=
  match cd.["name"] with
  | Some name => [Save ("business-card-final-" ++ slugOf name ++ ".png")%string]
  | None => []
  end.

(** Whether the loop over the entries of the card data comes to its end:
    under a template of the table it does; when the key names nothing the
    first entry throws; under an inherited built-in function an entry
    called [caller] or [arguments] throws. *)
Definition loopEnds {T} (template : Js.found T) (cd : Js.object string) : bool :=
  match template with
  | Js.Own _ => true
  | Js.Inherited member =>
      forallb (fun entry => negb (Js.restricted member (fst entry)))
        (Js.entries cd)
  | Js.Missing =>
      match Js.entries cd with
      | [] => true
      | _ :: _ => false
      end
  end.

(** The calls of [Rev1.drawTextOnCanvas]: only a template of the table
    places a text. *)
Definition rev1Text (cd : Js.object string) (d : Js.object Js.value)
    : list Call :=
  match Rev1.activeTemplate d with
  | Js.Own tpl => flat_map (rev1FieldCalls tpl d) (Js.entries cd)
  | _ => []
  end.

(** After the background: the texts, then the download, which is reached
    when the loop has come to its end and the card data has a name. *)
Definition rev1AfterBackground (cd : Js.object string)
    (d : Js.object Js.value) : list Call :=
  rev1Text cd d
    ++ (if loopEnds (Rev1.activeTemplate d) cd then rev1Save cd else []).

Definition rev1FinalCard (h : Host) (cd : Js.object string)
    (d : Js.object Js.value) : list Call :=
  if cardRef_current h && getContext_2d h
  then
    match Js.truthy (Js.prop d "backgroundImage") with
    | Some src =>
        if decodes h src
        then DrawImage src 0 0 400 240 :: rev1AfterBackground cd d
        else []
    | None =>
        SetFillStyle (Js.prop d "backgroundColor")
          :: FillRect 0 0 400 240 :: rev1AfterBackground cd d
    end
  else [].

(** The calls of [Rev3.drawField] under the template [tpl]. *)
Definition rev3FieldCalls (tpl : Rev3.Template) (d : Js.object Js.value)
    (entry : string * string) : list Call :=
  match tpl.[fst entry] with
  | Some (Rev3.Position pos) =>
      if Js.nonEmpty (snd entry) && negb (String.eqb (fst entry) "name")
         && negb (String.eqb (fst entry) "description")
      then [ SetFont (weight pos) (size pos) "Arial, sans-serif";
             SetFillStyle (Js.prop d "textColor");
             SetTextAlign (alignment pos);
             FillText (snd entry) (x pos) (y pos) ]
      else []
  | _ => []
  end.

(** The calls of [Rev3.drawText]: only a template of the table places a
    text. *)
Definition rev3Text (cd : Js.object string) (d : Js.object Js.value)
    : list Call :=
  match Rev3.activeTemplate d with
  | Js.Own tpl => flat_map (rev3FieldCalls tpl d) (Js.entries cd)
  | _ => []
  end.

Definition rev3Save (cd : Js.object string) : list Call :=
  match cd.["name"] with
  | Some name => [Save ("business-card-" ++ slugOf name ++ ".png")%string]
  | None => []
  end.

(** After the background: with a logo the download comes first, and the
    logo and the texts are painted once the logo has decoded; without
    one the download is reached when the loop of [drawText] has come to
    its end. *)
Definition rev3AfterBackground (h : Host) (cd : Js.object string)
    (d : Js.object Js.value) : list Call :=
  match Js.truthy (Js.prop d "logoImage") with
  | Some logo =>
      rev3Save cd
        ++ (if decodes h logo
            then DrawImage logo 340 20 40 40 :: rev3Text cd d
            else [])
  | None =>
      rev3Text cd d
        ++ (if loopEnds (Rev3.activeTemplate d) cd then rev3Save cd else [])
  end.

Definition rev3FinalCard (h : Host) (cd : Js.object string)
    (d : Js.object Js.value) : list Call :=
  if getContext_2d h
  then
    match Js.truthy (Js.prop d "backgroundImage") with
    | Some src =>
        if decodes h src
        then DrawImage src 0 0 400 240 :: rev3AfterBackground h cd d
        else []
    | None =>
        SetFillStyle (Js.prop d "backgroundColor")
          :: FillRect 0 0 400 240 :: rev3AfterBackground h cd d
    end
  else [].

(** The initial state of the first revision with the other cells changed:
    a field selected and the guides hidden. *)
Definition guidesHidden : State :=
  {| cardData := cardData Rev1.initialState;
     design := design Rev1.initialState;
     activeField := Some "name"%string;
     showIndicators := false |}.

Definition isSave (c : Call) : bool :=
  match c with
  | Save _ => true
  | _ => false
  end.

(** The texts painted by a list of calls. *)
Definition paintedTexts (calls : list Call) : list string :=
  map (fun t => fst (fst t)) (textOrigins calls).

(** The two revisions of the export, and the prefix each gives its file. *)
Inductive Revision : Type := First | Third.

Definition finalCardOf (r : Revision) : M unit :=
  match r with
  | First => Rev1.downloadFinalCard
  | Third => Rev3.downloadFinalCard
  end.

Definition filePrefix (r : Revision) : string :=
  match r with
  | First => "business-card-final-"
  | Third => "business-card-"
  end.

(** The background of the final card. *)
Definition backgroundCalls (d : Js.object Js.value) : list Call :=
  match Js.truthy (Js.prop d "backgroundImage") with
  | Some src => [DrawImage src 0 0 400 240]
  | None => [SetFillStyle (Js.prop d "backgroundColor"); FillRect 0 0 400 240]
  end.

(** The background image, if there is one, decodes. *)
Definition backgroundLoads (h : Host) (d : Js.object Js.value) : bool :=
  match Js.truthy (Js.prop d "backgroundImage") with
  | Some src => decodes h src
  | None => true
  end.

(** Whether the export gets to paint: the first revision returns at once
    when the preview card is not mounted; both return when the canvas
    gives no context; and nothing happens when the background image does
    not decode, as all the rest is in its [onload]. *)
Definition exportPaints (r : Revision) (h : Host) (d : Js.object Js.value)
    : bool :=
  match r with
  | First => cardRef_current h
  | Third => true
  end
  && getContext_2d h && backgroundLoads h d.

(** The calls of one field in [Rev1.drawTemplateIndicators]. *)
Definition rev1IndicatorCalls (entry : string * FieldPosition) : list Call :=
  let pos := snd entry in
  let width := orElse (width pos) (size pos * 6) in
  let height := orElse (height pos) (size pos + 8) in
  let rectX := Rev1.rectX pos width in
  let rectY := y pos - size pos - 3 in
  [ SetFillStyle (Js.Str "rgba(0, 0, 0, 0.15)");
    BeginPath; Arc rectX rectY 2; Fill;
    BeginPath; Arc (rectX + width + 8) rectY 2; Fill;
    BeginPath; Arc rectX (rectY + height + 6) 2; Fill;
    BeginPath; Arc (rectX + width + 8) (rectY + height + 6) 2; Fill ].

(** States used as examples: the classic template selected; the name of
    the scenario of the specification; a logo uploaded in the third
    revision; a name with a slash. *)
Definition classicState : State :=
  stateAfter (handleColorChange "template" "classic" browser Rev1.initialState).

Definition averyChen : State :=
  stateAfter (handleTextChange "name" "Avery Chen" browser Rev1.initialState).

Definition withLogo : State :=
  stateAfter (handleColorChange "logoImage" "data:image/png;base64,AAAA"
                browser Rev3.initialState).

Definition slashName : State :=
  stateAfter (handleTextChange "name" "A/B Testing" browser Rev1.initialState).

Definition classicName : FieldPosition :=
  {| x := 200; y := 60; size := 22; weight := "bold";
     width := 160; height := 28; align := Some center |}.

(** A session of the pipeline engine used as an example: the card of the
    first revision loaded at time 0. *)
Definition loadedPipeline : Pipeline.PipelineState unit :=
  Pipeline.initialize 0%Z (cardData Rev1.initialState) (design Rev1.initialState) tt.

Definition twoMutations : list (Z * Pipeline.Mutation) :=
  [ (5%Z, Pipeline.UpdateFields [("name"%string, "Avery Chen"%string)]);
    (9%Z, Pipeline.UpdateDesign [("textColor"%string, Js.Str "#000000")]) ].

(** The part of each export that follows the background. *)
Definition rev1Rest (cd : Js.object string) (d : Js.object Js.value) : M unit :=
  Rev1.drawTextOnCanvas cd d ;;
  slug <- Rev1.nameSlug cd ;;
  call (Save ("business-card-final-" ++ slug ++ ".png")%string).

Definition rev3Rest (cd : Js.object string) (d : Js.object Js.value) : M unit :=
  Rev3.drawFinalCard cd d ;;
  slug <- Rev3.nameSlug cd ;;
  call (Save ("business-card-" ++ slug ++ ".png")%string).

(** ** The other handlers of the component *)

(** [!!o] of an optional value. *)
Definition isSome {A} (o : option A) : bool :=
  match o with
  | Some _ => true
  | None => false
  end.

Definition setActiveField (f : option string) : M unit :=
  fun _ s =>
    {| returned := Some tt;
       stateAfter := {| cardData := cardData s; design := design s;
                        activeField := f;
                        showIndicators := showIndicators s |};
       ran := []; deferred := [] |}.

(** A text of the preview clicked (lines 448, 1029, 1733). *)
Definition selectField (field : string) : M unit :=
  setActiveField (Some field).

(** A template button clicked (lines 472, 1053, 1767). *)
Definition selectTemplate (template : string) : M unit :=
  setDesign (fun prev => prev.["template" := Js.Str template]).

(** [Remove Background Image] (lines 563, 1146, 1894). *)
Definition removeBackgroundImage : M unit :=
  setDesign (fun prev => prev.["backgroundImage" := Js.Null]).

(** The logo removed (line 1861). *)
Definition removeLogoImage : M unit :=
  setDesign (fun prev => prev.["logoImage" := Js.Null]).

(** A file of the file input, with what [FileReader.readAsDataURL] makes
    of it: the data URL handed to [reader.onload], or nothing when the
    read fails and [onload] never fires. *)
Record File : Type := {
  readAsDataURL : option string
}.

(** [handleImageUpload] (lines 93-105, 717-729), [handleBackgroundUpload]
    (lines 1359-1371): the setter runs in the callback of the reader, on
    the design of that moment. *)
Definition handleImageUpload (files : list File) : M unit :=
  match files with
  | [] => ret tt
  | file :: _ =>
      match readAsDataURL file with
      | Some result =>
          setDesign (fun prev => prev.["backgroundImage" := Js.Str result])
      | None => ret tt
      end
  end.

(** [handleLogoUpload] (lines 1373-1385) *)
Definition handleLogoUpload (files : list File) : M unit :=
  match files with
  | [] => ret tt
  | file :: _ =>
      match readAsDataURL file with
      | Some result =>
          setDesign (fun prev => prev.["logoImage" := Js.Str result])
      | None => ret tt
      end
  end.

(** An element of the card preview, with the values of its [style]: the
    outline, the label and the corner dots of a guide, the logo, and the
    text of a field. *)
Record TextBox : Type := {
  boxField : string;
  boxContent : string;
  boxLeft : Q;
  boxTop : Q;
  fontSize : Q;
  fontWeight : string;
  color : Js.value;
  textAlign : Align;
  transform : string;
  minWidth : option Q;
  minHeight : Q;
  ringed : bool
}.

Inductive Element : Type :=
| Outline (field : string) (left top width height : Q)
| Label (field : string) (left top : Q)
| Dot (left top : Q)
| Logo (src : string)
| Text (box : TextBox).

(** The text element of a field (lines 427-451, 1712-1736): an empty text
    shows the name of the field in brackets. *)
Definition textBox (activeField : option string) (design : Js.object Js.value)
    (field text : string) (pos : FieldPosition) : TextBox :=
  {| boxField := field;
     boxContent := if Js.nonEmpty text then text else ("[" ++ field ++ "]")%string;
     boxLeft := x pos;
     boxTop := y pos - size pos;
     fontSize := size pos;
     fontWeight := weight pos;
     color := Js.prop design "textColor";
     textAlign := match align pos with
                  | Some center => center
                  | Some right => right
                  | _ => left
                  end;
     transform := match align pos with
                  | Some center => "translateX(-50%)"
                  | Some right => "translateX(-100%)"
                  | _ => ""
                  end;
     minWidth := if Qeq_bool (width pos) 0 then None else Some (width pos);
     minHeight := size pos + 4;
     ringed := match activeField with
               | Some f => String.eqb f field
               | None => false
               end |}.

(** ** More of the first revision *)

Module Rev1Ui.

Local Open Scope string_scope.
Local Open Scope Q_scope.

(** [resetToDefault] (lines 240-255) *)
Definition resetToDefault : M unit :=
  setCardData (fun _ => Js.literal
    [ ("name", "John Doe");
      ("title", "Creative Director");
      ("company", "Design Studio");
      ("phone", "+1 (555) 123-4567");
      ("email", "john@designstudio.com");
      ("website", "www.designstudio.com") ]) ;;
  setDesign (fun _ => Js.literal
    [ ("backgroundColor", Js.Str "#ffffff");
      ("textColor", Js.Str "#1e293b");
      ("backgroundImage", Js.Null);
      ("template", Js.Str "modern") ]).

(** The guide of one field in the preview (lines 364-418). *)
Definition indicator (entry : string * FieldPosition) : list Element :=
  let '(field, pos) := entry in
  let width := orElse (width pos) 150 in
  let height := orElse (height pos) (size pos + 8) in
  let rectX := Rev1.rectX pos width in
  let rectY := y pos - size pos - 3 in
  [ Outline field rectX rectY (width + 8) (height + 6);
    Label field rectX (rectY - 24);
    Dot (rectX - 1) (rectY - 1);
    Dot (rectX + width + 7) (rectY - 1) ].

(** The text of one entry in the preview (lines 423-453), for an entry
    that the template places. *)
Definition textElement (template : Rev1.Template) (s : State)
    (entry : string * string) : list Element :=
  let '(field, text) := entry in
  match template.[field] with
  | Some pos => [Text (textBox (activeField s) (design s) field text pos)]
  | None => []
  end.

(** The children of the card in the preview (lines 361-453), those that
    a position places.  When the key of the template names nothing the
    render throws, at [Object.entries] when the guides are shown and at
    the first entry of the card data.  An inherited member has no
    property to enumerate and places no text; when it is a built-in
    function the render throws at an entry called [caller] or
    [arguments]. *)
Definition cardPreview (s : State) : option (list Element) :=
  match Rev1.activeTemplate (design s) with
  | Js.Own template =>
      Some ((if showIndicators s
             then flat_map indicator (Js.entries template)
             else [])
              ++ flat_map (textElement template s) (Js.entries (cardData s)))%list
  | Js.Inherited member =>
      if existsb (fun entry => Js.restricted member (fst entry))
           (Js.entries (cardData s))
      then None
      else Some []
  | Js.Missing =>
      if showIndicators s then None
      else match Js.entries (cardData s) with
           | [] => Some []
           | _ :: _ => None
           end
  end.

(** What the page lets the user do (lines 279-332, 448, 469-487, 499-514,
    529-567). *)
Inductive Event : Type :=
| ClickGuides
| ClickDownloadTemplate
| ChooseFile (files : list File)
| ClickExport
| ClickReset
| ClickText (field : string)
| ClickTemplate (template : string)
| TypeText (field value : string)
| PickBackgroundColor (colour : string)
| PickTextColor (colour : string)
| ClickRemoveBackground.

(** The handler bound to each. *)
Definition handler (e : Event) : M unit :=
  match e with
  | ClickGuides => toggleIndicators
  | ClickDownloadTemplate => Rev1.downloadTemplate
  | ChooseFile files => handleImageUpload files
  | ClickExport => Rev1.downloadFinalCard
  | ClickReset => resetToDefault
  | ClickText field => selectField field
  | ClickTemplate template => selectTemplate template
  | TypeText field value => handleTextChange field value
  | PickBackgroundColor colour => handleColorChange "backgroundColor" colour
  | PickTextColor colour => handleColorChange "textColor" colour
  | ClickRemoveBackground => removeBackgroundImage
  end.

(** Whether the page, rendered from [s], has the element of the event:
    a text per entry that the template places, a button per template, an
    input per entry, the remove button beside a background image. *)
Definition offered (s : State) (e : Event) : bool :=
  match e with
  | ClickText field =>
      isSome (cardData s).[field]
      && match Rev1.activeTemplate (design s) with
         | Js.Own template => isSome template.[field]
         | _ => false
         end
  | ClickTemplate template => isSome Rev1.templates.[template]
  | TypeText field _ => isSome (cardData s).[field]
  | ClickRemoveBackground =>
      isSome (Js.truthy (Js.prop (design s) "backgroundImage"))
  | _ => true
  end.

(** The states the page can be brought to from the initial one. *)
Inductive Reachable (h : Host) : State -> Prop :=
| reach_initial : Reachable h Rev1.initialState
| reach_event s e :
    Reachable h s -> offered s e = true ->
    Reachable h (stateAfter (handler e h s)).

End Rev1Ui.

(** ** Second revision (lines 625-1208) *)

Module Rev2.

Local Open Scope string_scope.
Local Open Scope Q_scope.

Definition Template : Type := Js.object FieldPosition.

(** [templates] (lines 668-701): the literal of the first revision,
    character for character. *)
Definition templates : Js.object Template := Rev1.templates.

(** The initial [cardData] and [design] (lines 647-664). *)
Definition initialState : State :=
  {| cardData := Js.literal
       [ ("name", "John Doe");
         ("title", "Creative Director");
         ("company", "Design Studio");
         ("phone", "+1 (555) 123-4567");
         ("email", "john@designstudio.com");
         ("website", "www.designstudio.com") ];
     design := Js.literal
       [ ("backgroundColor", Js.Str "#1a2744");
         ("textColor", Js.Str "#f8fafc");
         ("backgroundImage", Js.Null);
         ("template", Js.Str "modern") ];
     activeField := None;
     showIndicators := true |}.

(** [templates[design.template]] *)
Definition activeTemplate (design : Js.object Js.value) : Js.found Template :=
  Js.lookup templates (Js.toString (Js.prop design "template")).

(** [drawTemplateIndicators] (lines 739-741): nothing at all. *)
Definition drawTemplateIndicators : M unit := ret tt.

(** [downloadTemplate] (lines 731-763) *)
Definition downloadTemplate : M unit :=
  s <- render ;;
  h <- host ;;
  if negb (getContext_2d h) then ret tt
  else
    let design := design s in
    let name :=
      ("business-card-template-"
         ++ Js.toString (Js.prop design "template") ++ ".png")%string in
    match Js.truthy (Js.prop design "backgroundImage") with
    | Some src =>
        onload src
          (call (DrawImage src 0 0 400 240) ;;
           drawTemplateIndicators ;;
           call (Save name))
    | None =>
        call (SetFillStyle (Js.prop design "backgroundColor")) ;;
        call (FillRect 0 0 400 240) ;;
        drawTemplateIndicators ;;
        call (Save name)
    end.

(** The body of the loop of [drawTextOnCanvas] (lines 778-793), which
    reads [template[field]] as the first revision does. *)
Definition drawField (template : Js.found Template)
    (design : Js.object Js.value) (entry : string * string) : M unit :=
  let '(field, text) := entry in
  match template with
  | Js.Missing => throw
  | Js.Inherited member =>
      if Js.restricted member field then throw else ret tt
  | Js.Own template =>
      match template.[field] with
      | Some pos =>
          if Js.nonEmpty text
          then
            call (SetFont (weight pos) (size pos) "Inter, Arial") ;;
            call (SetFillStyle (Js.prop design "textColor")) ;;
            match align pos with
            | Some center =>
                call (SetTextAlign center) ;;
                call (FillText text (x pos) (y pos))
            | Some right =>
                call (SetTextAlign right) ;;
                call (FillText text (x pos) (y pos))
            | _ =>
                call (SetTextAlign left) ;;
                call (FillText text (x pos) (y pos))
            end
          else ret tt
      | None => ret tt
      end
  end.

(** [drawTextOnCanvas] (lines 774-795) *)
Definition drawTextOnCanvas (cardData : Js.object string)
    (design : Js.object Js.value) : M unit :=
  let template := activeTemplate design in
  forEach (Js.entries cardData) (drawField template design).

Definition nameSlug (cardData : Js.object string) : M string :=
  match cardData.["name"] with
  | Some name => ret (Js.toLowerCase (Js.replaceSpaces false name))
  | None => throw
  end.

(** [downloadFinalCard] (lines 765-818) *)
Definition downloadFinalCard : M unit :=
  s <- render ;;
  h <- host ;;
  if cardRef_current h
  then
    if negb (getContext_2d h) then ret tt
    else
      let cardData := cardData s in
      let design := design s in
      match Js.truthy (Js.prop design "backgroundImage") with
      | Some src =>
          onload src
            (call (DrawImage src 0 0 400 240) ;;
             drawTextOnCanvas cardData design ;;
             slug <- nameSlug cardData ;;
             call (Save ("business-card-final-" ++ slug ++ ".png")%string))
      | None =>
          call (SetFillStyle (Js.prop design "backgroundColor")) ;;
          call (FillRect 0 0 400 240) ;;
          drawTextOnCanvas cardData design ;;
          slug <- nameSlug cardData ;;
          call (Save ("business-card-final-" ++ slug ++ ".png")%string)
      end
  else ret tt.

End Rev2.

(** ** More of the third revision *)

Module Rev3Ui.

Local Open Scope string_scope.
Local Open Scope Q_scope.

(** [resetToDefault] (lines 1518-1534) *)
Definition resetToDefault : M unit :=
  setCardData (fun _ => Js.literal
    [ ("name", "John Doe");
      ("title", "Creative Director");
      ("company", "Design Studio");
      ("phone", "+1 (555) 123-4567");
      ("email", "john@designstudio.com");
      ("website", "www.designstudio.com") ]) ;;
  setDesign (fun _ => Js.literal
    [ ("backgroundColor", Js.Str "#ffffff");
      ("textColor", Js.Str "#1e293b");
      ("backgroundImage", Js.Null);
      ("logoImage", Js.Null);
      ("template", Js.Str "modern") ]).

(** The guide of one property of the template in the preview (lines
    1659-1703): none for [name] and [description].  A text under another
    key would give lengths that are not numbers; [templates] has none. *)
Definition indicator (entry : string * Rev3.TemplateValue) : list Element :=
  let '(field, value) := entry in
  if Rev3.isMeta field then []
  else
    match value with
    | Rev3.Text _ => []
    | Rev3.Position pos =>
        let width := orElse (width pos) 150 in
        let height := orElse (height pos) (size pos + 8) in
        let rectX := Rev3.rectX pos width in
        let rectY := y pos - size pos - 3 in
        [ Outline field rectX rectY (width + 8) (height + 6);
          Dot (rectX - 2) (rectY - 2);
          Dot (rectX + width + 6) (rectY + height + 4) ]
    end.

(** The text of one entry in the preview (lines 1708-1738), for an entry
    that the template places: none for [name] and [description],
    whatever the template holds for them; a text passes the test under no
    key of [templates]. *)
Definition textElement (template : Rev3.Template) (s : State)
    (entry : string * string) : list Element :=
  let '(field, text) := entry in
  match template.[field] with
  | Some (Rev3.Position pos) =>
      if Rev3.isMeta field then []
      else [Text (textBox (activeField s) (design s) field text pos)]
  | _ => []
  end.

(** [templates[design.template].name], the label of the badge (line
    1629): what the selected template keeps under [name], or the name of
    an inherited built-in. *)
Definition templateLabel (design : Js.object Js.value) : option Rev3.TemplateValue :=
  match Rev3.activeTemplate design with
  | Js.Own template => template.["name"]
  | Js.Inherited member => option_map Rev3.Text (Js.memberName member)
  | Js.Missing => None
  end.

(** A value handed to React as a child: a string is rendered,
    [undefined] renders nothing, and an object that is no element makes
    the render throw (objects are not valid as a React child). *)
Definition renderChild (child : option Rev3.TemplateValue) : option string :=
  match child with
  | None => Some ""
  | Some (Rev3.Text label) => Some label
  | Some (Rev3.Position _) => None
  end.

(** The badge of the preview (lines 1628-1630): reading [name] of
    [undefined] throws. *)
Definition badge (design : Js.object Js.value) : option string :=
  match Rev3.activeTemplate design with
  | Js.Missing => None
  | _ => renderChild (templateLabel design)
  end.

(** The labels of the template buttons (lines 1763-1780), in the tab
    that is shown first: [template.name] of every template. *)
Fixpoint buttonLabels (templates : list (string * Rev3.Template))
    : option (list string) :=
  match templates with
  | [] => Some []
  | (_, template) :: rest =>
      match renderChild template.["name"], buttonLabels rest with
      | Some label, Some labels => Some (label :: labels)
      | _, _ => None
      end
  end.

(** The children that the JSX of the card evaluates to (lines
    1647-1738), those that a position places: the logo, the guides, the
    texts.  When the key of the template names nothing the evaluation
    throws, at [Object.entries] when the guides are shown and at the
    first entry of the card data.  An inherited member has no property to
    enumerate and places no text; when it is a built-in function the
    evaluation throws at an entry called [caller] or [arguments]. *)
Definition cardChildren (s : State) : option (list Element) :=
  let logo :=
    match Js.truthy (Js.prop (design s) "logoImage") with
    | Some logo => [Logo logo]
    | None => []
    end in
  match Rev3.activeTemplate (design s) with
  | Js.Own template =>
      Some (logo
              ++ (if showIndicators s
                  then flat_map indicator (Js.entries template)
                  else [])
              ++ flat_map (textElement template s)
                   (Js.entries (cardData s)))%list
  | Js.Inherited member =>
      if existsb (fun entry => Js.restricted member (fst entry))
           (Js.entries (cardData s))
      then None
      else Some logo
  | Js.Missing =>
      if showIndicators s then None
      else match Js.entries (cardData s) with
           | [] => Some logo
           | _ :: _ => None
           end
  end.

(** The card as the page shows it (lines 1621-1780).  The page is one
    React tree, and a throw in the render of any part of it leaves
    nothing mounted: beside the children of the card the render takes the
    badge and, in the tab that is shown first, the labels of the template
    buttons. *)
Definition cardPreview (s : State) : option (list Element) :=
  match badge (design s), buttonLabels (Js.entries Rev3.templates) with
  | Some _, Some _ => cardChildren s
  | _, _ => None
  end.

End Rev3Ui.

(** *** Observations on the added handlers *)

(** The same state with other card data. *)
Definition withCardData (cd : Js.object string) (s : State) : State :=
  {| cardData := cd; design := design s;
     activeField := activeField s; showIndicators := showIndicators s |}.

(** The text elements of a preview. *)
Fixpoint textBoxes (elements : list Element) : list TextBox :=
  match elements with
  | [] => []
  | Text box :: rest => box :: textBoxes rest
  | _ :: rest => textBoxes rest
  end.

(** A text element that shows a value, not the bracketed name of an empty
    field. *)
Definition showsValue (cd : Js.object string) (box : TextBox) : bool :=
  match cd.[boxField box] with
  | Some text => Js.nonEmpty text
  | None => false
  end.

(** A painted text and a text element of the preview that agree: the same
    string, at the same x, on the same base line. *)
Definition sameText (box : TextBox) (painted : string * Q * Q) : Prop :=
  boxContent box = fst (fst painted)
  /\ boxLeft box = snd (fst painted)
  /\ boxTop box + fontSize box == snd painted.

(** The centres of the arcs of a list of calls. *)
Fixpoint arcCentres (calls : list Call) : list (Q * Q) :=
  match calls with
  | [] => []
  | Arc x y _ :: rest => (x, y) :: arcCentres rest
  | _ :: rest => arcCentres rest
  end.

(** The rectangles stroked by a list of calls. *)
Fixpoint strokedRects (calls : list Call) : list (Q * Q * Q * Q) :=
  match calls with
  | [] => []
  | StrokeRect x y w h :: rest => (x, y, w, h) :: strokedRects rest
  | _ :: rest => strokedRects rest
  end.

(** The font family of the second revision in place of the first's. *)
Definition interFont (c : Call) : Call :=
  match c with
  | SetFont weight size _ => SetFont weight size "Inter, Arial"
  | _ => c
  end.

(** The entries whose text the first revision paints under [tpl]. *)
Definition rev1Painted (tpl : Rev1.Template) (entry : string * string) : bool :=
  isSome tpl.[fst entry] && Js.nonEmpty (snd entry).

(** The entries whose text the third revision paints under [tpl]. *)
Definition rev3Painted (tpl : Rev3.Template) (entry : string * string) : bool :=
  match tpl.[fst entry] with
  | Some (Rev3.Position _) =>
      Js.nonEmpty (snd entry) && negb (Rev3.isMeta (fst entry))
  | _ => false
  end.

(** The six fields of the card. *)
Definition cardFields : list string :=
  [ "name"; "title"; "company"; "phone"; "email"; "website" ]%string.

(** What holds of every state the page of the first revision can reach:
    the card has its six fields, one of the templates is selected, and the
    two colours are strings. *)
Definition Ready (s : State) : Prop :=
  Js.keys (cardData s) = cardFields
  /\ (exists t tpl, Js.prop (design s) "template" = Js.Str t
                    /\ Rev1.templates.[t] = Some tpl
                    /\ Js.keys tpl = cardFields)
  /\ (exists c, Js.prop (design s) "backgroundColor" = Js.Str c)
  /\ (exists c, Js.prop (design s) "textColor" = Js.Str c).

(** Files used as examples. *)
Definition marble : File :=
  {| readAsDataURL := Some "data:image/png;base64,iVBORw0KGgo="%string |}.

Definition unreadable : File := {| readAsDataURL := None |}.

(** The outlines of a preview. *)
Fixpoint outlines (elements : list Element) : list (Q * Q * Q * Q) :=
  match elements with
  | [] => []
  | Outline _ l t w h :: rest => (l, t, w, h) :: outlines rest
  | _ :: rest => outlines rest
  end.

(** The four corners of a rectangle. *)
Definition corners (r : Q * Q * Q * Q) : list (Q * Q) :=
  let '(l, t, w, h) := r in
  [ (l, t); (l + w, t); (l, t + h); (l + w, t + h) ].

Definition samePoint (p q : Q * Q) : Prop :=
  fst p == fst q /\ snd p == snd q.

(** *** The calls of the template downloads, as functions of the design *)

Definition rev1TemplateSave (d : Js.object Js.value) : Call :=
  Save ("business-card-template-"
          ++ Js.toString (Js.prop d "template") ++ ".png")%string.

(** After the background: the four styles, then the dots of every field
    and the download; an inherited member has no field; when the key
    names nothing [Object.entries] throws. *)
Definition rev1TemplateRest (d : Js.object Js.value) : list Call :=
  [ SetStrokeStyle "rgba(0, 0, 0, 0.08)"; SetLineWidth 1; SetLineDash [];
    SetFillStyle (Js.Str "rgba(0, 0, 0, 0.02)") ]
    ++ match Rev1.activeTemplate d with
       | Js.Own tpl =>
           flat_map rev1IndicatorCalls (Js.entries tpl) ++ [rev1TemplateSave d]
       | Js.Inherited _ => [rev1TemplateSave d]
       | Js.Missing => []
       end.

Definition rev1TemplateCalls (h : Host) (d : Js.object Js.value) : list Call :=
  if getContext_2d h
  then
    match Js.truthy (Js.prop d "backgroundImage") with
    | Some src =>
        if decodes h src
        then DrawImage src 0 0 400 240 :: rev1TemplateRest d
        else []
    | None =>
        SetFillStyle (Js.prop d "backgroundColor")
          :: FillRect 0 0 400 240 :: rev1TemplateRest d
    end
  else [].

Definition rev2TemplateCalls (h : Host) (d : Js.object Js.value) : list Call :=
  if getContext_2d h
  then
    match Js.truthy (Js.prop d "backgroundImage") with
    | Some src =>
        if decodes h src
        then [DrawImage src 0 0 400 240; rev1TemplateSave d]
        else []
    | None =>
        [ SetFillStyle (Js.prop d "backgroundColor");
          FillRect 0 0 400 240; rev1TemplateSave d ]
    end
  else [].

(** The calls of one property of the template in [Rev3.drawTemplate]. *)
Definition rev3GuideCalls (entry : string * Rev3.TemplateValue) : list Call :=
  if Rev3.isMeta (fst entry) then []
  else
    match snd entry with
    | Rev3.Text _ => []
    | Rev3.Position pos =>
        let width := orElse (width pos) 150 in
        let height := orElse (height pos) (size pos + 8) in
        let rectX := Rev3.rectX pos width in
        let rectY := y pos - size pos - 3 in
        [ SetStrokeStyle "rgba(59, 130, 246, 0.3)";
          SetLineWidth 1;
          StrokeRect rectX rectY (width + 8) (height + 6);
          SetFillStyle (Js.Str "rgba(59, 130, 246, 0.05)");
          FillRect rectX rectY (width + 8) (height + 6) ]
    end.

Definition rev3TemplateSave (d : Js.object Js.value) : Call :=
  Save ("ai-template-" ++ Js.toString (Js.prop d "template") ++ ".png")%string.

Definition rev3TemplateRest (d : Js.object Js.value) : list Call :=
  match Rev3.activeTemplate d with
  | Js.Own tpl => flat_map rev3GuideCalls (Js.entries tpl) ++ [rev3TemplateSave d]
  | Js.Inherited _ => [rev3TemplateSave d]
  | Js.Missing => []
  end.

Definition rev3TemplateCalls (h : Host) (d : Js.object Js.value) : list Call :=
  if getContext_2d h
  then
    match Js.truthy (Js.prop d "backgroundImage") with
    | Some src =>
        if decodes h src
        then DrawImage src 0 0 400 240 :: rev3TemplateRest d
        else []
    | None =>
        SetFillStyle (Js.prop d "backgroundColor")
          :: FillRect 0 0 400 240 :: rev3TemplateRest d
    end
  else [].

(** The logo, if there is one, decodes. *)
Definition logoLoads (h : Host) (d : Js.object Js.value) : bool :=
  match Js.truthy (Js.prop d "logoImage") with
  | Some logo => decodes h logo
  | None => true
  end.

(** ** Properties of objects *)

Section ObjectFacts.
Variable A : Type.
Implicit Types (o : Js.object A) (k : string) (v : A).

Lemma get_set_same o k v : (o.[k := v]).[k] = Some v.
Proof.
  induction o as [|[k' v'] rest IH]; simpl.
  - now rewrite String.eqb_refl.
  - destruct (String.eqb k' k) eqn:E; simpl; rewrite E; auto.
Qed.

Lemma get_set_other o k k' v : k' <> k -> (o.[k := v]).[k'] = o.[k'].
Proof.
  intros Hne. induction o as [|[k0 v0] rest IH]; simpl.
  - destruct (String.eqb_spec k k'); [congruence | reflexivity].
  - destruct (String.eqb_spec k0 k) as [->|Hk]; simpl.
    + destruct (String.eqb_spec k k'); [congruence | reflexivity].
    + now rewrite IH.
Qed.

Lemma keys_set o k v :
  Js.keys (o.[k := v])
  = match o.[k] with Some _ => Js.keys o | None => Js.keys o ++ [k] end.
Proof.
  induction o as [|[k0 v0] rest IH]; simpl; [reflexivity|].
  destruct (String.eqb k0 k) eqn:E; simpl; [reflexivity|].
  fold (Js.keys (rest.[k := v])). rewrite IH. now destruct (rest.[k]).
Qed.

Lemma get_None_keys o k : o.[k] = None -> ~ In k (Js.keys o).
Proof.
  induction o as [|[k0 v0] rest IH]; simpl; [tauto|].
  destruct (String.eqb_spec k0 k); [discriminate|].
  intros H [?|?]; [congruence | now apply IH].
Qed.

Lemma NoDup_snoc (l : list string) k : NoDup l -> ~ In k l -> NoDup (l ++ [k]).
Proof.
  induction l as [|a l IH]; simpl; intros Hnd Hk.
  - repeat constructor. tauto.
  - inversion Hnd; subst. constructor.
    + rewrite in_app_iff. simpl. intros [?|[?|[]]]; [tauto|].
      subst. apply Hk. now left.
    + apply IH; [assumption|]. intros ?. apply Hk. now right.
Qed.

(** Spreading an object and writing one key keeps the keys distinct. *)
Lemma wf_set o k v : Js.wf o -> Js.wf (o.[k := v]).
Proof.
  unfold Js.wf. intros Hwf. rewrite keys_set.
  destruct (o.[k]) eqn:E; [assumption|].
  apply NoDup_snoc; [assumption | now apply get_None_keys].
Qed.

Lemma get_In o k v : o.[k] = Some v -> In (k, v) (Js.entries o).
Proof.
  induction o as [|[k0 v0] rest IH]; simpl; [discriminate|].
  destruct (String.eqb_spec k0 k) as [->|].
  - intros [= ->]. now left.
  - intros H. right. now apply IH.
Qed.

(** A lookup finds a property of the object itself exactly when the
    object has it. *)
Lemma lookup_Own o k v : Js.lookup o k = Js.Own v <-> o.[k] = Some v.
Proof.
  unfold Js.lookup. destruct (o.[k]) as [a|].
  - split; intros [= ->]; reflexivity.
  - destruct (existsb _ _); split; discriminate.
Qed.

End ObjectFacts.

(** The objects the component starts from have distinct keys, and the two
    change handlers keep them so. *)
Lemma initialState_wf :
  Js.wf (cardData Rev1.initialState) /\ Js.wf (design Rev1.initialState)
  /\ Js.wf (cardData Rev3.initialState) /\ Js.wf (design Rev3.initialState).
Proof.
  unfold Js.wf. repeat split; vm_compute;
    repeat (constructor; [simpl; intuition discriminate|]); constructor.
Qed.

Lemma handlers_keep_wf (h : Host) (s : State) (k v : string) :
  Js.wf (cardData s) -> Js.wf (design s) ->
  Js.wf (cardData (stateAfter (handleTextChange k v h s)))
  /\ Js.wf (design (stateAfter (handleColorChange k v h s))).
Proof. intros Hc Hd. split; simpl; now apply wf_set. Qed.

(** ** Properties of handlers *)

Section HandlerFacts.

Lemma draws_ret : draws (ret tt) [].
Proof. intros h s. reflexivity. Qed.

Lemma draws_call c : draws (call c) [c].
Proof. intros h s. reflexivity. Qed.

(** Sequencing after a step whose outcome is known. *)
Lemma bind_run {A B} (m : M A) (f : A -> M B) h s a s' cs ds :
  m h s = {| returned := Some a; stateAfter := s'; ran := cs; deferred := ds |} ->
  bind m f h s
  = {| returned := returned (f a h s'); stateAfter := stateAfter (f a h s');
       ran := cs ++ ran (f a h s'); deferred := ds ++ deferred (f a h s') |}.
Proof. intros E. unfold bind. cbv zeta. rewrite E. reflexivity. Qed.

(** Sequencing after a step that threw. *)
Lemma bind_stop {A B} (m : M A) (f : A -> M B) h s s' cs ds :
  m h s = {| returned := None; stateAfter := s'; ran := cs; deferred := ds |} ->
  bind m f h s
  = {| returned := None; stateAfter := s'; ran := cs; deferred := ds |}.
Proof. intros E. unfold bind. cbv zeta. rewrite E. reflexivity. Qed.

Lemma draws_seq (m k : M unit) cs cs' :
  draws m cs -> draws k cs' -> draws (m ;; k) (cs ++ cs').
Proof.
  intros Hm Hk h s. erewrite bind_run by apply Hm. rewrite (Hk h s).
  reflexivity.
Qed.

Lemma draws_forEach {A} (l : list A) (body : A -> M unit) f :
  (forall a, draws (body a) (f a)) -> draws (forEach l body) (flat_map f l).
Proof.
  intros Hbody. induction l as [|a l IH]; simpl.
  - apply draws_ret.
  - apply draws_seq; [apply Hbody | apply IH].
Qed.

(** The loop over the card data under an inherited member: it makes no
    call, and throws at the first entry whose key is restricted. *)
Lemma forEach_inherited (body : string * string -> M unit) member
    (l : list (string * string)) h s :
  (forall entry,
     body entry = if Js.restricted member (fst entry) then throw else ret tt) ->
  forEach l body h s
  = {| returned :=
         if forallb (fun entry => negb (Js.restricted member (fst entry))) l
         then Some tt else None;
       stateAfter := s; ran := []; deferred := [] |}.
Proof.
  intros Hb. induction l as [|e l IH]; simpl; [reflexivity|].
  rewrite Hb. destruct (Js.restricted member (fst e)); simpl.
  - reflexivity.
  - erewrite bind_run by reflexivity. now rewrite IH.
Qed.

Lemma readOnly_ret {A} (a : A) : readOnly (ret a).
Proof. intros h s. reflexivity. Qed.

Lemma readOnly_call c : readOnly (call c).
Proof. intros h s. reflexivity. Qed.

Lemma readOnly_throw {A} : readOnly (@throw A).
Proof. intros h s. reflexivity. Qed.

Lemma readOnly_bind {A B} (m : M A) (f : A -> M B) :
  readOnly m -> (forall a, readOnly (f a)) -> readOnly (bind m f).
Proof.
  intros Hm Hf h s. unfold bind. cbv zeta.
  destruct (returned (m h s)) eqn:E; simpl.
  - rewrite (Hm h s). apply Hf.
  - apply Hm.
Qed.

Lemma readOnly_onload src (body : M unit) :
  readOnly body -> readOnly (onload src body).
Proof.
  intros Hb h s. unfold onload. destruct (decodes h src); simpl; auto.
Qed.

Lemma readOnly_forEach {A} (l : list A) (body : A -> M unit) :
  (forall a, readOnly (body a)) -> readOnly (forEach l body).
Proof.
  intros Hb. induction l as [|a l IH]; simpl.
  - apply readOnly_ret.
  - apply readOnly_bind; auto.
Qed.

(** A handler that starts by reading the cells and the host. *)
Lemma readOnly_closure {A} (k : State -> Host -> M A) :
  (forall s h, readOnly (k s h)) ->
  readOnly (s <- render ;; h <- host ;; k s h).
Proof.
  intros Hk h s. unfold bind, render, host. simpl. apply Hk.
Qed.

End HandlerFacts.

Create HintDb handlers.
#[local] Hint Resolve readOnly_ret readOnly_call readOnly_throw readOnly_bind
  readOnly_onload readOnly_forEach : handlers.

(** ** The first revision's final card *)

Section Rev1Facts.

Lemma rev1_drawField_draws tpl d entry :
  draws (Rev1.drawField (Js.Own tpl) d entry) (rev1FieldCalls tpl d entry).
Proof.
  destruct entry as [field text]. unfold Rev1.drawField, rev1FieldCalls, alignment.
  simpl. destruct (tpl.[field]) as [pos|]; [|apply draws_ret].
  destruct (Js.nonEmpty text); [|apply draws_ret].
  destruct (align pos) as [[]|]; intros h s; reflexivity.
Qed.

Lemma rev1_drawField_readOnly tpl d entry : readOnly (Rev1.drawField tpl d entry).
Proof.
  destruct tpl as [tpl|member|].
  - intros h s. now rewrite rev1_drawField_draws.
  - destruct entry as [field text]. simpl.
    destruct (Js.restricted member field);
      [apply readOnly_throw | apply readOnly_ret].
  - destruct entry. apply readOnly_throw.
Qed.

Lemma rev1Rest_outcome cd d h s :
  stateAfter (rev1Rest cd d h s) = s
  /\ ran (rev1Rest cd d h s) = rev1AfterBackground cd d
  /\ deferred (rev1Rest cd d h s) = [].
Proof.
  unfold rev1Rest, rev1AfterBackground, rev1Text, Rev1.drawTextOnCanvas.
  destruct (Rev1.activeTemplate d) as [tpl|member|]; cbv zeta.
  - erewrite bind_run
      by (apply draws_forEach; intros a; apply rev1_drawField_draws).
    unfold Rev1.nameSlug, rev1Save, slugOf. simpl loopEnds. cbv iota.
    destruct (cd.["name"]) as [name|]; repeat split; reflexivity.
  - pose proof (@forEach_inherited (Rev1.drawField (Js.Inherited member) d)
                  member (Js.entries cd) h s) as E.
    unfold loopEnds. destruct (forallb _ (Js.entries cd)).
    + erewrite bind_run by (apply E; intros [field text]; reflexivity).
      unfold Rev1.nameSlug, rev1Save, slugOf.
      destruct (cd.["name"]) as [name|]; repeat split; reflexivity.
    + erewrite bind_stop by (apply E; intros [field text]; reflexivity).
      repeat split; reflexivity.
  - destruct cd as [|[field text] rest]; repeat split; reflexivity.
Qed.

Lemma rev1_timeline h s :
  timeline (Rev1.downloadFinalCard h s) = rev1FinalCard h (cardData s) (design s).
Proof.
  destruct (rev1Rest_outcome (cardData s) (design s) h s) as (_ & Hran & Hdef).
  unfold Rev1.downloadFinalCard, rev1FinalCard, timeline.
  erewrite bind_run by reflexivity. erewrite bind_run by reflexivity.
  destruct (cardRef_current h); [|reflexivity].
  destruct (getContext_2d h); [|reflexivity].
  cbn [negb andb returned stateAfter ran deferred app].
  destruct (Js.truthy (Js.prop (design s) "backgroundImage")) as [src|].
  - unfold onload. destruct (decodes h src); [|reflexivity].
    erewrite bind_run by reflexivity.
    fold (rev1Rest (cardData s) (design s)).
    cbn [returned stateAfter ran deferred app]. now rewrite Hran, Hdef, app_nil_r.
  - erewrite bind_run by reflexivity. erewrite bind_run by reflexivity.
    fold (rev1Rest (cardData s) (design s)).
    cbn [returned stateAfter ran deferred app]. now rewrite Hran, Hdef, app_nil_r.
Qed.

Lemma rev1_readOnly : readOnly Rev1.downloadFinalCard.
Proof.
  unfold Rev1.downloadFinalCard. apply readOnly_closure. intros s h.
  destruct (cardRef_current h); [|apply readOnly_ret].
  destruct (negb (getContext_2d h)); [apply readOnly_ret|].
  assert (Hrest : readOnly
    (Rev1.drawTextOnCanvas (cardData s) (design s) ;;
     slug <- Rev1.nameSlug (cardData s) ;;
     call (Save ("business-card-final-" ++ slug ++ ".png")%string))).
  { apply readOnly_bind.
    - apply readOnly_forEach. intros a. apply rev1_drawField_readOnly.
    - intros _. apply readOnly_bind.
      + unfold Rev1.nameSlug. destruct ((cardData s).["name"]); auto with handlers.
      + auto with handlers. }
  destruct (Js.truthy _); auto 6 with handlers.
Qed.

End Rev1Facts.

(** ** The third revision's final card *)

Section Rev3Facts.

Lemma rev3_drawField_draws tpl d entry :
  draws (Rev3.drawField (Js.Own tpl) d entry) (rev3FieldCalls tpl d entry).
Proof.
  destruct entry as [field text]. unfold Rev3.drawField, rev3FieldCalls, alignment.
  simpl. destruct (tpl.[field]) as [[label|pos]|]; try apply draws_ret.
  destruct (Js.nonEmpty text && negb (String.eqb field "name")
            && negb (String.eqb field "description")); [|apply draws_ret].
  destruct (align pos) as [[]|]; intros h s; reflexivity.
Qed.

Lemma rev3_drawField_readOnly tpl d entry : readOnly (Rev3.drawField tpl d entry).
Proof.
  destruct tpl as [tpl|member|].
  - intros h s. now rewrite rev3_drawField_draws.
  - destruct entry as [field text]. simpl.
    destruct (Js.restricted member field);
      [apply readOnly_throw | apply readOnly_ret].
  - destruct entry. apply readOnly_throw.
Qed.

Lemma rev3_drawText_readOnly tpl cd d : readOnly (Rev3.drawText tpl cd d).
Proof. apply readOnly_forEach. intros a. apply rev3_drawField_readOnly. Qed.

(** [drawText] paints the texts and registers nothing, whether it
    returns or throws. *)
Lemma rev3_drawText_outcome cd d h s :
  Rev3.drawText (Rev3.activeTemplate d) cd d h s
  = {| returned := if loopEnds (Rev3.activeTemplate d) cd then Some tt else None;
       stateAfter := s; ran := rev3Text cd d; deferred := [] |}.
Proof.
  unfold Rev3.drawText, rev3Text, loopEnds.
  destruct (Rev3.activeTemplate d) as [tpl|member|].
  - apply (draws_forEach (Js.entries cd) _ _ (rev3_drawField_draws tpl d) h s).
  - apply forEach_inherited. intros [field text]. reflexivity.
  - destruct cd as [|[field text] rest]; reflexivity.
Qed.

Lemma rev3_drawText_calls cd d h s :
  ran (Rev3.drawText (Rev3.activeTemplate d) cd d h s) = rev3Text cd d
  /\ deferred (Rev3.drawText (Rev3.activeTemplate d) cd d h s) = [].
Proof. rewrite rev3_drawText_outcome. split; reflexivity. Qed.

Lemma rev3Rest_outcome cd d h s :
  ran (rev3Rest cd d h s) ++ deferred (rev3Rest cd d h s)
  = rev3AfterBackground h cd d.
Proof.
  destruct (rev3_drawText_calls cd d h s) as [Hran Hdef].
  unfold rev3Rest, rev3AfterBackground, Rev3.drawFinalCard.
  unfold Rev3.nameSlug, rev3Save, slugOf.
  destruct (Js.truthy (Js.prop d "logoImage")) as [logo|].
  - destruct (decodes h logo) eqn:E.
    + erewrite bind_run by (unfold onload; rewrite E; reflexivity).
      erewrite (@bind_run _ _ (call _)) by reflexivity.
      cbn [returned stateAfter ran deferred app].
      rewrite Hran, Hdef, app_nil_r.
      destruct (cd.["name"]); cbn; now rewrite ?app_nil_r.
    + erewrite bind_run by (unfold onload; rewrite E; reflexivity).
      destruct (cd.["name"]); reflexivity.
  - destruct (loopEnds (Rev3.activeTemplate d) cd) eqn:E.
    + erewrite bind_run by (rewrite rev3_drawText_outcome, E; reflexivity).
      destruct (cd.["name"]); cbn; now rewrite ?app_nil_r.
    + erewrite bind_stop by (rewrite rev3_drawText_outcome, E; reflexivity).
      cbn. now rewrite !app_nil_r.
Qed.

Lemma rev3_timeline h s :
  timeline (Rev3.downloadFinalCard h s) = rev3FinalCard h (cardData s) (design s).
Proof.
  pose proof (rev3Rest_outcome (cardData s) (design s) h s) as Hrest.
  unfold Rev3.downloadFinalCard, rev3FinalCard, timeline.
  erewrite bind_run by reflexivity. erewrite bind_run by reflexivity.
  destruct (getContext_2d h); [|reflexivity].
  cbn [negb returned stateAfter ran deferred app].
  destruct (Js.truthy (Js.prop (design s) "backgroundImage")) as [src|].
  - unfold onload. destruct (decodes h src); [|reflexivity].
    erewrite bind_run by reflexivity.
    fold (rev3Rest (cardData s) (design s)).
    cbn [returned stateAfter ran deferred app]. now rewrite Hrest.
  - erewrite bind_run by reflexivity. erewrite bind_run by reflexivity.
    fold (rev3Rest (cardData s) (design s)).
    cbn [returned stateAfter ran deferred app]. now rewrite Hrest.
Qed.

Lemma rev3_readOnly : readOnly Rev3.downloadFinalCard.
Proof.
  unfold Rev3.downloadFinalCard. apply readOnly_closure. intros s h.
  destruct (negb (getContext_2d h)); [apply readOnly_ret|].
  assert (Hrest : readOnly
    (Rev3.drawFinalCard (cardData s) (design s) ;;
     slug <- Rev3.nameSlug (cardData s) ;;
     call (Save ("business-card-" ++ slug ++ ".png")%string))).
  { apply readOnly_bind.
    - unfold Rev3.drawFinalCard.
      destruct (Js.truthy _); auto using rev3_drawText_readOnly with handlers.
    - intros _. apply readOnly_bind.
      + unfold Rev3.nameSlug. destruct ((cardData s).["name"]); auto with handlers.
      + auto with handlers. }
  destruct (Js.truthy _); auto 6 with handlers.
Qed.

End Rev3Facts.

(** ** Properties of the calls of the final card *)

Section FinalCardFacts.

Lemma textAfterBackground_painted calls : textAfterBackground true calls = true.
Proof. induction calls as [|[] rest IH]; simpl; auto. Qed.

Lemma rev1_background_first h cd d :
  textAfterBackground false (rev1FinalCard h cd d) = true.
Proof.
  unfold rev1FinalCard.
  destruct (cardRef_current h && getContext_2d h); [|reflexivity].
  destruct (Js.truthy (Js.prop d "backgroundImage")) as [src|].
  - destruct (decodes h src); [|reflexivity].
    apply textAfterBackground_painted.
  - apply textAfterBackground_painted.
Qed.

Lemma rev3_background_first h cd d :
  textAfterBackground false (rev3FinalCard h cd d) = true.
Proof.
  unfold rev3FinalCard.
  destruct (getContext_2d h); [|reflexivity].
  destruct (Js.truthy (Js.prop d "backgroundImage")) as [src|].
  - destruct (decodes h src); [|reflexivity].
    apply textAfterBackground_painted.
  - apply textAfterBackground_painted.
Qed.

Lemma Forall_flat_map {A B} (P : B -> Prop) (f : A -> list B) l :
  (forall a, In a l -> Forall P (f a)) -> Forall P (flat_map f l).
Proof.
  intros H. induction l as [|a l IH]; simpl; [constructor|].
  apply Forall_app. split; [apply H; now left|].
  apply IH. intros b Hb. apply H. now right.
Qed.

Lemma finalCardCall_not_guide s c : finalCardCall s c -> isGuideCall c = false.
Proof.
  destruct c; simpl; try tauto; try discriminate.
  intros [= -> -> -> ->]. reflexivity.
Qed.

Lemma Forall_not_guide s calls :
  Forall (finalCardCall s) calls -> existsb isGuideCall calls = false.
Proof.
  induction 1 as [|c rest Hc _ IH]; simpl; [reflexivity|].
  now rewrite (finalCardCall_not_guide s c Hc).
Qed.

Lemma rev1_fieldCalls_final s tpl entry :
  In entry (Js.entries (cardData s)) ->
  Forall (finalCardCall s) (rev1FieldCalls tpl (design s) entry).
Proof.
  intros Hin. unfold rev1FieldCalls. destruct entry as [field text]. simpl.
  destruct (tpl.[field]) as [pos|]; [|constructor].
  destruct (Js.nonEmpty text); [|constructor].
  repeat (apply Forall_cons || apply Forall_nil); simpl; eauto.
Qed.

Lemma rev3_fieldCalls_final s tpl entry :
  In entry (Js.entries (cardData s)) ->
  Forall (finalCardCall s) (rev3FieldCalls tpl (design s) entry).
Proof.
  intros Hin. unfold rev3FieldCalls. destruct entry as [field text]. simpl.
  destruct (tpl.[field]) as [[label|pos]|]; try constructor.
  destruct (_ && _); [|constructor].
  repeat (apply Forall_cons || apply Forall_nil); simpl; eauto.
Qed.

Lemma rev1_calls_final h s :
  Forall (finalCardCall s) (rev1FinalCard h (cardData s) (design s)).
Proof.
  assert (Hrest : Forall (finalCardCall s)
                    (rev1AfterBackground (cardData s) (design s))).
  { unfold rev1AfterBackground. apply Forall_app. split.
    - unfold rev1Text.
      destruct (Rev1.activeTemplate (design s)) as [tpl| |]; try constructor.
      apply Forall_flat_map. intros a Ha. now apply rev1_fieldCalls_final.
    - destruct (loopEnds _ _); [|constructor]. unfold rev1Save.
      destruct ((cardData s).["name"]);
        repeat (apply Forall_cons || apply Forall_nil); exact I. }
  unfold rev1FinalCard.
  destruct (cardRef_current h && getContext_2d h); [|constructor].
  destruct (Js.truthy (Js.prop (design s) "backgroundImage")) as [src|] eqn:E.
  - destruct (decodes h src); [|constructor].
    constructor; [simpl; auto | assumption].
  - repeat (apply Forall_cons); simpl; auto.
Qed.

Lemma rev3_calls_final h s :
  Forall (finalCardCall s) (rev3FinalCard h (cardData s) (design s)).
Proof.
  assert (Htext : Forall (finalCardCall s) (rev3Text (cardData s) (design s))).
  { unfold rev3Text.
    destruct (Rev3.activeTemplate (design s)) as [tpl| |]; try constructor.
    apply Forall_flat_map. intros a Ha. now apply rev3_fieldCalls_final. }
  assert (Hsave : Forall (finalCardCall s) (rev3Save (cardData s))).
  { unfold rev3Save.
    destruct ((cardData s).["name"]);
      repeat (apply Forall_cons || apply Forall_nil); exact I. }
  assert (Hrest : Forall (finalCardCall s)
                    (rev3AfterBackground h (cardData s) (design s))).
  { unfold rev3AfterBackground.
    destruct (Js.truthy (Js.prop (design s) "logoImage")) as [logo|] eqn:E.
    - apply Forall_app. split; [assumption|].
      destruct (decodes h logo); [|constructor].
      constructor; [simpl; auto | assumption].
    - apply Forall_app. split; [assumption|].
      destruct (loopEnds _ _); [assumption | constructor]. }
  unfold rev3FinalCard.
  destruct (getContext_2d h); [|constructor].
  destruct (Js.truthy (Js.prop (design s) "backgroundImage")) as [src|] eqn:E.
  - destruct (decodes h src); [|constructor].
    constructor; [simpl; auto | assumption].
  - repeat (apply Forall_cons); simpl; auto.
Qed.

(** The calls of each export, whole: none, or the background and what
    follows it. *)
Lemma rev1FinalCard_shape h cd d :
  rev1FinalCard h cd d
  = if cardRef_current h && getContext_2d h && backgroundLoads h d
    then (backgroundCalls d ++ rev1AfterBackground cd d)%list
    else [].
Proof.
  unfold rev1FinalCard, backgroundLoads, backgroundCalls.
  destruct (cardRef_current h && getContext_2d h); [|reflexivity].
  destruct (Js.truthy (Js.prop d "backgroundImage")) as [src|]; simpl;
    [destruct (decodes h src)|]; reflexivity.
Qed.

Lemma rev3FinalCard_shape h cd d :
  rev3FinalCard h cd d
  = if getContext_2d h && backgroundLoads h d
    then (backgroundCalls d ++ rev3AfterBackground h cd d)%list
    else [].
Proof.
  unfold rev3FinalCard, backgroundLoads, backgroundCalls.
  destruct (getContext_2d h); [|reflexivity].
  destruct (Js.truthy (Js.prop d "backgroundImage")) as [src|]; simpl;
    [destruct (decodes h src)|]; reflexivity.
Qed.

Lemma textOrigins_app a b :
  textOrigins (a ++ b) = (textOrigins a ++ textOrigins b)%list.
Proof. induction a as [|[] a IH]; simpl; auto. now f_equal. Qed.

End FinalCardFacts.

(** ** Properties of the saved picture *)

Section SavedFacts.

Lemma exported_In calls drawn name :
  exported calls = Some (drawn, name) -> In (Save name) calls.
Proof.
  revert drawn. induction calls as [|c rest IH]; intros drawn; [discriminate|].
  destruct c; simpl;
    try (destruct (exported rest) as [[d n]|]; [|discriminate];
         intros [= <- <-]; right; eapply IH; reflexivity).
  intros [= <- <-]. now left.
Qed.

Lemma exported_app pre name post :
  forallb (fun c => negb (isSave c)) pre = true ->
  exported (pre ++ Save name :: post) = Some (pre, name).
Proof.
  induction pre as [|c pre IH]; simpl; [reflexivity|].
  intros H. apply andb_prop in H as [Hc Hpre].
  destruct c; try discriminate; simpl; now rewrite IH.
Qed.

Lemma forallb_flat_map {A B} (p : B -> bool) (f : A -> list B) l :
  (forall a, forallb p (f a) = true) -> forallb p (flat_map f l) = true.
Proof.
  intros H. induction l as [|a l IH]; simpl; [reflexivity|].
  rewrite forallb_app, H, IH. reflexivity.
Qed.

Lemma rev1_fieldCalls_no_save tpl d entry :
  forallb (fun c => negb (isSave c)) (rev1FieldCalls tpl d entry) = true.
Proof.
  unfold rev1FieldCalls. destruct (tpl.[fst entry]); [|reflexivity].
  destruct (Js.nonEmpty (snd entry)); reflexivity.
Qed.

Lemma rev3_fieldCalls_no_save tpl d entry :
  forallb (fun c => negb (isSave c)) (rev3FieldCalls tpl d entry) = true.
Proof.
  unfold rev3FieldCalls. destruct (tpl.[fst entry]) as [[|]|]; try reflexivity.
  destruct (_ && _); reflexivity.
Qed.

Lemma rev1Text_no_save cd d :
  forallb (fun c => negb (isSave c)) (rev1Text cd d) = true.
Proof.
  unfold rev1Text. destruct (Rev1.activeTemplate d) as [tpl| |]; try reflexivity.
  apply forallb_flat_map. intros a. apply rev1_fieldCalls_no_save.
Qed.

Lemma rev3Text_no_save cd d :
  forallb (fun c => negb (isSave c)) (rev3Text cd d) = true.
Proof.
  unfold rev3Text. destruct (Rev3.activeTemplate d) as [tpl| |]; try reflexivity.
  apply forallb_flat_map. intros a. apply rev3_fieldCalls_no_save.
Qed.

Lemma no_save_not_In calls name :
  forallb (fun c => negb (isSave c)) calls = true -> ~ In (Save name) calls.
Proof.
  intros Hall Hin. rewrite forallb_forall in Hall. now apply Hall in Hin.
Qed.

(** A file saved by either revision is named after the name entry. *)
Lemma rev1_save_name h cd d name :
  In (Save name) (rev1FinalCard h cd d) ->
  exists n, cd.["name"] = Some n
            /\ name = ("business-card-final-" ++ slugOf n ++ ".png")%string.
Proof.
  assert (Hrest : In (Save name) (rev1AfterBackground cd d) ->
                  exists n, cd.["name"] = Some n
                    /\ name = ("business-card-final-" ++ slugOf n ++ ".png")%string).
  { unfold rev1AfterBackground.
    rewrite in_app_iff. intros [Hin|Hin].
    - exfalso. revert Hin. apply no_save_not_In, rev1Text_no_save.
    - destruct (loopEnds _ _); [|destruct Hin].
      unfold rev1Save in Hin. destruct (cd.["name"]) as [n|]; [|destruct Hin].
      destruct Hin as [[= <-]|[]]. eauto. }
  unfold rev1FinalCard.
  destruct (cardRef_current h && getContext_2d h); [|intros []].
  destruct (Js.truthy (Js.prop d "backgroundImage")) as [src|].
  - destruct (decodes h src); [|intros []].
    intros [Hc|Hin]; [discriminate | auto].
  - intros [Hc|[Hc|Hin]]; [discriminate | discriminate | auto].
Qed.

Lemma rev3_save_name h cd d name :
  In (Save name) (rev3FinalCard h cd d) ->
  exists n, cd.["name"] = Some n
            /\ name = ("business-card-" ++ slugOf n ++ ".png")%string.
Proof.
  assert (Hsave : In (Save name) (rev3Save cd) ->
                  exists n, cd.["name"] = Some n
                    /\ name = ("business-card-" ++ slugOf n ++ ".png")%string).
  { unfold rev3Save. destruct (cd.["name"]) as [n|]; [|intros []].
    intros [[= <-]|[]]. eauto. }
  assert (Htext : ~ In (Save name) (rev3Text cd d))
    by apply no_save_not_In, rev3Text_no_save.
  assert (Hrest : In (Save name) (rev3AfterBackground h cd d) ->
                  exists n, cd.["name"] = Some n
                    /\ name = ("business-card-" ++ slugOf n ++ ".png")%string).
  { unfold rev3AfterBackground.
    destruct (Js.truthy (Js.prop d "logoImage")) as [logo|].
    - rewrite in_app_iff. intros [Hin|Hin]; [auto|].
      destruct (decodes h logo); [|destruct Hin].
      destruct Hin as [Hc|Hin]; [discriminate | tauto].
    - rewrite in_app_iff. intros [Hin|Hin]; [tauto|].
      destruct (loopEnds _ _); [auto | destruct Hin]. }
  unfold rev3FinalCard.
  destruct (getContext_2d h); [|intros []].
  destruct (Js.truthy (Js.prop d "backgroundImage")) as [src|].
  - destruct (decodes h src); [|intros []].
    intros [Hc|Hin]; [discriminate | auto].
  - intros [Hc|[Hc|Hin]]; [discriminate | discriminate | auto].
Qed.

Lemma savedAs_name r h s fname :
  savedAs (finalCardOf r h s) = Some fname ->
  exists n, (cardData s).["name"] = Some n
            /\ fname = (filePrefix r ++ slugOf n ++ ".png")%string.
Proof.
  unfold savedAs.
  destruct (exported (timeline (finalCardOf r h s))) as [[drawn name]|] eqn:E;
    [|discriminate].
  intros [= <-]. apply exported_In in E. destruct r; simpl in E.
  - rewrite rev1_timeline in E. now apply rev1_save_name in E.
  - rewrite rev3_timeline in E. now apply rev3_save_name in E.
Qed.

(** In the first revision, in a browser that gives the canvas and
    decodes the background, with a template selected and a name, the
    picture saved holds the background and the text of every entry. *)
Lemma rev1_saved h s tpl name :
  cardRef_current h = true ->
  getContext_2d h = true ->
  backgroundLoads h (design s) = true ->
  Rev1.activeTemplate (design s) = Js.Own tpl ->
  (cardData s).["name"] = Some name ->
  exported (timeline (Rev1.downloadFinalCard h s))
  = Some (backgroundCalls (design s)
            ++ flat_map (rev1FieldCalls tpl (design s)) (Js.entries (cardData s)),
          ("business-card-final-" ++ slugOf name ++ ".png")%string).
Proof.
  intros Hm Hc Hbg Htpl Hname. rewrite rev1_timeline.
  unfold rev1FinalCard, rev1AfterBackground, rev1Text, rev1Save, loopEnds,
    backgroundCalls, backgroundLoads in *.
  rewrite Hm, Hc, Htpl, Hname. simpl andb. cbv iota.
  assert (Hns := forallb_flat_map (fun c => negb (isSave c))
                   (rev1FieldCalls tpl (design s)) (Js.entries (cardData s))
                   (rev1_fieldCalls_no_save tpl (design s))).
  destruct (Js.truthy (Js.prop (design s) "backgroundImage")) as [src|].
  - rewrite Hbg.
    change (DrawImage src 0 0 400 240 :: ?l ++ ?r)
      with (([DrawImage src 0 0 400 240] ++ l) ++ r).
    apply exported_app. simpl. exact Hns.
  - change (?a :: ?b :: ?l ++ ?r) with (([a; b] ++ l) ++ r).
    apply exported_app. simpl. exact Hns.
Qed.

(** The first revision paints every field that the template places and
    whose value is not empty, into the picture it saves. *)
Lemma rev1_every_field_drawn h s tpl name field pos text :
  cardRef_current h = true ->
  getContext_2d h = true ->
  backgroundLoads h (design s) = true ->
  Rev1.activeTemplate (design s) = Js.Own tpl ->
  (cardData s).["name"] = Some name ->
  tpl.[field] = Some pos ->
  In (field, text) (Js.entries (cardData s)) ->
  Js.nonEmpty text = true ->
  In (FillText text (x pos) (y pos)) (savedPicture (Rev1.downloadFinalCard h s)).
Proof.
  intros Hm Hc Hbg Htpl Hname Hpos Hin Htext. unfold savedPicture.
  rewrite (@rev1_saved h s tpl name Hm Hc Hbg Htpl Hname).
  apply in_or_app. right. apply in_flat_map. exists (field, text).
  split; [assumption|]. unfold rev1FieldCalls. simpl.
  rewrite Hpos, Htext. simpl. auto.
Qed.

(** Every text the first revision paints is the value of an entry, at
    the anchor its template gives to that field. *)
Lemma rev1_text_at_anchor h s text x0 y0 :
  In (FillText text x0 y0) (timeline (Rev1.downloadFinalCard h s)) ->
  exists tpl field pos,
    Rev1.activeTemplate (design s) = Js.Own tpl
    /\ tpl.[field] = Some pos
    /\ In (field, text) (Js.entries (cardData s))
    /\ x0 = x pos /\ y0 = y pos.
Proof.
  rewrite rev1_timeline.
  assert (Hrest : In (FillText text x0 y0)
                    (rev1AfterBackground (cardData s) (design s)) ->
                  exists tpl field pos,
                    Rev1.activeTemplate (design s) = Js.Own tpl
                    /\ tpl.[field] = Some pos
                    /\ In (field, text) (Js.entries (cardData s))
                    /\ x0 = x pos /\ y0 = y pos).
  { unfold rev1AfterBackground, rev1Text.
    rewrite in_app_iff. intros [Hin|Hin].
    - destruct (Rev1.activeTemplate (design s)) as [tpl| |]; try destruct Hin.
      apply in_flat_map in Hin as ([field t] & Hentry & Hin).
      unfold rev1FieldCalls in Hin. simpl in Hin.
      destruct (tpl.[field]) as [pos|] eqn:Hpos; [|destruct Hin].
      destruct (Js.nonEmpty t); [|destruct Hin].
      destruct Hin as [Hc|[Hc|[Hc|[Hc|[]]]]]; try discriminate.
      injection Hc as <- <- <-. exists tpl, field, pos. auto.
    - destruct (loopEnds _ _); [|destruct Hin]. unfold rev1Save in Hin.
      destruct ((cardData s).["name"]); [|destruct Hin].
      destruct Hin as [Hc|[]]. discriminate. }
  unfold rev1FinalCard.
  destruct (cardRef_current h && getContext_2d h); [|intros []].
  destruct (Js.truthy (Js.prop (design s) "backgroundImage")) as [src|].
  - destruct (decodes h src); [|intros []].
    intros [Hc|Hin]; [discriminate | auto].
  - intros [Hc|[Hc|Hin]]; [discriminate | discriminate | auto].
Qed.

Lemma rev1_drawTemplateIndicators_draws d tpl :
  Rev1.activeTemplate d = Js.Own tpl ->
  draws (Rev1.drawTemplateIndicators d)
    ([ SetStrokeStyle "rgba(0, 0, 0, 0.08)"; SetLineWidth 1; SetLineDash [];
       SetFillStyle (Js.Str "rgba(0, 0, 0, 0.02)") ]
       ++ flat_map rev1IndicatorCalls (Js.entries tpl)).
Proof.
  intros Htpl. unfold Rev1.drawTemplateIndicators. rewrite Htpl.
  repeat (apply (@draws_seq (call _) _ [_]); [apply draws_call|]).
  apply draws_forEach. intros [field pos] h s. reflexivity.
Qed.

End SavedFacts.

(** ** Properties of the history *)

Section HistoryFacts.
Import Pipeline.
Variable Other : Type.
Implicit Types (st : PipelineState Other) (now : Z).

Lemma sameState_refl st : sameState st st.
Proof. repeat split. Qed.

Lemma sameState_trans a b c :
  sameState a b -> sameState b c -> sameState a (c : PipelineState Other).
Proof.
  intros (? & ? & ? & ? & ? & ?) (? & ? & ? & ? & ? & ?).
  repeat split; congruence.
Qed.

(** [redo] does to like states like things, at whatever times. *)
Lemma redo_sameState now now' a b :
  sameState a b -> sameState (redo now a) (redo now' (b : PipelineState Other)).
Proof.
  intros (Hf & Hd & Hi & Ho & Hp & Hfu). unfold redo, sameState.
  destruct (future (history a)) as [|fa ra] eqn:Ea,
           (future (history b)) as [|fb rb] eqn:Eb;
    try discriminate Hfu.
  - rewrite Ea, Eb. repeat split; assumption.
  - simpl in Hfu. unfold content at 1 3 in Hfu.
    injection Hfu as Hsf Hsd Htail. simpl.
    repeat split; try assumption.
    unfold content at 1 3. simpl. congruence.
Qed.

(** A [redo] takes back an [undo] that had a snapshot to apply. *)
Lemma redo_undo now now' st :
  past (history st) <> [] -> sameState (redo now' (undo now st)) st.
Proof.
  intros Hpast. unfold undo.
  destruct (past (history st)) as [|snap older] eqn:E; [congruence|].
  unfold redo. simpl. repeat split; simpl; try reflexivity.
  now rewrite E.
Qed.

Lemma undo_past_length now st :
  length (past (history (undo now st))) = pred (length (past (history st))).
Proof.
  unfold undo. destruct (past (history st)) eqn:E; simpl; [now rewrite E | reflexivity].
Qed.

Lemma undo_redo_all (us rs : list Z) st :
  length us = length rs ->
  (length us <= length (past (history st)))%nat ->
  sameState (redoAll rs (undoAll us st)) st.
Proof.
  revert rs st. induction us as [|u us IH]; intros rs st Hlen Hpast.
  - destruct rs; [apply sameState_refl | discriminate Hlen].
  - destruct (exists_last (l := rs)) as (rs' & r & ->).
    { intros ->. discriminate Hlen. }
    rewrite length_app in Hlen. simpl in Hlen.
    unfold redoAll. rewrite fold_left_app. simpl.
    apply sameState_trans with (b := redo r (undo u st)).
    + apply redo_sameState. apply IH; [lia|].
      rewrite undo_past_length. simpl in Hpast. lia.
    + apply redo_undo. intros E. rewrite E in Hpast. simpl in Hpast. lia.
Qed.

(** Every mutation pushes one snapshot. *)
Lemma mutateAll_past_length ms st :
  length (past (history (mutateAll ms st)))
  = (length ms + length (past (history st)))%nat.
Proof.
  revert st. induction ms as [|[now m] ms IH]; intros st; [reflexivity|].
  unfold mutateAll in *. simpl. rewrite IH.
  unfold mutate. destruct m; simpl; lia.
Qed.

End HistoryFacts.

(** ** The claims *)

Local Open Scope string_scope.
Local Open Scope Q_scope.

(** C10: [handleTextChange(f, v)] writes the entry [f] of the card data and
    nothing else: every other entry and the whole design are as before;
    [handleColorChange(k, c)] writes the entry [k] of the design and
    nothing else: every other entry of the design and the whole card data
    are as before. *)
Theorem C10_single_field_frame (h : Host) (s : State) (f v k c : string) :
  let s1 := stateAfter (handleTextChange f v h s) in
  let s2 := stateAfter (handleColorChange k c h s) in
  ((cardData s1).[f] = Some v
   /\ (forall g, g <> f -> (cardData s1).[g] = (cardData s).[g])
   /\ design s1 = design s)
  /\ ((design s2).[k] = Some (Js.Str c)
      /\ (forall g, g <> k -> (design s2).[g] = (design s).[g])
      /\ cardData s2 = cardData s).
Proof.
  cbn. repeat split.
  - apply get_set_same.
  - intros g Hg. now apply get_set_other.
  - apply get_set_same.
  - intros g Hg. now apply get_set_other.
Qed.

(** C5: exporting the final card calls no setter: after the handler and
    its image callbacks have run, the card data and the design, and with
    them the whole state, are what they were when it was invoked. *)
Theorem C5_export_leaves_state (r : Revision) (h : Host) (s : State) :
  stateAfter (finalCardOf r h s) = s
  /\ cardData (stateAfter (finalCardOf r h s)) = cardData s
  /\ design (stateAfter (finalCardOf r h s)) = design s.
Proof.
  assert (H : stateAfter (finalCardOf r h s) = s)
    by (destruct r; [apply rev1_readOnly | apply rev3_readOnly]).
  rewrite H. repeat split.
Qed.

(** The setters are seen by [stateAfter]: a text change is not read-only. *)
Example handleTextChange_writes :
  stateAfter (handleTextChange "name" "Avery Chen" browser Rev1.initialState)
  <> Rev1.initialState.
Proof.
  intros H. apply (f_equal (fun s => (cardData s).["name"])) in H.
  discriminate H.
Qed.

(** C8: the calls of the export are a function of the card data and the
    design (which holds the template selection): two executions from
    states that agree on both, in one browser, make the same calls in the
    same order, whatever the other cells hold. *)
Theorem C8_render_deterministic (r : Revision) (h : Host) (s1 s2 : State) :
  cardData s1 = cardData s2 ->
  design s1 = design s2 ->
  timeline (finalCardOf r h s1) = timeline (finalCardOf r h s2).
Proof.
  intros Hcd Hd. destruct r; simpl.
  - now rewrite !rev1_timeline, Hcd, Hd.
  - now rewrite !rev3_timeline, Hcd, Hd.
Qed.

Lemma C8_render_deterministic_witness :
  timeline (finalCardOf First browser Rev1.initialState)
  = timeline (finalCardOf First browser guidesHidden).
Proof.
  apply (@C8_render_deterministic First browser Rev1.initialState guidesHidden);
    reflexivity.
Defined.

(** C7: the export paints the background first, the solid colour over the
    whole canvas or the background image stretched over it, and the texts
    only afterwards.  Whenever the export gets to paint (the preview card
    mounted, for the first revision; a context; the background image, if
    any, decoded) its calls start with the background, which paints the
    whole canvas and holds no text, so that every text is among the calls
    that follow; when it does not get to paint it makes no call at all;
    and in no case is a text painted before the canvas has been painted
    whole. *)
Theorem C7_background_before_text (r : Revision) (h : Host) (s : State) :
  textAfterBackground false (timeline (finalCardOf r h s)) = true
  /\ existsb paintsCanvas (backgroundCalls (design s)) = true
  /\ textOrigins (backgroundCalls (design s)) = []
  /\ (if exportPaints r h (design s)
      then exists rest,
             timeline (finalCardOf r h s)
             = (backgroundCalls (design s) ++ rest)%list
             /\ textOrigins (timeline (finalCardOf r h s)) = textOrigins rest
      else timeline (finalCardOf r h s) = []).
Proof.
  assert (Hbg : textOrigins (backgroundCalls (design s)) = []).
  { unfold backgroundCalls. now destruct (Js.truthy _). }
  assert (Hshape : timeline (finalCardOf r h s)
                   = if exportPaints r h (design s)
                     then (backgroundCalls (design s)
                             ++ match r with
                                | First => rev1AfterBackground (cardData s) (design s)
                                | Third => rev3AfterBackground h (cardData s) (design s)
                                end)%list
                     else []).
  { unfold exportPaints. destruct r; simpl finalCardOf.
    - rewrite rev1_timeline. apply rev1FinalCard_shape.
    - rewrite rev3_timeline. apply rev3FinalCard_shape. }
  split; [|split; [|split]].
  - destruct r; simpl.
    + rewrite rev1_timeline. apply rev1_background_first.
    + rewrite rev3_timeline. apply rev3_background_first.
  - unfold backgroundCalls.
    destruct (Js.truthy (Js.prop (design s) "backgroundImage")); reflexivity.
  - exact Hbg.
  - rewrite Hshape. destruct (exportPaints r h (design s)); [|reflexivity].
    eexists. split; [reflexivity|].
    rewrite textOrigins_app, Hbg. reflexivity.
Qed.

(** The check tells a text painted on a bare canvas. *)
Example text_before_background :
  textAfterBackground false
    [FillText "John Doe" 40 60; FillRect 0 0 400 240] = false.
Proof. reflexivity. Qed.

(** In a browser that lets the export paint, the first calls are the
    fill of the whole canvas; without a context there is no call. *)
Example background_is_painted_first :
  exportPaints First browser (design Rev1.initialState) = true
  /\ firstn 2 (timeline (Rev1.downloadFinalCard browser Rev1.initialState))
     = [SetFillStyle (Js.Str "#ffffff"); FillRect 0 0 400 240]
  /\ timeline (Rev1.downloadFinalCard
                 {| cardRef_current := true; getContext_2d := false;
                    decodes := fun _ => true |} Rev1.initialState) = [].
Proof. repeat split; reflexivity. Qed.

(** C6: the guides are never baked into the final card: every call of
    the export is the background, the logo, or the value of a card-data
    entry in the text colour; none is a stroke, a path, a corner dot, a
    rectangle inside the canvas or a field label; and the calls are the
    same whether the guides toggle is on or off, and after toggling it. *)
Theorem C6_no_guides_in_export (r : Revision) (h : Host) (s : State) (b : bool) :
  Forall (finalCardCall s) (timeline (finalCardOf r h s))
  /\ existsb isGuideCall (timeline (finalCardOf r h s)) = false
  /\ timeline (finalCardOf r h (withIndicators b s)) = timeline (finalCardOf r h s)
  /\ timeline ((toggleIndicators ;; finalCardOf r) h s) = timeline (finalCardOf r h s).
Proof.
  assert (Hfinal : Forall (finalCardCall s) (timeline (finalCardOf r h s))).
  { destruct r; simpl.
    - rewrite rev1_timeline. apply rev1_calls_final.
    - rewrite rev3_timeline. apply rev3_calls_final. }
  assert (Hsame : forall s', cardData s' = cardData s -> design s' = design s ->
                    timeline (finalCardOf r h s') = timeline (finalCardOf r h s)).
  { intros s' Hcd Hd. destruct r; simpl.
    - now rewrite !rev1_timeline, Hcd, Hd.
    - now rewrite !rev3_timeline, Hcd, Hd. }
  repeat split.
  - exact Hfinal.
  - exact (Forall_not_guide Hfinal).
  - now apply Hsame.
  - unfold timeline at 1.
    erewrite bind_run by reflexivity.
    cbn [ran deferred app].
    now apply Hsame.
Qed.

(** The template downloads, which draw the guides, do make guide calls. *)
Example downloadTemplate_draws_guides :
  existsb isGuideCall (timeline (Rev1.downloadTemplate browser Rev1.initialState)) = true
  /\ existsb isGuideCall (timeline (Rev3.downloadTemplate browser Rev3.initialState)) = true.
Proof. split; vm_compute; reflexivity. Qed.

(** C1, as stated, fails: for the centred name of the classic template,
    anchored at x = 200 in a box 160 wide, the stated origin is 120; the
    text is painted at x = 200, and the corner dots of its indicator start
    at x = 116. *)
Lemma C1_counterexample :
  (exists tpl, Rev1.activeTemplate (design classicState) = Js.Own tpl
               /\ tpl.["name"] = Some classicName)
  /\ specOrigin classicName (width classicName) == 120
  /\ hd_error (textOrigins (timeline (Rev1.downloadFinalCard browser classicState)))
     = Some ("John Doe", 200, 60)
  /\ ~ 200 == specOrigin classicName (width classicName)
  /\ Rev1.rectX classicName (width classicName) == 116
  /\ ~ Rev1.rectX classicName (width classicName)
       == specOrigin classicName (width classicName).
Proof.
  split; [eexists; split; reflexivity|].
  repeat split; try reflexivity; intros H; discriminate H.
Qed.

(** C1, amended: a field is painted by [fillText] at its anchor (x, y)
    itself, whatever its alignment, after the text alignment of the canvas
    has been set to the alignment of the field, left when it has none; the
    calls depend on nothing but the field, its text and the text colour.
    The corner dots of the indicator of a field start four pixels left of
    the origin that the specification gives: at x - 4, x - w/2 - 4 or
    x - w - 4, for the box width w, which is six times the font size when
    the width is zero. *)
Theorem C1_origin_of_field (tpl : Rev1.Template) (d : Js.object Js.value)
    (field text : string) (pos : FieldPosition) (h h' : Host) (s s' : State) :
  tpl.[field] = Some pos ->
  Js.nonEmpty text = true ->
  Rev1.activeTemplate d = Js.Own tpl ->
  (ran (Rev1.drawField (Js.Own tpl) d (field, text) h s)
   = [ SetFont (weight pos) (size pos) "Arial";
       SetFillStyle (Js.prop d "textColor");
       SetTextAlign (alignment pos);
       FillText text (x pos) (y pos) ]
   /\ ran (Rev1.drawField (Js.Own tpl) d (field, text) h s)
      = ran (Rev1.drawField (Js.Own tpl) d (field, text) h' s'))
  /\ (let w := orElse (width pos) (size pos * 6) in
      In (Arc (Rev1.rectX pos w) (y pos - size pos - 3) 2)
         (ran (Rev1.drawTemplateIndicators d h s))
      /\ Rev1.rectX pos w == specOrigin pos w - 4).
Proof.
  intros Hpos Htext Htpl. split.
  - rewrite !rev1_drawField_draws. unfold rev1FieldCalls. simpl.
    rewrite Hpos, Htext. split; reflexivity.
  - split.
    + rewrite (@rev1_drawTemplateIndicators_draws d tpl Htpl h s). simpl.
      do 4 right. apply in_flat_map. exists (field, pos).
      split; [now apply get_In|]. simpl. auto.
    + unfold Rev1.rectX, specOrigin.
      destruct (align pos) as [[]|]; ring.
Qed.

Lemma C1_origin_of_field_witness :
  (ran (Rev1.drawField (Rev1.activeTemplate (design classicState))
          (design classicState) ("name", "John Doe") browser classicState)
   = [ SetFont "bold" 22 "Arial";
       SetFillStyle (Js.Str "#1e293b");
       SetTextAlign center;
       FillText "John Doe" 200 60 ]
   /\ ran (Rev1.drawField (Rev1.activeTemplate (design classicState))
             (design classicState) ("name", "John Doe") browser classicState)
      = ran (Rev1.drawField (Rev1.activeTemplate (design classicState))
               (design classicState) ("name", "John Doe") browser
               Rev1.initialState))
  /\ (In (Arc (Rev1.rectX classicName 160) (60 - 22 - 3) 2)
         (ran (Rev1.drawTemplateIndicators (design classicState) browser
                 classicState))
      /\ Rev1.rectX classicName 160 == specOrigin classicName 160 - 4).
Proof.
  refine (@C1_origin_of_field
            (Js.literal
               [ ("name", classicName);
                 ("title", Rev1.at_ 200 85 14 "normal" 140 18 (Some center));
                 ("company", Rev1.at_ 200 105 14 "bold" 140 18 (Some center));
                 ("phone", Rev1.at_ 60 155 11 "normal" 120 15 None);
                 ("email", Rev1.at_ 60 175 11 "normal" 140 15 None);
                 ("website", Rev1.at_ 60 195 11 "normal" 120 15 None) ])
            (design classicState) "name" "John Doe" classicName
            browser browser classicState Rev1.initialState _ _ _);
    reflexivity.
Defined.

(** C2, as stated, fails at the scenario of the specification: the export
    paints the name at (40, 60), and in no browser does it paint it at
    (80, 120): the handler has no scale factor to be run at. *)
Lemma C2_counterexample :
  In (FillText "Avery Chen" 40 60)
     (savedPicture (Rev1.downloadFinalCard browser averyChen))
  /\ ~ (exists h, In (FillText "Avery Chen" 80 120)
                     (timeline (Rev1.downloadFinalCard h averyChen))).
Proof.
  split.
  - vm_compute. auto 10.
  - intros [h Hin]. apply rev1_text_at_anchor in Hin
      as (tpl & field & pos & Htpl & Hpos & Hentry & Hx & Hy).
    injection Htpl as <-.
    simpl in Hentry.
    destruct Hentry as [E|[E|[E|[E|[E|[E|[]]]]]]];
      try discriminate E.
    injection E as <-. vm_compute in Hpos. injection Hpos as <-.
    discriminate Hx.
Qed.

(** C2, amended: for the left-aligned name of the modern template,
    anchored at (40, 60), the export paints the name at exactly (40, 60)
    in the picture it saves.  The export takes no scale factor: every text
    it paints is at the anchor that the selected template gives to its
    field, unscaled, on a canvas painted 400 by 240. *)
Theorem C2_name_at_anchor (h : Host) (s : State) (name : string) :
  cardRef_current h = true ->
  getContext_2d h = true ->
  backgroundLoads h (design s) = true ->
  Js.prop (design s) "template" = Js.Str "modern" ->
  (cardData s).["name"] = Some name ->
  Js.nonEmpty name = true ->
  In (FillText name 40 60) (savedPicture (Rev1.downloadFinalCard h s))
  /\ (forall text x0 y0,
        In (FillText text x0 y0) (timeline (Rev1.downloadFinalCard h s)) ->
        exists tpl field pos,
          Rev1.templates.["modern"] = Some tpl
          /\ tpl.[field] = Some pos
          /\ In (field, text) (Js.entries (cardData s))
          /\ x0 = x pos /\ y0 = y pos).
Proof.
  intros Hm Hc Hbg Hmodern Hname Htext.
  assert (Htpl : forall tpl, Rev1.activeTemplate (design s) = Js.Own tpl
                             <-> Rev1.templates.["modern"] = Some tpl).
  { intros tpl. unfold Rev1.activeTemplate. rewrite Hmodern. apply lookup_Own. }
  split.
  - destruct (Rev1.templates.["modern"]) as [tpl|] eqn:E; [|discriminate E].
    apply (@rev1_every_field_drawn h s tpl name "name"
             (Rev1.at_ 40 60 24 "bold" 200 30 None) name);
      auto using get_In.
    + now apply Htpl.
    + injection E as <-. reflexivity.
  - intros text x0 y0 Hin. apply rev1_text_at_anchor in Hin
      as (tpl & field & pos & Hact & Hrest).
    exists tpl, field, pos. split; [now apply Htpl | exact Hrest].
Qed.

Lemma C2_name_at_anchor_witness :
  In (FillText "Avery Chen" 40 60)
     (savedPicture (Rev1.downloadFinalCard browser averyChen))
  /\ (forall text x0 y0,
        In (FillText text x0 y0) (timeline (Rev1.downloadFinalCard browser averyChen)) ->
        exists tpl field pos,
          Rev1.templates.["modern"] = Some tpl
          /\ tpl.[field] = Some pos
          /\ In (field, text) (Js.entries (cardData averyChen))
          /\ x0 = x pos /\ y0 = y pos).
Proof.
  apply (@C2_name_at_anchor browser averyChen "Avery Chen"); reflexivity.
Defined.

(** C3, as stated, fails: no two states that agree on the field values
    are saved under different names, for the name of the file holds
    nothing but the name entry (there is no widget id); and a slash in the
    name reaches the file name. *)
Lemma C3_counterexample :
  ~ (exists r h1 h2 s1 s2 f1 f2,
       cardData s1 = cardData s2
       /\ savedAs (finalCardOf r h1 s1) = Some f1
       /\ savedAs (finalCardOf r h2 s2) = Some f2
       /\ f1 <> f2)
  /\ savedAs (Rev1.downloadFinalCard browser slashName)
     = Some "business-card-final-a/b-testing.png".
Proof.
  split; [|reflexivity].
  intros (r & h1 & h2 & s1 & s2 & f1 & f2 & Hcd & H1 & H2 & Hne).
  apply savedAs_name in H1 as (n1 & Hn1 & ->).
  apply savedAs_name in H2 as (n2 & Hn2 & ->).
  rewrite Hcd, Hn2 in Hn1. injection Hn1 as ->. now apply Hne.
Qed.

(** C3, amended: the name of the exported file is a function of the name
    entry of the card data alone: the fixed prefix of the revision
    ([business-card-final-] or [business-card-]), the name with every run
    of white space replaced by one hyphen and then lower-cased, and the
    fixed extension [.png].  Two exports from states with the same name
    entry are saved under the same file name, whatever else differs. *)
Theorem C3_filename_of_name (r : Revision) (h1 h2 : Host) (s1 s2 : State)
    (f1 f2 : string) :
  (cardData s1).["name"] = (cardData s2).["name"] ->
  savedAs (finalCardOf r h1 s1) = Some f1 ->
  savedAs (finalCardOf r h2 s2) = Some f2 ->
  f1 = f2
  /\ exists name,
       (cardData s1).["name"] = Some name
       /\ f1 = (filePrefix r
                  ++ Js.toLowerCase (Js.replaceSpaces false name) ++ ".png")%string.
Proof.
  intros Hname H1 H2.
  apply savedAs_name in H1 as (n1 & Hn1 & ->).
  apply savedAs_name in H2 as (n2 & Hn2 & ->).
  assert (n1 = n2) as -> by congruence.
  split; [reflexivity|]. exists n2. split; [congruence | reflexivity].
Qed.

Lemma C3_filename_of_name_witness :
  "business-card-final-john-doe.png" = "business-card-final-john-doe.png"
  /\ exists name,
       (cardData Rev1.initialState).["name"] = Some name
       /\ "business-card-final-john-doe.png"
          = (filePrefix First
               ++ Js.toLowerCase (Js.replaceSpaces false name) ++ ".png")%string.
Proof.
  apply (@C3_filename_of_name First browser browser Rev1.initialState
           guidesHidden "business-card-final-john-doe.png"
           "business-card-final-john-doe.png"); reflexivity.
Defined.


(** With a logo the third revision saves the picture before the logo has
    decoded: the file holds the background alone, and the logo and the
    texts are painted afterwards. *)
Example rev3_logo_saved_without_text :
  savedPicture (Rev3.downloadFinalCard browser withLogo)
  = [SetFillStyle (Js.Str "#ffffff"); FillRect 0 0 400 240]
  /\ paintedTexts (timeline (Rev3.downloadFinalCard browser withLogo))
     = [ "Creative Director"; "Design Studio"; "+1 (555) 123-4567";
         "john@designstudio.com"; "www.designstudio.com" ].
Proof. split; reflexivity. Qed.

(** C9: after any sequence of N field and design mutations, N undos
    followed by N redos restore the state reached after the last mutation:
    the fields and the design exactly, and the two stacks up to the times
    of their snapshots; an undo with an empty past stack and a redo with
    an empty future stack change nothing. *)
Theorem C9_undo_redo_symmetry (Other : Type)
    (st0 st : Pipeline.PipelineState Other)
    (ms : list (Z * Pipeline.Mutation)) (us rs : list Z) (now : Z) :
  length us = length ms ->
  length rs = length ms ->
  (Pipeline.fields (Pipeline.redoAll rs (Pipeline.undoAll us (Pipeline.mutateAll ms st0)))
   = Pipeline.fields (Pipeline.mutateAll ms st0)
   /\ Pipeline.design (Pipeline.redoAll rs (Pipeline.undoAll us (Pipeline.mutateAll ms st0)))
      = Pipeline.design (Pipeline.mutateAll ms st0)
   /\ Pipeline.sameState
        (Pipeline.redoAll rs (Pipeline.undoAll us (Pipeline.mutateAll ms st0)))
        (Pipeline.mutateAll ms st0))
  /\ (Pipeline.past (Pipeline.history st) = [] -> Pipeline.undo now st = st)
  /\ (Pipeline.future (Pipeline.history st) = [] -> Pipeline.redo now st = st).
Proof.
  intros Hus Hrs.
  assert (Hsame : Pipeline.sameState
            (Pipeline.redoAll rs (Pipeline.undoAll us (Pipeline.mutateAll ms st0)))
            (Pipeline.mutateAll ms st0)).
  { apply undo_redo_all; [congruence|].
    rewrite mutateAll_past_length. lia. }
  split; [|split].
  - split; [apply Hsame | split; [apply Hsame | exact Hsame]].
  - intros E. unfold Pipeline.undo. now rewrite E.
  - intros E. unfold Pipeline.redo. now rewrite E.
Qed.

Lemma C9_undo_redo_symmetry_witness :
  (Pipeline.fields
     (Pipeline.redoAll [30%Z; 40%Z]
        (Pipeline.undoAll [10%Z; 20%Z]
           (Pipeline.mutateAll twoMutations loadedPipeline)))
   = Pipeline.fields (Pipeline.mutateAll twoMutations loadedPipeline)
   /\ Pipeline.design
        (Pipeline.redoAll [30%Z; 40%Z]
           (Pipeline.undoAll [10%Z; 20%Z]
              (Pipeline.mutateAll twoMutations loadedPipeline)))
      = Pipeline.design (Pipeline.mutateAll twoMutations loadedPipeline)
   /\ Pipeline.sameState
        (Pipeline.redoAll [30%Z; 40%Z]
           (Pipeline.undoAll [10%Z; 20%Z]
              (Pipeline.mutateAll twoMutations loadedPipeline)))
        (Pipeline.mutateAll twoMutations loadedPipeline))
  /\ (Pipeline.past (Pipeline.history
         (Pipeline.undo 1%Z loadedPipeline)) = [] ->
      Pipeline.undo 50%Z (Pipeline.undo 1%Z loadedPipeline)
      = Pipeline.undo 1%Z loadedPipeline)
  /\ (Pipeline.future (Pipeline.history
         (Pipeline.undo 1%Z loadedPipeline)) = [] ->
      Pipeline.redo 50%Z (Pipeline.undo 1%Z loadedPipeline)
      = Pipeline.undo 1%Z loadedPipeline).
Proof.
  apply (@C9_undo_redo_symmetry unit loadedPipeline
           (Pipeline.undo 1%Z loadedPipeline) twoMutations
           [10%Z; 20%Z] [30%Z; 40%Z] 50%Z); reflexivity.
Defined.

(** The history of that session: two undos come back to the loaded card,
    and the two redos to the edited one. *)
Example undo_twice_is_loaded :
  Pipeline.fields
    (Pipeline.undoAll [10%Z; 20%Z] (Pipeline.mutateAll twoMutations loadedPipeline))
  = cardData Rev1.initialState
  /\ (Pipeline.fields (Pipeline.mutateAll twoMutations loadedPipeline)).["name"]
     = Some "Avery Chen"
  /\ Pipeline.canRedo (Pipeline.history (Pipeline.mutateAll twoMutations loadedPipeline))
     = false.
Proof. repeat split; reflexivity. Qed.

(** ** Further properties of the component *)

(** *** The file name *)

Section SlugFacts.

Lemma isSpace_lowerChar c : Js.isSpace (Js.lowerChar c) = Js.isSpace c.
Proof. destruct c as [[] [] [] [] [] [] [] []]; reflexivity. Qed.

Lemma lowerChar_idem c : Js.lowerChar (Js.lowerChar c) = Js.lowerChar c.
Proof. destruct c as [[] [] [] [] [] [] [] []]; reflexivity. Qed.

Lemma toLowerCase_idem s : Js.toLowerCase (Js.toLowerCase s) = Js.toLowerCase s.
Proof. induction s as [|c s IH]; simpl; [reflexivity|]. now rewrite lowerChar_idem, IH. Qed.

Lemma toLowerCase_append a b :
  Js.toLowerCase (a ++ b) = (Js.toLowerCase a ++ Js.toLowerCase b)%string.
Proof. induction a as [|c a IH]; simpl; [reflexivity|]. now rewrite IH. Qed.

(** Replacing white space and lower-casing can be done in either order. *)
Lemma toLowerCase_replaceSpaces b s :
  Js.toLowerCase (Js.replaceSpaces b s) = Js.replaceSpaces b (Js.toLowerCase s).
Proof.
  revert b. induction s as [|c s IH]; intros b; simpl; [reflexivity|].
  rewrite isSpace_lowerChar. destruct (Js.isSpace c).
  - destruct b; simpl; now rewrite IH.
  - simpl. now rewrite IH.
Qed.

Lemma chars_append a b :
  list_ascii_of_string (a ++ b)
  = (list_ascii_of_string a ++ list_ascii_of_string b)%list.
Proof. induction a as [|c a IH]; simpl; [reflexivity|]. now rewrite IH. Qed.

Lemma replaceSpaces_no_space b s c :
  In c (list_ascii_of_string (Js.replaceSpaces b s)) -> Js.isSpace c = false.
Proof.
  revert b. induction s as [|c0 s IH]; intros b; simpl; [tauto|].
  destruct (Js.isSpace c0) eqn:E.
  - destruct b; simpl; [apply IH|]. intros [<-|H]; [reflexivity | eapply IH, H].
  - simpl. intros [<-|H]; [assumption | eapply IH, H].
Qed.

Lemma toLowerCase_no_space s :
  (forall c, In c (list_ascii_of_string s) -> Js.isSpace c = false) ->
  forall c, In c (list_ascii_of_string (Js.toLowerCase s)) -> Js.isSpace c = false.
Proof.
  induction s as [|c0 s IH]; simpl; [tauto|].
  intros H c [<-|Hin].
  - rewrite isSpace_lowerChar. apply H. now left.
  - apply IH; [|assumption]. intros c' Hc'. apply H. now right.
Qed.

Lemma slugOf_no_space name c :
  In c (list_ascii_of_string (slugOf name)) -> Js.isSpace c = false.
Proof.
  unfold slugOf. apply toLowerCase_no_space. intros c'.
  apply replaceSpaces_no_space.
Qed.

(** A string without white space is left as it is. *)
Lemma replaceSpaces_fixed s :
  (forall c, In c (list_ascii_of_string s) -> Js.isSpace c = false) ->
  Js.replaceSpaces false s = s.
Proof.
  induction s as [|c0 s IH]; simpl; [reflexivity|].
  intros H. rewrite (H c0) by now left. rewrite IH; [reflexivity|].
  intros c Hc. apply H. now right.
Qed.

Lemma slugOf_idem name : slugOf (slugOf name) = slugOf name.
Proof.
  unfold slugOf at 1. rewrite replaceSpaces_fixed by apply slugOf_no_space.
  unfold slugOf. apply toLowerCase_idem.
Qed.

Lemma slugOf_case n1 n2 :
  Js.toLowerCase n1 = Js.toLowerCase n2 -> slugOf n1 = slugOf n2.
Proof.
  intros H. unfold slugOf. rewrite !toLowerCase_replaceSpaces. now rewrite H.
Qed.

Lemma filePrefix_plain r :
  (forall c, In c (list_ascii_of_string (filePrefix r)) -> Js.isSpace c = false)
  /\ Js.toLowerCase (filePrefix r) = filePrefix r.
Proof.
  destruct r; (split; [|reflexivity]); intros c Hc; simpl in Hc;
    repeat (destruct Hc as [<-|Hc]; [reflexivity|]); destruct Hc.
Qed.

End SlugFacts.

(** X1: a file saved by the export has a name without white space and
    without capital letters: lower-casing it changes nothing. *)
Theorem X1_file_name_plain (r : Revision) (h : Host) (s : State) (fname : string) :
  savedAs (finalCardOf r h s) = Some fname ->
  (forall c, In c (list_ascii_of_string fname) -> Js.isSpace c = false)
  /\ Js.toLowerCase fname = fname.
Proof.
  intros H. apply savedAs_name in H as (n & _ & ->).
  destruct (filePrefix_plain r) as [Hsp Hlow]. split.
  - intros c. rewrite !chars_append, !in_app_iff. intros [Hc|[Hc|Hc]].
    + now apply Hsp.
    + eapply slugOf_no_space, Hc.
    + simpl in Hc. repeat (destruct Hc as [<-|Hc]; [reflexivity|]). destruct Hc.
  - rewrite !toLowerCase_append, Hlow. unfold slugOf at 1.
    now rewrite toLowerCase_idem.
Qed.

Lemma X1_file_name_plain_witness :
  (forall c, In c (list_ascii_of_string "business-card-final-john-doe.png") ->
             Js.isSpace c = false)
  /\ Js.toLowerCase "business-card-final-john-doe.png"
     = "business-card-final-john-doe.png"%string.
Proof.
  apply (@X1_file_name_plain First browser Rev1.initialState
           "business-card-final-john-doe.png"). reflexivity.
Defined.

(** X2: two names that differ only in the case of their letters, or of
    which one is the slug of the other, are saved under one file name. *)
Theorem X2_file_name_collisions (r : Revision) (h1 h2 : Host) (s1 s2 : State)
    (n1 n2 f1 f2 : string) :
  (cardData s1).["name"] = Some n1 ->
  (cardData s2).["name"] = Some n2 ->
  Js.toLowerCase n1 = Js.toLowerCase n2 \/ n2 = slugOf n1 ->
  savedAs (finalCardOf r h1 s1) = Some f1 ->
  savedAs (finalCardOf r h2 s2) = Some f2 ->
  f1 = f2.
Proof.
  intros Hn1 Hn2 Hsame H1 H2.
  apply savedAs_name in H1 as (m1 & Hm1 & ->).
  apply savedAs_name in H2 as (m2 & Hm2 & ->).
  assert (m1 = n1) as -> by congruence. assert (m2 = n2) as -> by congruence.
  f_equal. f_equal. destruct Hsame as [Hcase| ->].
  - now apply slugOf_case.
  - now rewrite slugOf_idem.
Qed.

Lemma X2_file_name_collisions_witness :
  "business-card-final-john-doe.png"%string = "business-card-final-john-doe.png"%string.
Proof.
  apply (@X2_file_name_collisions First browser browser Rev1.initialState
           (stateAfter (handleTextChange "name" "JOHN DOE" browser Rev1.initialState))
           "John Doe" "JOHN DOE"
           "business-card-final-john-doe.png" "business-card-final-john-doe.png");
    try reflexivity.
  left. reflexivity.
Defined.

(** *** When the export saves, and what *)

Section ExportFacts.

Lemma exported_none calls :
  forallb (fun c => negb (isSave c)) calls = true -> exported calls = None.
Proof.
  induction calls as [|c rest IH]; simpl; [reflexivity|].
  intros H. apply andb_prop in H as [Hc Hrest].
  destruct c; try discriminate; simpl; now rewrite IH.
Qed.

Lemma backgroundCalls_no_save d :
  forallb (fun c => negb (isSave c)) (backgroundCalls d) = true.
Proof. unfold backgroundCalls. now destruct (Js.truthy _). Qed.

Lemma rev1_exported h cd d :
  exported (rev1FinalCard h cd d)
  = if cardRef_current h && getContext_2d h && backgroundLoads h d
       && loopEnds (Rev1.activeTemplate d) cd
    then match cd.["name"] with
         | Some name =>
             Some ((backgroundCalls d ++ rev1Text cd d)%list,
                   ("business-card-final-" ++ slugOf name ++ ".png")%string)
         | None => None
         end
    else None.
Proof.
  rewrite rev1FinalCard_shape.
  destruct (cardRef_current h && getContext_2d h && backgroundLoads h d);
    [|reflexivity].
  unfold rev1AfterBackground, rev1Save. simpl andb.
  assert (Hpre : forallb (fun c => negb (isSave c))
                   (backgroundCalls d ++ rev1Text cd d) = true)
    by now rewrite forallb_app, backgroundCalls_no_save, rev1Text_no_save.
  rewrite app_assoc.
  destruct (loopEnds (Rev1.activeTemplate d) cd).
  - destruct (cd.["name"]) as [name|].
    + now apply exported_app.
    + rewrite app_nil_r. now apply exported_none.
  - rewrite app_nil_r. now apply exported_none.
Qed.

Lemma rev3_exported h cd d :
  exported (rev3FinalCard h cd d)
  = if getContext_2d h && backgroundLoads h d
    then match cd.["name"] with
         | Some name =>
             let fname := ("business-card-" ++ slugOf name ++ ".png")%string in
             match Js.truthy (Js.prop d "logoImage") with
             | Some _ => Some (backgroundCalls d, fname)
             | None =>
                 if loopEnds (Rev3.activeTemplate d) cd
                 then Some ((backgroundCalls d ++ rev3Text cd d)%list, fname)
                 else None
             end
         | None => None
         end
    else None.
Proof.
  rewrite rev3FinalCard_shape.
  destruct (getContext_2d h && backgroundLoads h d); [|reflexivity].
  unfold rev3AfterBackground, rev3Save.
  pose proof (backgroundCalls_no_save d) as Hbg.
  pose proof (rev3Text_no_save cd d) as Htext.
  destruct (Js.truthy (Js.prop d "logoImage")) as [logo|].
  - destruct (cd.["name"]) as [name|]; simpl.
    + now apply exported_app.
    + apply exported_none. rewrite forallb_app, Hbg. simpl.
      destruct (decodes h logo); [simpl; exact Htext | reflexivity].
  - rewrite app_assoc.
    assert (Hpre : forallb (fun c => negb (isSave c))
                     (backgroundCalls d ++ rev3Text cd d) = true)
      by now rewrite forallb_app, Hbg.
    destruct (loopEnds (Rev3.activeTemplate d) cd).
    + destruct (cd.["name"]) as [name|]; simpl.
      * now apply exported_app.
      * apply exported_none. now rewrite app_nil_r.
    + destruct (cd.["name"]); apply exported_none; now rewrite app_nil_r.
Qed.

Lemma paintedTexts_app a b :
  paintedTexts (a ++ b) = (paintedTexts a ++ paintedTexts b)%list.
Proof.
  unfold paintedTexts. induction a as [|[] a IH]; simpl; auto. now f_equal.
Qed.

Lemma backgroundCalls_no_text d : paintedTexts (backgroundCalls d) = [].
Proof. unfold backgroundCalls. now destruct (Js.truthy _). Qed.

Lemma rev1_fieldCalls_texts tpl d l :
  paintedTexts (flat_map (rev1FieldCalls tpl d) l)
  = map snd (filter (rev1Painted tpl) l).
Proof.
  induction l as [|[field text] l IH]; simpl; [reflexivity|].
  rewrite paintedTexts_app, IH. unfold rev1FieldCalls, rev1Painted. simpl.
  destruct (tpl.[field]); simpl; [|reflexivity].
  destruct (Js.nonEmpty text); reflexivity.
Qed.

Lemma rev3_fieldCalls_texts tpl d l :
  paintedTexts (flat_map (rev3FieldCalls tpl d) l)
  = map snd (filter (rev3Painted tpl) l).
Proof.
  induction l as [|[field text] l IH]; simpl; [reflexivity|].
  rewrite paintedTexts_app, IH. unfold rev3FieldCalls, rev3Painted, Rev3.isMeta. simpl.
  destruct (tpl.[field]) as [[label|pos]|]; simpl; try reflexivity.
  destruct (Js.nonEmpty text), (String.eqb field "name"),
    (String.eqb field "description"); reflexivity.
Qed.

End ExportFacts.

(** X3: the export of the first revision saves a file exactly when the
    preview card is mounted, the canvas gives a context, the background
    image (if any) decodes, the card data has a name and the loop over
    its entries throws at none of them.  The loop runs through when
    [templates[design.template]] is a template of the table; it runs
    through as well when the key names a member that every object
    inherits, such as [constructor], unless that is a built-in function
    and an entry is called [caller] or [arguments]; when the key names
    nothing the first entry throws. *)
Theorem X3_rev1_saves_iff (h : Host) (s : State) :
  isSome (savedAs (Rev1.downloadFinalCard h s))
  = cardRef_current h && getContext_2d h && backgroundLoads h (design s)
    && isSome (cardData s).["name"]
    && match Rev1.activeTemplate (design s) with
       | Js.Own _ => true
       | Js.Inherited member =>
           forallb (fun entry => negb (Js.restricted member (fst entry)))
             (Js.entries (cardData s))
       | Js.Missing => false
       end.
Proof.
  unfold savedAs. rewrite rev1_timeline, rev1_exported.
  destruct (cardRef_current h && getContext_2d h && backgroundLoads h (design s));
    [|reflexivity].
  simpl andb. unfold loopEnds.
  destruct (Rev1.activeTemplate (design s)) as [tpl|member|].
  - destruct ((cardData s).["name"]); reflexivity.
  - destruct (forallb _ _); destruct ((cardData s).["name"]); reflexivity.
  - destruct (cardData s) as [|entry rest]; [reflexivity|].
    now rewrite andb_false_r.
Qed.

(** A key that names an inherited member: both exports save a picture
    without any text, under the name of the card, and the template
    download saves one without any guide; with an entry called [caller]
    the export throws. *)
Example inherited_template_is_saved :
  let s1 := stateAfter (handleColorChange "template" "constructor" browser
                          Rev1.initialState) in
  let s3 := stateAfter (handleColorChange "template" "constructor" browser
                          Rev3.initialState) in
  Rev1.activeTemplate (design s1) = Js.Inherited "constructor"
  /\ savedAs (Rev1.downloadFinalCard browser s1)
     = Some "business-card-final-john-doe.png"
  /\ paintedTexts (savedPicture (Rev1.downloadFinalCard browser s1)) = []
  /\ savedAs (Rev1.downloadTemplate browser s1)
     = Some "business-card-template-constructor.png"
  /\ arcCentres (savedPicture (Rev1.downloadTemplate browser s1)) = []
  /\ exported (timeline (Rev3.downloadFinalCard browser s3))
     = Some ([SetFillStyle (Js.Str "#ffffff"); FillRect 0 0 400 240],
             "business-card-john-doe.png")
  /\ savedAs (Rev1.downloadFinalCard browser
               (stateAfter (handleTextChange "caller" "x" browser s1))) = None.
Proof. repeat split; reflexivity. Qed.

(** X4: in the first revision the download is the last call of an export
    that saves: everything the export paints is in the picture saved. *)
Theorem X4_rev1_save_is_last (h : Host) (s : State) (fname : string) :
  savedAs (Rev1.downloadFinalCard h s) = Some fname ->
  timeline (Rev1.downloadFinalCard h s)
  = (savedPicture (Rev1.downloadFinalCard h s) ++ [Save fname])%list.
Proof.
  unfold savedAs, savedPicture. rewrite rev1_timeline, rev1_exported.
  rewrite rev1FinalCard_shape.
  destruct (cardRef_current h && getContext_2d h && backgroundLoads h (design s));
    [|discriminate].
  unfold rev1AfterBackground, rev1Save. simpl andb.
  destruct (loopEnds (Rev1.activeTemplate (design s)) (cardData s));
    [|discriminate].
  destruct ((cardData s).["name"]); [|discriminate].
  simpl. intros [= <-]. now rewrite app_assoc.
Qed.

Lemma X4_rev1_save_is_last_witness :
  timeline (Rev1.downloadFinalCard browser Rev1.initialState)
  = (savedPicture (Rev1.downloadFinalCard browser Rev1.initialState)
       ++ [Save "business-card-final-john-doe.png"])%list.
Proof.
  apply (@X4_rev1_save_is_last browser Rev1.initialState
           "business-card-final-john-doe.png"). reflexivity.
Defined.

(** X5: the export of the third revision saves a file exactly when the
    canvas gives a context, the background image (if any) decodes, the
    card data has a name, and either a logo is set, the texts then being
    painted after the download, or the loop over the entries throws at
    none of them: [templates[design.template]] is a template of the
    table, or a member that every object inherits, such as
    [constructor], of which no entry reads [caller] or [arguments]. *)
Theorem X5_rev3_saves_iff (h : Host) (s : State) :
  isSome (savedAs (Rev3.downloadFinalCard h s))
  = getContext_2d h && backgroundLoads h (design s)
    && isSome (cardData s).["name"]
    && (isSome (Js.truthy (Js.prop (design s) "logoImage"))
        || match Rev3.activeTemplate (design s) with
           | Js.Own _ => true
           | Js.Inherited member =>
               forallb (fun entry => negb (Js.restricted member (fst entry)))
                 (Js.entries (cardData s))
           | Js.Missing => false
           end).
Proof.
  unfold savedAs. rewrite rev3_timeline, rev3_exported.
  destruct (getContext_2d h && backgroundLoads h (design s)); [|reflexivity].
  destruct ((cardData s).["name"]) eqn:Hname; [|reflexivity]. simpl.
  destruct (Js.truthy (Js.prop (design s) "logoImage")); [reflexivity|].
  unfold loopEnds.
  destruct (Rev3.activeTemplate (design s)) as [tpl|member|]; simpl.
  - reflexivity.
  - now destruct (forallb _ _).
  - destruct (cardData s) as [|entry rest]; [discriminate Hname | reflexivity].
Qed.

(** X6: in the third revision, whenever a logo is set, the picture saved
    by the export holds the background alone: neither the logo nor any
    text is in the file. *)
Theorem X6_rev3_logo_saves_background_only (h : Host) (s : State)
    (logo fname : string) :
  Js.truthy (Js.prop (design s) "logoImage") = Some logo ->
  savedAs (Rev3.downloadFinalCard h s) = Some fname ->
  savedPicture (Rev3.downloadFinalCard h s) = backgroundCalls (design s)
  /\ paintedTexts (savedPicture (Rev3.downloadFinalCard h s)) = [].
Proof.
  unfold savedAs, savedPicture. rewrite rev3_timeline, rev3_exported.
  intros Hlogo. rewrite Hlogo.
  destruct (getContext_2d h && backgroundLoads h (design s)); [|discriminate].
  destruct ((cardData s).["name"]); [|discriminate]. simpl. intros _.
  split; [reflexivity | apply backgroundCalls_no_text].
Qed.

Lemma X6_rev3_logo_saves_background_only_witness :
  savedPicture (Rev3.downloadFinalCard browser withLogo)
  = backgroundCalls (design withLogo)
  /\ paintedTexts (savedPicture (Rev3.downloadFinalCard browser withLogo)) = [].
Proof.
  apply (@X6_rev3_logo_saves_background_only browser withLogo
           "data:image/png;base64,AAAA" "business-card-john-doe.png");
    reflexivity.
Defined.

(** X7: the texts the export of the first revision paints are the values
    of the entries of the card data that the selected template places and
    that are not empty, in the order of the card data; it paints none when
    the card is not mounted, the canvas gives no context, the background
    does not decode or no template of the table is selected. *)
Theorem X7_rev1_painted_texts (h : Host) (s : State) :
  paintedTexts (timeline (Rev1.downloadFinalCard h s))
  = if cardRef_current h && getContext_2d h && backgroundLoads h (design s)
    then match Rev1.activeTemplate (design s) with
         | Js.Own tpl =>
             map snd (filter (rev1Painted tpl) (Js.entries (cardData s)))
         | _ => []
         end
    else [].
Proof.
  rewrite rev1_timeline, rev1FinalCard_shape.
  destruct (cardRef_current h && getContext_2d h && backgroundLoads h (design s));
    [|reflexivity].
  rewrite paintedTexts_app, backgroundCalls_no_text. simpl.
  unfold rev1AfterBackground. rewrite paintedTexts_app.
  assert (Hsave : paintedTexts
                    (if loopEnds (Rev1.activeTemplate (design s)) (cardData s)
                     then rev1Save (cardData s) else []) = []).
  { destruct (loopEnds _ _); [|reflexivity].
    unfold rev1Save. now destruct ((cardData s).["name"]). }
  rewrite Hsave, app_nil_r. unfold rev1Text.
  destruct (Rev1.activeTemplate (design s)) as [tpl| |]; try reflexivity.
  apply rev1_fieldCalls_texts.
Qed.

(** X8: the texts the export of the third revision paints are the values
    of the entries that the selected template places, that are not empty
    and that are not called [name] or [description]; it paints none when
    the canvas gives no context, or the background or the logo does not
    decode, or no template of the table is selected. *)
Theorem X8_rev3_painted_texts (h : Host) (s : State) :
  paintedTexts (timeline (Rev3.downloadFinalCard h s))
  = if getContext_2d h && backgroundLoads h (design s) && logoLoads h (design s)
    then match Rev3.activeTemplate (design s) with
         | Js.Own tpl =>
             map snd (filter (rev3Painted tpl) (Js.entries (cardData s)))
         | _ => []
         end
    else [].
Proof.
  rewrite rev3_timeline, rev3FinalCard_shape. unfold logoLoads.
  destruct (getContext_2d h && backgroundLoads h (design s)); [|reflexivity].
  rewrite paintedTexts_app, backgroundCalls_no_text. simpl.
  assert (Hsave : paintedTexts (rev3Save (cardData s)) = []).
  { unfold rev3Save. now destruct ((cardData s).["name"]). }
  assert (Htext : paintedTexts (rev3Text (cardData s) (design s))
                  = match Rev3.activeTemplate (design s) with
                    | Js.Own tpl =>
                        map snd (filter (rev3Painted tpl) (Js.entries (cardData s)))
                    | _ => []
                    end).
  { unfold rev3Text.
    destruct (Rev3.activeTemplate (design s)) as [tpl| |]; try reflexivity.
    apply rev3_fieldCalls_texts. }
  unfold rev3AfterBackground.
  destruct (Js.truthy (Js.prop (design s) "logoImage")) as [logo|].
  - rewrite paintedTexts_app, Hsave. simpl.
    destruct (decodes h logo).
    + change (DrawImage logo 340 20 40 40 :: ?l) with ([DrawImage logo 340 20 40 40] ++ l)%list.
      rewrite paintedTexts_app. simpl. exact Htext.
    + now destruct (Rev3.activeTemplate (design s)).
  - rewrite paintedTexts_app, Htext.
    destruct (loopEnds _ _); [rewrite Hsave|]; now rewrite app_nil_r.
Qed.

(** *** The template downloads *)

Section TemplateFacts.

Lemma rev1_templateRest_outcome d h s :
  stateAfter ((Rev1.drawTemplateIndicators d ;; call (rev1TemplateSave d)) h s) = s
  /\ ran ((Rev1.drawTemplateIndicators d ;; call (rev1TemplateSave d)) h s)
     = rev1TemplateRest d
  /\ deferred ((Rev1.drawTemplateIndicators d ;; call (rev1TemplateSave d)) h s) = [].
Proof.
  unfold rev1TemplateRest.
  destruct (Rev1.activeTemplate d) as [tpl|member|] eqn:E.
  - erewrite bind_run by (apply rev1_drawTemplateIndicators_draws; exact E).
    cbn [stateAfter ran deferred call]. rewrite <- app_assoc. repeat split.
  - unfold Rev1.drawTemplateIndicators. rewrite E. repeat split.
  - unfold Rev1.drawTemplateIndicators. rewrite E. repeat split.
Qed.

Lemma rev1_template_timeline h s :
  timeline (Rev1.downloadTemplate h s) = rev1TemplateCalls h (design s).
Proof.
  destruct (rev1_templateRest_outcome (design s) h s) as (_ & Hran & Hdef).
  unfold Rev1.downloadTemplate, rev1TemplateCalls, timeline.
  erewrite bind_run by reflexivity. erewrite bind_run by reflexivity.
  destruct (getContext_2d h); [|reflexivity].
  cbn [negb returned stateAfter ran deferred app].
  fold (rev1TemplateSave (design s)).
  destruct (Js.truthy (Js.prop (design s) "backgroundImage")) as [src|].
  - unfold onload. destruct (decodes h src); [|reflexivity].
    erewrite bind_run by reflexivity.
    cbn [returned stateAfter ran deferred app]. now rewrite Hran, Hdef, app_nil_r.
  - erewrite bind_run by reflexivity. erewrite bind_run by reflexivity.
    cbn [returned stateAfter ran deferred app]. now rewrite Hran, Hdef, app_nil_r.
Qed.

Lemma rev1_template_readOnly : readOnly Rev1.downloadTemplate.
Proof.
  unfold Rev1.downloadTemplate. apply readOnly_closure. intros s h.
  destruct (negb (getContext_2d h)); [apply readOnly_ret|].
  assert (Hind : readOnly (Rev1.drawTemplateIndicators (design s))).
  { unfold Rev1.drawTemplateIndicators.
    repeat (apply readOnly_bind; [apply readOnly_call | intros _]).
    destruct (Rev1.activeTemplate (design s));
      [|apply readOnly_ret|apply readOnly_throw].
    apply readOnly_forEach. intros [field pos].
    repeat (apply readOnly_bind; [apply readOnly_call | intros _]).
    apply readOnly_call. }
  destruct (Js.truthy _); auto 8 with handlers.
Qed.

Lemma rev2_template_timeline h s :
  timeline (Rev2.downloadTemplate h s) = rev2TemplateCalls h (design s).
Proof.
  unfold Rev2.downloadTemplate, rev2TemplateCalls, timeline.
  erewrite bind_run by reflexivity. erewrite bind_run by reflexivity.
  destruct (getContext_2d h); [|reflexivity].
  cbn [negb returned stateAfter ran deferred app].
  destruct (Js.truthy (Js.prop (design s) "backgroundImage")) as [src|].
  - unfold onload. destruct (decodes h src); reflexivity.
  - reflexivity.
Qed.

Lemma rev3_guide_draws entry :
  draws ((fun '(field, value) =>
            if Rev3.isMeta field then ret tt
            else
              match value with
              | Rev3.Text _ => ret tt
              | Rev3.Position pos =>
                  let width := orElse (width pos) 150 in
                  let height := orElse (height pos) (size pos + 8) in
                  let rectX := Rev3.rectX pos width in
                  let rectY := y pos - size pos - 3 in
                  call (SetStrokeStyle "rgba(59, 130, 246, 0.3)") ;;
                  call (SetLineWidth 1) ;;
                  call (StrokeRect rectX rectY (width + 8) (height + 6)) ;;
                  call (SetFillStyle (Js.Str "rgba(59, 130, 246, 0.05)")) ;;
                  call (FillRect rectX rectY (width + 8) (height + 6))
              end) entry)
    (rev3GuideCalls entry).
Proof.
  destruct entry as [field value]. unfold rev3GuideCalls. simpl.
  destruct (Rev3.isMeta field); [apply draws_ret|].
  destruct value; [apply draws_ret|]. intros h s. reflexivity.
Qed.

Lemma rev3_templateRest_outcome d h s :
  stateAfter ((Rev3.drawTemplate d ;; call (rev3TemplateSave d)) h s) = s
  /\ ran ((Rev3.drawTemplate d ;; call (rev3TemplateSave d)) h s)
     = rev3TemplateRest d
  /\ deferred ((Rev3.drawTemplate d ;; call (rev3TemplateSave d)) h s) = [].
Proof.
  unfold rev3TemplateRest, Rev3.drawTemplate.
  destruct (Rev3.activeTemplate d) as [tpl|member|] eqn:E.
  - erewrite bind_run by (apply draws_forEach; apply rev3_guide_draws).
    repeat split.
  - repeat split.
  - repeat split.
Qed.

Lemma rev3_template_timeline h s :
  timeline (Rev3.downloadTemplate h s) = rev3TemplateCalls h (design s).
Proof.
  destruct (rev3_templateRest_outcome (design s) h s) as (_ & Hran & Hdef).
  unfold Rev3.downloadTemplate, rev3TemplateCalls, timeline.
  erewrite bind_run by reflexivity. erewrite bind_run by reflexivity.
  destruct (getContext_2d h); [|reflexivity].
  cbn [negb returned stateAfter ran deferred app].
  fold (rev3TemplateSave (design s)).
  destruct (Js.truthy (Js.prop (design s) "backgroundImage")) as [src|].
  - unfold onload. destruct (decodes h src); [|reflexivity].
    erewrite bind_run by reflexivity.
    cbn [returned stateAfter ran deferred app]. now rewrite Hran, Hdef, app_nil_r.
  - erewrite bind_run by reflexivity. erewrite bind_run by reflexivity.
    cbn [returned stateAfter ran deferred app]. now rewrite Hran, Hdef, app_nil_r.
Qed.

Lemma paintedTexts_flat_map_nil {A} (f : A -> list Call) l :
  (forall a, paintedTexts (f a) = []) -> paintedTexts (flat_map f l) = [].
Proof.
  intros H. induction l as [|a l IH]; simpl; [reflexivity|].
  now rewrite paintedTexts_app, H, IH.
Qed.

Lemma rev3GuideCalls_no_text entry : paintedTexts (rev3GuideCalls entry) = [].
Proof.
  unfold rev3GuideCalls. destruct (Rev3.isMeta (fst entry)); [reflexivity|].
  now destruct (snd entry).
Qed.

Lemma rev1TemplateCalls_shape h d :
  rev1TemplateCalls h d
  = if getContext_2d h && backgroundLoads h d
    then (backgroundCalls d ++ rev1TemplateRest d)%list
    else [].
Proof.
  unfold rev1TemplateCalls, backgroundLoads, backgroundCalls.
  destruct (getContext_2d h); [|reflexivity].
  destruct (Js.truthy (Js.prop d "backgroundImage")) as [src|]; simpl;
    [destruct (decodes h src)|]; reflexivity.
Qed.

Lemma rev3TemplateCalls_shape h d :
  rev3TemplateCalls h d
  = if getContext_2d h && backgroundLoads h d
    then (backgroundCalls d ++ rev3TemplateRest d)%list
    else [].
Proof.
  unfold rev3TemplateCalls, backgroundLoads, backgroundCalls.
  destruct (getContext_2d h); [|reflexivity].
  destruct (Js.truthy (Js.prop d "backgroundImage")) as [src|]; simpl;
    [destruct (decodes h src)|]; reflexivity.
Qed.

Lemma rev1IndicatorCalls_no_save l :
  forallb (fun c => negb (isSave c)) (flat_map rev1IndicatorCalls l) = true.
Proof. apply forallb_flat_map. intros a. reflexivity. Qed.

Lemma rev3GuideCalls_no_save l :
  forallb (fun c => negb (isSave c)) (flat_map rev3GuideCalls l) = true.
Proof.
  apply forallb_flat_map. intros a. unfold rev3GuideCalls.
  destruct (Rev3.isMeta (fst a)); [reflexivity|]. now destruct (snd a).
Qed.

(** The picture of a template download that has a template to draw. *)
Lemma rev1_template_exported h s tpl :
  getContext_2d h = true ->
  backgroundLoads h (design s) = true ->
  Rev1.activeTemplate (design s) = Js.Own tpl ->
  exported (timeline (Rev1.downloadTemplate h s))
  = Some ((backgroundCalls (design s)
             ++ [ SetStrokeStyle "rgba(0, 0, 0, 0.08)"; SetLineWidth 1;
                  SetLineDash []; SetFillStyle (Js.Str "rgba(0, 0, 0, 0.02)") ]
             ++ flat_map rev1IndicatorCalls (Js.entries tpl))%list,
          ("business-card-template-"
             ++ Js.toString (Js.prop (design s) "template") ++ ".png")%string).
Proof.
  intros Hc Hbg Htpl.
  rewrite rev1_template_timeline, rev1TemplateCalls_shape, Hc, Hbg.
  unfold rev1TemplateRest. rewrite Htpl. simpl andb. cbv iota.
  rewrite !app_assoc. apply exported_app.
  rewrite !forallb_app, backgroundCalls_no_save, rev1IndicatorCalls_no_save.
  reflexivity.
Qed.

Lemma rev3_template_exported h s tpl :
  getContext_2d h = true ->
  backgroundLoads h (design s) = true ->
  Rev3.activeTemplate (design s) = Js.Own tpl ->
  exported (timeline (Rev3.downloadTemplate h s))
  = Some ((backgroundCalls (design s)
             ++ flat_map rev3GuideCalls (Js.entries tpl))%list,
          ("ai-template-"
             ++ Js.toString (Js.prop (design s) "template") ++ ".png")%string).
Proof.
  intros Hc Hbg Htpl.
  rewrite rev3_template_timeline, rev3TemplateCalls_shape, Hc, Hbg.
  unfold rev3TemplateRest. rewrite Htpl. simpl andb. cbv iota.
  rewrite !app_assoc. apply exported_app.
  rewrite !forallb_app, backgroundCalls_no_save, rev3GuideCalls_no_save.
  reflexivity.
Qed.

Lemma arcCentres_app a b :
  arcCentres (a ++ b) = (arcCentres a ++ arcCentres b)%list.
Proof. induction a as [|[] a IH]; simpl; auto. now f_equal. Qed.

Lemma strokedRects_app a b :
  strokedRects (a ++ b) = (strokedRects a ++ strokedRects b)%list.
Proof. induction a as [|[] a IH]; simpl; auto. now f_equal. Qed.

Lemma outlines_app a b : outlines (a ++ b) = (outlines a ++ outlines b)%list.
Proof. induction a as [|[] a IH]; simpl; auto. now f_equal. Qed.

Lemma backgroundCalls_plain d :
  arcCentres (backgroundCalls d) = [] /\ strokedRects (backgroundCalls d) = [].
Proof. unfold backgroundCalls. now destruct (Js.truthy _). Qed.

End TemplateFacts.

(** X9: a template download paints no text and does not read the card
    data: in every revision its calls are the same whatever the fields
    hold, so no value of the card reaches the picture given to the image
    generator. *)
Theorem X9_template_download_ignores_card (h : Host) (s : State)
    (cd : Js.object string) :
  (timeline (Rev1.downloadTemplate h (withCardData cd s))
   = timeline (Rev1.downloadTemplate h s)
   /\ paintedTexts (timeline (Rev1.downloadTemplate h s)) = [])
  /\ (timeline (Rev2.downloadTemplate h (withCardData cd s))
      = timeline (Rev2.downloadTemplate h s)
      /\ paintedTexts (timeline (Rev2.downloadTemplate h s)) = [])
  /\ (timeline (Rev3.downloadTemplate h (withCardData cd s))
      = timeline (Rev3.downloadTemplate h s)
      /\ paintedTexts (timeline (Rev3.downloadTemplate h s)) = []).
Proof.
  rewrite !rev1_template_timeline, !rev2_template_timeline, !rev3_template_timeline.
  simpl design. repeat split.
  - rewrite rev1TemplateCalls_shape.
    destruct (getContext_2d h && backgroundLoads h (design s)); [|reflexivity].
    rewrite paintedTexts_app, backgroundCalls_no_text. unfold rev1TemplateRest.
    rewrite paintedTexts_app. simpl.
    destruct (Rev1.activeTemplate (design s)); try reflexivity.
    rewrite paintedTexts_app. rewrite paintedTexts_flat_map_nil; auto.
  - unfold rev2TemplateCalls. destruct (getContext_2d h); [|reflexivity].
    destruct (Js.truthy _) as [src|]; [destruct (decodes h src)|]; reflexivity.
  - rewrite rev3TemplateCalls_shape.
    destruct (getContext_2d h && backgroundLoads h (design s)); [|reflexivity].
    rewrite paintedTexts_app, backgroundCalls_no_text. unfold rev3TemplateRest.
    destruct (Rev3.activeTemplate (design s)); try reflexivity.
    rewrite paintedTexts_app.
    rewrite paintedTexts_flat_map_nil; auto using rev3GuideCalls_no_text.
Qed.

(** X10: a template download of the first revision that has a template to
    draw saves four corner dots for every field of the template, under a
    name made of the template selection alone. *)
Theorem X10_rev1_template_dots (h : Host) (s : State) (tpl : Rev1.Template) :
  getContext_2d h = true ->
  backgroundLoads h (design s) = true ->
  Rev1.activeTemplate (design s) = Js.Own tpl ->
  length (arcCentres (savedPicture (Rev1.downloadTemplate h s)))
  = (4 * length (Js.entries tpl))%nat
  /\ savedAs (Rev1.downloadTemplate h s)
     = Some ("business-card-template-"
               ++ Js.toString (Js.prop (design s) "template") ++ ".png")%string.
Proof.
  intros Hc Hbg Htpl. unfold savedPicture, savedAs.
  rewrite (@rev1_template_exported h s tpl Hc Hbg Htpl). split; [|reflexivity].
  rewrite !arcCentres_app. destruct (backgroundCalls_plain (design s)) as [-> _].
  simpl. induction (Js.entries tpl) as [|e l IH]; [reflexivity|].
  cbn [flat_map]. rewrite arcCentres_app, length_app, IH. simpl. lia.
Qed.

Lemma X10_rev1_template_dots_witness :
  length (arcCentres (savedPicture (Rev1.downloadTemplate browser classicState)))
  = (4 * length (Js.entries
                   (Js.literal
                      [ ("name", classicName);
                        ("title", Rev1.at_ 200 85 14 "normal" 140 18 (Some center));
                        ("company", Rev1.at_ 200 105 14 "bold" 140 18 (Some center));
                        ("phone", Rev1.at_ 60 155 11 "normal" 120 15 None);
                        ("email", Rev1.at_ 60 175 11 "normal" 140 15 None);
                        ("website", Rev1.at_ 60 195 11 "normal" 120 15 None) ])))%nat
  /\ savedAs (Rev1.downloadTemplate browser classicState)
     = Some ("business-card-template-"
               ++ Js.toString (Js.prop (design classicState) "template")
               ++ ".png")%string.
Proof.
  apply (@X10_rev1_template_dots browser classicState); reflexivity.
Defined.

(** X11: in the first revision the dots of the downloaded template sit at
    the corners of the guides that the preview shows, field by field, for
    a template whose fields all have a width: the picture given to the
    image generator marks the boxes seen on the screen. *)
Theorem X11_rev1_dots_at_guide_corners (h : Host) (s : State)
    (tpl : Rev1.Template) :
  getContext_2d h = true ->
  backgroundLoads h (design s) = true ->
  Rev1.activeTemplate (design s) = Js.Own tpl ->
  (forall field pos, In (field, pos) (Js.entries tpl) ->
                     Qeq_bool (width pos) 0 = false) ->
  Forall2 samePoint
    (arcCentres (savedPicture (Rev1.downloadTemplate h s)))
    (flat_map corners (outlines (flat_map Rev1Ui.indicator (Js.entries tpl)))).
Proof.
  intros Hc Hbg Htpl Hw. unfold savedPicture.
  rewrite (@rev1_template_exported h s tpl Hc Hbg Htpl).
  rewrite !arcCentres_app. destruct (backgroundCalls_plain (design s)) as [-> _].
  simpl app. revert Hw. induction (Js.entries tpl) as [|[field pos] l IH]; intros Hw.
  - constructor.
  - cbn [flat_map]. rewrite arcCentres_app, outlines_app, flat_map_app.
    apply Forall2_app; [|apply IH; intros f p Hin; apply (Hw f p); now right].
    unfold rev1IndicatorCalls, Rev1Ui.indicator, orElse. simpl snd.
    rewrite (Hw field pos) by now left.
    simpl. repeat constructor; simpl; ring.
Qed.

Lemma X11_rev1_dots_at_guide_corners_witness :
  Forall2 samePoint
    (arcCentres (savedPicture (Rev1.downloadTemplate browser classicState)))
    (flat_map corners
       (outlines
          (flat_map Rev1Ui.indicator
             (Js.entries
                (Js.literal
                   [ ("name", classicName);
                     ("title", Rev1.at_ 200 85 14 "normal" 140 18 (Some center));
                     ("company", Rev1.at_ 200 105 14 "bold" 140 18 (Some center));
                     ("phone", Rev1.at_ 60 155 11 "normal" 120 15 None);
                     ("email", Rev1.at_ 60 175 11 "normal" 140 15 None);
                     ("website", Rev1.at_ 60 195 11 "normal" 120 15 None) ]))))).
Proof.
  apply (@X11_rev1_dots_at_guide_corners browser classicState); try reflexivity.
  intros field pos Hin. simpl in Hin.
  repeat (destruct Hin as [[= <- <-]|Hin]; [reflexivity|]). destruct Hin.
Defined.

(** With a width of zero the two disagree: the preview falls back on 150,
    the download on six times the font size. *)
Example zero_width_guides_differ :
  outlines (Rev1Ui.indicator ("name", Rev1.at_ 40 60 24 "bold" 0 30 None))
  = [(36, 33, 158, 36)]
  /\ arcCentres (rev1IndicatorCalls ("name", Rev1.at_ 40 60 24 "bold" 0 30 None))
     = [(36, 33); (188, 33); (36, 69); (188, 69)].
Proof. split; vm_compute; reflexivity. Qed.

(** X12: in the third revision the rectangles stroked into the downloaded
    template are exactly the outlines of the guides of the preview, in the
    same order; the field [name] has neither. *)
Theorem X12_rev3_template_rects_are_guides (h : Host) (s : State)
    (tpl : Rev3.Template) :
  getContext_2d h = true ->
  backgroundLoads h (design s) = true ->
  Rev3.activeTemplate (design s) = Js.Own tpl ->
  strokedRects (savedPicture (Rev3.downloadTemplate h s))
  = outlines (flat_map Rev3Ui.indicator (Js.entries tpl))
  /\ outlines (flat_map Rev3Ui.indicator (Js.entries tpl))
     = outlines (flat_map Rev3Ui.indicator
                   (filter (fun e => negb (String.eqb (fst e) "name"))
                      (Js.entries tpl))).
Proof.
  intros Hc Hbg Htpl. unfold savedPicture.
  rewrite (@rev3_template_exported h s tpl Hc Hbg Htpl).
  rewrite strokedRects_app. destruct (backgroundCalls_plain (design s)) as [_ ->].
  simpl app. split.
  - induction (Js.entries tpl) as [|[field value] l IH]; [reflexivity|].
    cbn [flat_map]. rewrite strokedRects_app, outlines_app, IH. f_equal.
    unfold rev3GuideCalls, Rev3Ui.indicator. simpl.
    destruct (Rev3.isMeta field); [reflexivity|]. now destruct value.
  - induction (Js.entries tpl) as [|[field value] l IH]; [reflexivity|].
    simpl. destruct (String.eqb field "name") eqn:E; simpl.
    + rewrite outlines_app, IH. unfold Rev3Ui.indicator at 1, Rev3.isMeta.
      now rewrite E.
    + now rewrite !outlines_app, IH.
Qed.

Lemma X12_rev3_template_rects_are_guides_witness :
  strokedRects (savedPicture (Rev3.downloadTemplate browser Rev3.initialState))
  = [ (36, 71, 188, 26); (36, 98, 168, 24); (36, 140, 148, 22);
      (36, 160, 188, 22); (36, 180, 168, 22) ].
Proof.
  destruct (Rev3.activeTemplate (design Rev3.initialState)) as [tpl| |] eqn:E;
    [|discriminate E|discriminate E].
  destruct (@X12_rev3_template_rects_are_guides browser Rev3.initialState tpl
              eq_refl eq_refl E) as [H _].
  rewrite H. injection E as <-. reflexivity.
Defined.

(** *** A handler, then the export *)

Section CompositionFacts.

(** A handler that only writes the state, followed by another. *)
Lemma after_setter {A} (m : M unit) (k : M A) h s s' :
  m h s = {| returned := Some tt; stateAfter := s'; ran := []; deferred := [] |} ->
  timeline ((m ;; k) h s) = timeline (k h s')
  /\ stateAfter ((m ;; k) h s) = stateAfter (k h s').
Proof.
  intros E. unfold timeline. erewrite bind_run by exact E. split; reflexivity.
Qed.

Lemma savedPicture_timeline {A B} (o : Outcome A) (o' : Outcome B) :
  timeline o = timeline o' ->
  savedPicture o = savedPicture o' /\ savedAs o = savedAs o'.
Proof. unfold savedPicture, savedAs. intros ->. split; reflexivity. Qed.

Lemma prop_set_same (d : Js.object Js.value) k v : Js.prop (d.[k := v]) k = v.
Proof. unfold Js.prop. now rewrite get_set_same. Qed.

Lemma prop_set_other (d : Js.object Js.value) k k' v :
  k' <> k -> Js.prop (d.[k := v]) k' = Js.prop d k'.
Proof. intros H. unfold Js.prop. now rewrite get_set_other. Qed.

Lemma keys_get {A} (o : Js.object A) k :
  In k (Js.keys o) -> exists v, o.[k] = Some v.
Proof.
  induction o as [|[k0 v0] rest IH]; simpl; [tauto|].
  destruct (String.eqb_spec k0 k) as [->|Hne]; [eauto|].
  intros [?|Hin]; [congruence | auto].
Qed.

Lemma set_set_same {A} (o : Js.object A) k v v' :
  (o.[k := v]).[k := v'] = o.[k := v'].
Proof.
  induction o as [|[k0 v0] rest IH]; simpl.
  - now rewrite String.eqb_refl.
  - destruct (String.eqb k0 k) eqn:E; simpl; rewrite E; [reflexivity|].
    now rewrite IH.
Qed.

Lemma set_set_comm {A} (o : Js.object A) k1 k2 v1 v2 :
  k1 <> k2 ->
  o.[k1] <> None \/ o.[k2] <> None ->
  (o.[k1 := v1]).[k2 := v2] = (o.[k2 := v2]).[k1 := v1].
Proof.
  intros Hne. induction o as [|[k0 v0] rest IH]; simpl.
  - intros [H|H]; congruence.
  - destruct (String.eqb k0 k1) eqn:E1; destruct (String.eqb k0 k2) eqn:E2;
      simpl; rewrite ?E1, ?E2.
    + apply String.eqb_eq in E1, E2. congruence.
    + reflexivity.
    + reflexivity.
    + intros H. now rewrite IH.
Qed.

(** Every template of the first revision places the six fields of the
    card. *)
Lemma rev1_templates_place_all t tpl :
  Rev1.templates.[t] = Some tpl -> Js.keys tpl = cardFields.
Proof.
  intros H. apply get_In in H.
  assert (Hall : Forall (fun kv => Js.keys (snd kv) = cardFields)
                   (Js.entries Rev1.templates)).
  { vm_compute. repeat constructor. }
  rewrite Forall_forall in Hall. apply (Hall _ H).
Qed.

(** The only image the first revision draws is the background. *)
Lemma rev1_image_is_background h cd d src x0 y0 w0 h0 :
  In (DrawImage src x0 y0 w0 h0) (rev1FinalCard h cd d) ->
  Js.truthy (Js.prop d "backgroundImage") = Some src.
Proof.
  assert (Hrest : ~ In (DrawImage src x0 y0 w0 h0) (rev1AfterBackground cd d)).
  { unfold rev1AfterBackground, rev1Text.
    rewrite in_app_iff. intros [Hin|Hin].
    - destruct (Rev1.activeTemplate d) as [tpl| |]; try destruct Hin.
      apply in_flat_map in Hin as ([field text] & _ & Hin).
      unfold rev1FieldCalls in Hin. simpl in Hin.
      destruct (tpl.[field]); [|destruct Hin].
      destruct (Js.nonEmpty text); [|destruct Hin].
      repeat (destruct Hin as [Hc|Hin]; [discriminate Hc|]). destruct Hin.
    - destruct (loopEnds _ _); [|destruct Hin].
      unfold rev1Save in Hin. destruct (cd.["name"]); [|destruct Hin].
      destruct Hin as [Hc|[]]. discriminate Hc. }
  unfold rev1FinalCard.
  destruct (cardRef_current h && getContext_2d h); [|intros []].
  destruct (Js.truthy (Js.prop d "backgroundImage")) as [src'|].
  - destruct (decodes h src'); [|intros []].
    intros [[= -> _ _ _ _]|Hin]; [reflexivity | tauto].
  - intros [Hc|[Hc|Hin]]; [discriminate | discriminate | tauto].
Qed.

Lemma backgroundLoads_set h d k v :
  k <> "backgroundImage"%string ->
  backgroundLoads h (d.[k := v]) = backgroundLoads h d.
Proof.
  intros Hk. unfold backgroundLoads. rewrite prop_set_other by congruence.
  reflexivity.
Qed.

End CompositionFacts.

(** X13: [resetToDefault] puts back the card data and the design of the
    initial state, whatever they were, and leaves the selected field and
    the guides toggle as they are; an export right after it makes the
    calls of an export from the initial state. *)
Theorem X13_reset_restores_card (h : Host) (s : State) :
  (cardData (stateAfter (Rev1Ui.resetToDefault h s)) = cardData Rev1.initialState
   /\ design (stateAfter (Rev1Ui.resetToDefault h s)) = design Rev1.initialState
   /\ activeField (stateAfter (Rev1Ui.resetToDefault h s)) = activeField s
   /\ showIndicators (stateAfter (Rev1Ui.resetToDefault h s)) = showIndicators s
   /\ timeline ((Rev1Ui.resetToDefault ;; Rev1.downloadFinalCard) h s)
      = timeline (Rev1.downloadFinalCard h Rev1.initialState))
  /\ (cardData (stateAfter (Rev3Ui.resetToDefault h s)) = cardData Rev3.initialState
      /\ design (stateAfter (Rev3Ui.resetToDefault h s)) = design Rev3.initialState
      /\ activeField (stateAfter (Rev3Ui.resetToDefault h s)) = activeField s
      /\ showIndicators (stateAfter (Rev3Ui.resetToDefault h s)) = showIndicators s
      /\ timeline ((Rev3Ui.resetToDefault ;; Rev3.downloadFinalCard) h s)
         = timeline (Rev3.downloadFinalCard h Rev3.initialState)).
Proof.
  split; (repeat split; try reflexivity).
  - destruct (@after_setter unit Rev1Ui.resetToDefault Rev1.downloadFinalCard h s
                (stateAfter (Rev1Ui.resetToDefault h s)) eq_refl) as [-> _].
    now rewrite !rev1_timeline.
  - destruct (@after_setter unit Rev3Ui.resetToDefault Rev3.downloadFinalCard h s
                (stateAfter (Rev3Ui.resetToDefault h s)) eq_refl) as [-> _].
    now rewrite !rev3_timeline.
Qed.

(** X14: every template of the first revision places all six fields of
    the card: after any offered template has been chosen, the export
    saves the value of each of the six fields that is not empty, at the
    anchor the chosen template gives it. *)
Theorem X14_chosen_template_paints_all (h : Host) (s : State) (t : string)
    (tpl : Rev1.Template) (name field text : string) :
  Rev1.templates.[t] = Some tpl ->
  cardRef_current h = true ->
  getContext_2d h = true ->
  backgroundLoads h (design s) = true ->
  (cardData s).["name"] = Some name ->
  In field cardFields ->
  In (field, text) (Js.entries (cardData s)) ->
  Js.nonEmpty text = true ->
  exists pos,
    tpl.[field] = Some pos
    /\ In (FillText text (x pos) (y pos))
          (savedPicture ((selectTemplate t ;; Rev1.downloadFinalCard) h s)).
Proof.
  intros Htpl Hm Hc Hbg Hname Hfield Hin Htext.
  rewrite <- (rev1_templates_place_all t Htpl) in Hfield.
  apply keys_get in Hfield as [pos Hpos]. exists pos. split; [assumption|].
  destruct (@after_setter unit (selectTemplate t) Rev1.downloadFinalCard h s
              (stateAfter (selectTemplate t h s)) eq_refl) as [Ht _].
  apply savedPicture_timeline in Ht as [-> _].
  apply (@rev1_every_field_drawn h (stateAfter (selectTemplate t h s))
           tpl name field pos text); auto.
  - simpl. now rewrite backgroundLoads_set by discriminate.
  - simpl. unfold Rev1.activeTemplate. rewrite prop_set_same.
    now apply lookup_Own.
Qed.

Lemma X14_chosen_template_paints_all_witness :
  exists pos,
    (Js.literal
       [ ("name", classicName);
         ("title", Rev1.at_ 200 85 14 "normal" 140 18 (Some center));
         ("company", Rev1.at_ 200 105 14 "bold" 140 18 (Some center));
         ("phone", Rev1.at_ 60 155 11 "normal" 120 15 None);
         ("email", Rev1.at_ 60 175 11 "normal" 140 15 None);
         ("website", Rev1.at_ 60 195 11 "normal" 120 15 None) ]).["email"]
    = Some pos
    /\ In (FillText "john@designstudio.com" (x pos) (y pos))
          (savedPicture
             ((selectTemplate "classic" ;; Rev1.downloadFinalCard)
                browser Rev1.initialState)).
Proof.
  apply (@X14_chosen_template_paints_all browser Rev1.initialState "classic"
           _ "John Doe" "email" "john@designstudio.com");
    try reflexivity; simpl; auto 10.
Defined.

(** X15: after the background image has been removed the export paints
    the background colour over the whole canvas first, whatever image was
    set before and whether or not it would decode; the first revision then
    draws no image at all. *)
Theorem X15_removed_background_is_colour (r : Revision) (h : Host) (s : State) :
  cardRef_current h = true ->
  getContext_2d h = true ->
  (exists rest,
     timeline ((removeBackgroundImage ;; finalCardOf r) h s)
     = SetFillStyle (Js.prop (design s) "backgroundColor")
         :: FillRect 0 0 400 240 :: rest)
  /\ (forall src x0 y0 w0 h0,
        ~ In (DrawImage src x0 y0 w0 h0)
             (timeline ((removeBackgroundImage ;; Rev1.downloadFinalCard) h s))).
Proof.
  intros Hm Hc. split.
  - destruct (@after_setter unit removeBackgroundImage (finalCardOf r) h s
                (stateAfter (removeBackgroundImage h s)) eq_refl) as [-> _].
    destruct r; simpl finalCardOf.
    + rewrite rev1_timeline. unfold rev1FinalCard. rewrite Hm, Hc. simpl.
      rewrite prop_set_same, prop_set_other by discriminate. simpl. eauto.
    + rewrite rev3_timeline. unfold rev3FinalCard. rewrite Hc. simpl.
      rewrite prop_set_same, prop_set_other by discriminate. simpl. eauto.
  - intros src x0 y0 w0 h0 Hin.
    destruct (@after_setter unit removeBackgroundImage Rev1.downloadFinalCard h s
                (stateAfter (removeBackgroundImage h s)) eq_refl) as [Ht _].
    rewrite Ht, rev1_timeline in Hin. apply rev1_image_is_background in Hin.
    simpl in Hin. rewrite prop_set_same in Hin. discriminate Hin.
Qed.

Lemma X15_removed_background_is_colour_witness :
  (exists rest,
     timeline ((removeBackgroundImage ;; finalCardOf First) browser
                 (stateAfter (handleImageUpload [marble] browser Rev1.initialState)))
     = SetFillStyle (Js.Str "#ffffff") :: FillRect 0 0 400 240 :: rest)
  /\ (forall src x0 y0 w0 h0,
        ~ In (DrawImage src x0 y0 w0 h0)
             (timeline ((removeBackgroundImage ;; Rev1.downloadFinalCard) browser
                          (stateAfter (handleImageUpload [marble] browser
                                         Rev1.initialState))))).
Proof.
  apply (@X15_removed_background_is_colour First browser
           (stateAfter (handleImageUpload [marble] browser Rev1.initialState)));
    reflexivity.
Defined.

(** X16: an uploaded image becomes the background of the export: once the
    file has been read, the export starts by drawing its data URL over the
    whole canvas, when the browser decodes it; choosing no file, or a file
    that cannot be read, changes nothing. *)
Theorem X16_upload_then_export (r : Revision) (h : Host) (s : State)
    (url : string) (files : list File) :
  Js.nonEmpty url = true ->
  decodes h url = true ->
  cardRef_current h = true ->
  getContext_2d h = true ->
  (exists rest,
     timeline ((handleImageUpload ({| readAsDataURL := Some url |} :: files)
                ;; finalCardOf r) h s)
     = DrawImage url 0 0 400 240 :: rest)
  /\ stateAfter (handleImageUpload [] h s) = s
  /\ stateAfter (handleImageUpload ({| readAsDataURL := None |} :: files) h s) = s.
Proof.
  intros Hurl Hdec Hm Hc. split; [|split; reflexivity].
  destruct (@after_setter unit
              (handleImageUpload ({| readAsDataURL := Some url |} :: files))
              (finalCardOf r) h s
              (stateAfter (handleImageUpload
                             ({| readAsDataURL := Some url |} :: files) h s))
              eq_refl) as [-> _].
  assert (Htruthy : Js.truthy (Js.Str url) = Some url)
    by (destruct url; [discriminate Hurl | reflexivity]).
  destruct r; simpl finalCardOf.
  - rewrite rev1_timeline. unfold rev1FinalCard. rewrite Hm, Hc. simpl.
    rewrite prop_set_same, Htruthy, Hdec. eauto.
  - rewrite rev3_timeline. unfold rev3FinalCard. rewrite Hc. simpl.
    rewrite prop_set_same, Htruthy, Hdec. eauto.
Qed.

Lemma X16_upload_then_export_witness :
  (exists rest,
     timeline ((handleImageUpload
                  ({| readAsDataURL := Some "data:image/png;base64,iVBORw0KGgo=" |}
                     :: [unreadable])
                ;; finalCardOf First) browser Rev1.initialState)
     = DrawImage "data:image/png;base64,iVBORw0KGgo=" 0 0 400 240 :: rest)
  /\ stateAfter (handleImageUpload [] browser Rev1.initialState) = Rev1.initialState
  /\ stateAfter (handleImageUpload ({| readAsDataURL := None |} :: [unreadable])
                   browser Rev1.initialState)
     = Rev1.initialState.
Proof.
  apply (@X16_upload_then_export First browser Rev1.initialState
           "data:image/png;base64,iVBORw0KGgo=" [unreadable]); reflexivity.
Defined.

(** X17: a text typed into a field is what the export of the first
    revision saves for it: after [handleTextChange(f, v)] with [v] not
    empty, the picture saved holds [v] at the anchor that the selected
    template gives to [f]. *)
Theorem X17_typed_text_is_exported (h : Host) (s : State) (tpl : Rev1.Template)
    (name f v : string) (pos : FieldPosition) :
  cardRef_current h = true ->
  getContext_2d h = true ->
  backgroundLoads h (design s) = true ->
  Rev1.activeTemplate (design s) = Js.Own tpl ->
  (cardData s).["name"] = Some name ->
  tpl.[f] = Some pos ->
  Js.nonEmpty v = true ->
  In (FillText v (x pos) (y pos))
     (savedPicture ((handleTextChange f v ;; Rev1.downloadFinalCard) h s)).
Proof.
  intros Hm Hc Hbg Htpl Hname Hpos Hv.
  destruct (@after_setter unit (handleTextChange f v) Rev1.downloadFinalCard h s
              (stateAfter (handleTextChange f v h s)) eq_refl) as [Ht _].
  apply savedPicture_timeline in Ht as [-> _].
  assert (Hname' : exists n, (cardData (stateAfter (handleTextChange f v h s))).["name"]
                             = Some n).
  { simpl. destruct (String.eqb_spec "name" f) as [<-|Hne].
    - rewrite get_set_same. eauto.
    - rewrite get_set_other by congruence. eauto. }
  destruct Hname' as [n Hn].
  apply (@rev1_every_field_drawn h (stateAfter (handleTextChange f v h s))
           tpl n f pos v); auto.
  simpl. apply get_In, get_set_same.
Qed.

Lemma X17_typed_text_is_exported_witness :
  In (FillText "Avery Chen" 40 60)
     (savedPicture ((handleTextChange "name" "Avery Chen" ;; Rev1.downloadFinalCard)
                      browser Rev1.initialState)).
Proof.
  apply (@X17_typed_text_is_exported browser Rev1.initialState
           (Js.literal
              [ ("name", Rev1.at_ 40 60 24 "bold" 200 30 None);
                ("title", Rev1.at_ 40 90 16 "normal" 180 20 None);
                ("company", Rev1.at_ 40 115 14 "normal" 160 18 None);
                ("phone", Rev1.at_ 40 155 12 "normal" 140 16 None);
                ("email", Rev1.at_ 40 175 12 "normal" 180 16 None);
                ("website", Rev1.at_ 40 195 12 "normal" 160 16 None) ])
           "John Doe" "name" "Avery Chen"
           (Rev1.at_ 40 60 24 "bold" 200 30 None)); reflexivity.
Defined.

(** X18: of two changes of one field the later wins, and changes of two
    different fields, of which one at least is on the card, can be made in
    either order: the state reached is the same, order of the entries
    included. *)
Theorem X18_text_changes_commute (h : Host) (s : State) (f g v v' w : string) :
  f <> g ->
  (cardData s).[f] <> None \/ (cardData s).[g] <> None ->
  stateAfter ((handleTextChange f v ;; handleTextChange f v') h s)
  = stateAfter (handleTextChange f v' h s)
  /\ stateAfter ((handleTextChange f v ;; handleTextChange g w) h s)
     = stateAfter ((handleTextChange g w ;; handleTextChange f v) h s).
Proof.
  intros Hne Hex. split.
  - cbn. now rewrite set_set_same.
  - cbn. now rewrite (@set_set_comm _ (cardData s) f g v w Hne Hex).
Qed.

Lemma X18_text_changes_commute_witness :
  stateAfter ((handleTextChange "name" "A" ;; handleTextChange "name" "B")
                browser Rev1.initialState)
  = stateAfter (handleTextChange "name" "B" browser Rev1.initialState)
  /\ stateAfter ((handleTextChange "name" "A" ;; handleTextChange "title" "C")
                   browser Rev1.initialState)
     = stateAfter ((handleTextChange "title" "C" ;; handleTextChange "name" "A")
                     browser Rev1.initialState).
Proof.
  apply (@X18_text_changes_commute browser Rev1.initialState
           "name" "title" "A" "B" "C").
  - discriminate.
  - left. discriminate.
Defined.

(** Two fields that are not on the card end up in the order in which they
    were added. *)
Example new_fields_keep_their_order :
  Js.keys (cardData (stateAfter ((handleTextChange "fax" "1" ;; handleTextChange "pager" "2")
                                   browser Rev1.initialState)))
  <> Js.keys (cardData (stateAfter ((handleTextChange "pager" "2" ;; handleTextChange "fax" "1")
                                      browser Rev1.initialState))).
Proof. vm_compute. discriminate. Qed.

(** X19: in the third revision, once the logo has been removed the export
    saves the texts again: the picture saved holds the value of every
    entry that the template places, that is not empty and that is not
    called [name] or [description]. *)
Theorem X19_removed_logo_saves_texts (h : Host) (s : State) (tpl : Rev3.Template)
    (name : string) :
  getContext_2d h = true ->
  backgroundLoads h (design s) = true ->
  Rev3.activeTemplate (design s) = Js.Own tpl ->
  (cardData s).["name"] = Some name ->
  paintedTexts (savedPicture ((removeLogoImage ;; Rev3.downloadFinalCard) h s))
  = map snd (filter (rev3Painted tpl) (Js.entries (cardData s))).
Proof.
  intros Hc Hbg Htpl Hname.
  destruct (@after_setter unit removeLogoImage Rev3.downloadFinalCard h s
              (stateAfter (removeLogoImage h s)) eq_refl) as [Ht _].
  apply savedPicture_timeline in Ht as [-> _].
  unfold savedPicture. rewrite rev3_timeline, rev3_exported. simpl.
  rewrite Hc, backgroundLoads_set, Hbg, Hname by discriminate. simpl.
  rewrite prop_set_same. simpl.
  unfold rev3Text, Rev3.activeTemplate in *.
  rewrite !prop_set_other by discriminate. rewrite Htpl. simpl loopEnds.
  cbv iota.
  rewrite paintedTexts_app, backgroundCalls_no_text. simpl.
  apply rev3_fieldCalls_texts.
Qed.

Lemma X19_removed_logo_saves_texts_witness :
  paintedTexts (savedPicture ((removeLogoImage ;; Rev3.downloadFinalCard)
                                browser withLogo))
  = [ "Creative Director"; "Design Studio"; "+1 (555) 123-4567";
      "john@designstudio.com"; "www.designstudio.com" ]%string.
Proof.
  destruct (Rev3.activeTemplate (design withLogo)) as [tpl| |] eqn:E;
    [|discriminate E|discriminate E].
  rewrite (@X19_removed_logo_saves_texts browser withLogo tpl "John Doe"
             eq_refl eq_refl E eq_refl).
  injection E as <-. reflexivity.
Defined.

(** *** The preview and the picture *)

Section PreviewFacts.

Lemma wf_get_In {A} (o : Js.object A) k v :
  Js.wf o -> In (k, v) (Js.entries o) -> o.[k] = Some v.
Proof.
  unfold Js.wf, Js.entries. induction o as [|[k0 v0] rest IH]; simpl; [tauto|].
  intros Hnd [[= -> ->]|Hin].
  - now rewrite String.eqb_refl.
  - inversion Hnd as [|? ? Hnot Hrest]; subst.
    destruct (String.eqb_spec k0 k) as [->|Hne].
    + exfalso. apply Hnot. change k with (fst (k, v)). now apply in_map.
    + now apply IH.
Qed.

Lemma textBoxes_app a b :
  textBoxes (a ++ b) = (textBoxes a ++ textBoxes b)%list.
Proof. induction a as [|[] a IH]; simpl; auto. now f_equal. Qed.

Lemma backgroundCalls_no_origin d : textOrigins (backgroundCalls d) = [].
Proof. unfold backgroundCalls. now destruct (Js.truthy _). Qed.

Lemma rev1_indicators_no_text l : textBoxes (flat_map Rev1Ui.indicator l) = [].
Proof.
  induction l as [|[field pos] l IH]; [reflexivity|].
  cbn [flat_map]. now rewrite textBoxes_app, IH.
Qed.

(** Entry by entry, the texts shown with a value are the texts painted. *)
Lemma rev1_texts_agree tpl s l :
  (forall e, In e l -> (cardData s).[fst e] = Some (snd e)) ->
  Forall2 sameText
    (filter (showsValue (cardData s))
       (textBoxes (flat_map (Rev1Ui.textElement tpl s) l)))
    (textOrigins (flat_map (rev1FieldCalls tpl (design s)) l)).
Proof.
  induction l as [|[field text] l IH]; intros Hl; [constructor|].
  cbn [flat_map]. rewrite textBoxes_app, filter_app, textOrigins_app.
  apply Forall2_app; [|apply IH; intros e He; apply Hl; now right].
  unfold Rev1Ui.textElement, rev1FieldCalls. simpl.
  destruct (tpl.[field]) as [pos|]; [|constructor].
  pose proof (Hl (field, text) (or_introl eq_refl)) as Hget. simpl in Hget.
  simpl. unfold showsValue. simpl. rewrite Hget.
  destruct (Js.nonEmpty text) eqn:E; [|constructor].
  repeat constructor; simpl; try rewrite E; try reflexivity. ring.
Qed.

End PreviewFacts.

(** X20: in the first revision the picture saved holds what the preview
    shows: the texts that the preview places with a value are the texts
    painted, in the same order, each with the same string, at the same x
    and on the same base line; the preview shows in addition every empty
    field that the template places, as its name in brackets. *)
Theorem X20_rev1_preview_is_exported (h : Host) (s : State)
    (name : string) (elements : list Element) :
  cardRef_current h = true ->
  getContext_2d h = true ->
  backgroundLoads h (design s) = true ->
  (cardData s).["name"] = Some name ->
  Js.wf (cardData s) ->
  Rev1Ui.cardPreview s = Some elements ->
  Forall2 sameText
    (filter (showsValue (cardData s)) (textBoxes elements))
    (textOrigins (savedPicture (Rev1.downloadFinalCard h s))).
Proof.
  intros Hm Hc Hbg Hname Hwf Hprev. unfold Rev1Ui.cardPreview in Hprev.
  destruct (Rev1.activeTemplate (design s)) as [tpl|member|] eqn:Htpl.
  - injection Hprev as <-. unfold savedPicture.
    rewrite (@rev1_saved h s tpl name Hm Hc Hbg Htpl Hname).
    rewrite textBoxes_app, textOrigins_app, backgroundCalls_no_origin.
    assert (Hind : textBoxes (if showIndicators s
                              then flat_map Rev1Ui.indicator (Js.entries tpl)
                              else []) = [])
      by (destruct (showIndicators s); [apply rev1_indicators_no_text | reflexivity]).
    rewrite Hind. simpl app. apply rev1_texts_agree.
    intros [k v] Hin. now apply wf_get_In.
  - destruct (existsb _ _); [discriminate Hprev|]. injection Hprev as <-.
    unfold savedPicture. rewrite rev1_timeline, rev1_exported.
    unfold rev1Text. rewrite Htpl, Hname, app_nil_r.
    destruct (_ && _); simpl; [rewrite backgroundCalls_no_origin|]; constructor.
  - exfalso. destruct (showIndicators s); [discriminate|].
    destruct (cardData s) as [|e rest]; [discriminate Hname | discriminate Hprev].
Qed.

Lemma X20_rev1_preview_is_exported_witness :
  Forall2 sameText
    (filter (showsValue (cardData Rev1.initialState))
       (textBoxes
          (match Rev1Ui.cardPreview Rev1.initialState with
           | Some elements => elements
           | None => []
           end)))
    (textOrigins (savedPicture (Rev1.downloadFinalCard browser Rev1.initialState))).
Proof.
  destruct (Rev1Ui.cardPreview Rev1.initialState) as [elements|] eqn:E;
    [|discriminate E].
  apply (@X20_rev1_preview_is_exported browser Rev1.initialState "John Doe");
    try reflexivity; [apply initialState_wf | exact E].
Defined.

(** An empty field is shown in the preview, in brackets, and is not
    exported. *)
Example empty_field_is_bracketed :
  map boxContent
    (textBoxes
       (match Rev1Ui.cardPreview
                (stateAfter (handleTextChange "title" "" browser Rev1.initialState)) with
        | Some elements => elements
        | None => []
        end))
  = [ "John Doe"; "[title]"; "Design Studio"; "+1 (555) 123-4567";
      "john@designstudio.com"; "www.designstudio.com" ]%string
  /\ paintedTexts
       (savedPicture
          ((handleTextChange "title" "" ;; Rev1.downloadFinalCard)
             browser Rev1.initialState))
     = [ "John Doe"; "Design Studio"; "+1 (555) 123-4567";
         "john@designstudio.com"; "www.designstudio.com" ]%string.
Proof. split; reflexivity. Qed.

(** *** The second revision *)

Section Rev2Facts.

Lemma map_flat_map {A B C} (f : B -> C) (g : A -> list B) l :
  map f (flat_map g l) = flat_map (fun a => map f (g a)) l.
Proof.
  induction l as [|a l IH]; simpl; [reflexivity|]. now rewrite map_app, IH.
Qed.

Lemma rev2_drawField_draws tpl d entry :
  draws (Rev2.drawField (Js.Own tpl) d entry)
    (map interFont (rev1FieldCalls tpl d entry)).
Proof.
  destruct entry as [field text]. unfold Rev2.drawField, rev1FieldCalls, alignment.
  simpl. destruct (tpl.[field]) as [pos|]; [|apply draws_ret].
  destruct (Js.nonEmpty text); [|apply draws_ret].
  destruct (align pos) as [[]|]; intros h s; reflexivity.
Qed.

Lemma rev2Rest_outcome cd d h s :
  let rest := (Rev2.drawTextOnCanvas cd d ;;
               slug <- Rev2.nameSlug cd ;;
               call (Save ("business-card-final-" ++ slug ++ ".png")%string)) in
  ran (rest h s) = map interFont (rev1AfterBackground cd d)
  /\ deferred (rest h s) = [].
Proof.
  unfold rev1AfterBackground, rev1Text, Rev2.drawTextOnCanvas.
  change (Rev2.activeTemplate d) with (Rev1.activeTemplate d).
  destruct (Rev1.activeTemplate d) as [tpl|member|]; cbv zeta.
  - erewrite bind_run
      by (apply draws_forEach; intros a; apply rev2_drawField_draws).
    rewrite map_app, map_flat_map.
    unfold Rev2.nameSlug, rev1Save, slugOf. simpl loopEnds. cbv iota.
    destruct (cd.["name"]) as [name|]; split; reflexivity.
  - pose proof (@forEach_inherited (Rev2.drawField (Js.Inherited member) d)
                  member (Js.entries cd) h s) as E.
    unfold loopEnds. destruct (forallb _ (Js.entries cd)).
    + erewrite bind_run by (apply E; intros [field text]; reflexivity).
      unfold Rev2.nameSlug, rev1Save, slugOf.
      destruct (cd.["name"]) as [name|]; split; reflexivity.
    + erewrite bind_stop by (apply E; intros [field text]; reflexivity).
      split; reflexivity.
  - destruct cd as [|[field text] rest]; split; reflexivity.
Qed.

Lemma rev2_timeline h s :
  timeline (Rev2.downloadFinalCard h s)
  = map interFont (rev1FinalCard h (cardData s) (design s)).
Proof.
  destruct (rev2Rest_outcome (cardData s) (design s) h s) as (Hran & Hdef).
  cbv zeta in Hran, Hdef.
  unfold Rev2.downloadFinalCard, rev1FinalCard, timeline.
  erewrite bind_run by reflexivity. erewrite bind_run by reflexivity.
  destruct (cardRef_current h); [|reflexivity].
  destruct (getContext_2d h); [|reflexivity].
  cbn [negb andb returned stateAfter ran deferred app].
  destruct (Js.truthy (Js.prop (design s) "backgroundImage")) as [src|].
  - unfold onload. destruct (decodes h src); [|reflexivity].
    erewrite bind_run by reflexivity.
    cbn [returned stateAfter ran deferred app]. now rewrite Hran, Hdef, app_nil_r.
  - erewrite bind_run by reflexivity. erewrite bind_run by reflexivity.
    cbn [returned stateAfter ran deferred app]. now rewrite Hran, Hdef, app_nil_r.
Qed.

End Rev2Facts.

(** X22: the export of the second revision makes the calls of the first
    with the font family [Inter, Arial] in place of [Arial], and nothing
    else differs; its template download draws no guide at all: the
    background, and the download. *)
Theorem X22_rev2_is_rev1_in_inter (h : Host) (s : State) :
  timeline (Rev2.downloadFinalCard h s)
  = map interFont (timeline (Rev1.downloadFinalCard h s))
  /\ existsb isGuideCall (timeline (Rev2.downloadTemplate h s)) = false
  /\ (timeline (Rev2.downloadTemplate h s) = []
      \/ timeline (Rev2.downloadTemplate h s)
         = (backgroundCalls (design s)
              ++ [Save ("business-card-template-"
                          ++ Js.toString (Js.prop (design s) "template")
                          ++ ".png")%string])%list).
Proof.
  rewrite rev2_timeline, rev1_timeline, rev2_template_timeline.
  split; [reflexivity|].
  unfold rev2TemplateCalls, backgroundCalls, rev1TemplateSave.
  destruct (getContext_2d h); [|split; [reflexivity | now left]].
  destruct (Js.truthy (Js.prop (design s) "backgroundImage")) as [src|].
  - destruct (decodes h src); split; try reflexivity; [now right | now left].
  - split; [reflexivity | now right].
Qed.

(** *** The states the page can reach *)

Section ReachFacts.

Lemma Ready_same s s' :
  cardData s' = cardData s -> design s' = design s -> Ready s -> Ready s'.
Proof. unfold Ready. intros -> ->. tauto. Qed.

Lemma Ready_set_design s k v :
  k <> "template"%string -> k <> "backgroundColor"%string ->
  k <> "textColor"%string ->
  Ready s -> Ready (stateAfter (setDesign (fun prev => prev.[k := v]) browser s)).
Proof.
  intros H1 H2 H3 (Hk & Ht & Hb & Hc). unfold Ready. simpl.
  rewrite !prop_set_other by congruence. auto.
Qed.

Lemma Ready_initial : Ready Rev1.initialState.
Proof.
  unfold Ready. split; [reflexivity|]. split; [|split; eexists; reflexivity].
  assert (E : exists tpl, Rev1.templates.["modern"] = Some tpl)
    by (eexists; reflexivity).
  destruct E as [tpl E].
  exists "modern"%string, tpl. repeat split; [assumption|].
  now apply (rev1_templates_place_all "modern").
Qed.

Lemma Ready_step h s e :
  Ready s -> Js.wf (cardData s) -> Rev1Ui.offered s e = true ->
  Ready (stateAfter (Rev1Ui.handler e h s))
  /\ Js.wf (cardData (stateAfter (Rev1Ui.handler e h s))).
Proof.
  intros Hready Hwf Hoff. destruct e; simpl Rev1Ui.handler.
  - split; [apply (Ready_same (s := s)); auto | exact Hwf].
  - rewrite (rev1_template_readOnly h s). auto.
  - unfold handleImageUpload. destruct files as [|file files]; [auto|].
    destruct (readAsDataURL file) as [result|]; [|auto].
    split; [|exact Hwf].
    apply (Ready_set_design (s := s) (k := "backgroundImage")); auto; discriminate.
  - rewrite (rev1_readOnly h s). auto.
  - split; [apply (Ready_same (s := Rev1.initialState));
            [reflexivity | reflexivity | apply Ready_initial]
           | apply initialState_wf].
  - split; [apply (Ready_same (s := s)); auto | exact Hwf].
  - split; [|exact Hwf]. unfold Rev1Ui.offered in Hoff.
    destruct (Rev1.templates.[template]) as [tpl|] eqn:E; [|discriminate Hoff].
    destruct Hready as (Hk & _ & Hb & Hc). unfold Ready. simpl.
    rewrite prop_set_same, !prop_set_other by discriminate.
    repeat split; auto.
    exists template, tpl. repeat split; [assumption|].
    now apply (rev1_templates_place_all template).
  - unfold Rev1Ui.offered in Hoff.
    destruct ((cardData s).[field]) eqn:E; [|discriminate Hoff].
    split; [|simpl; now apply wf_set].
    destruct Hready as (Hk & Ht & Hb & Hc). unfold Ready. simpl.
    rewrite keys_set, E. auto.
  - split; [|exact Hwf].
    destruct Hready as (Hk & Ht & Hb & Hc). unfold Ready. simpl.
    rewrite prop_set_same, !prop_set_other by discriminate.
    repeat split; eauto.
  - split; [|exact Hwf].
    destruct Hready as (Hk & Ht & Hb & Hc). unfold Ready. simpl.
    rewrite prop_set_same, !prop_set_other by discriminate.
    repeat split; eauto.
  - split; [|exact Hwf].
    apply (Ready_set_design (s := s) (k := "backgroundImage")); auto; discriminate.
Qed.

Lemma Reachable_ready h s :
  Rev1Ui.Reachable h s -> Ready s /\ Js.wf (cardData s).
Proof.
  induction 1 as [|s e _ [IHr IHw] Hoff].
  - split; [apply Ready_initial | apply initialState_wf].
  - now apply Ready_step.
Qed.

End ReachFacts.

(** X23: whatever the user does on the page of the first revision, from
    the initial state on, the card keeps its six fields and one of the
    templates stays selected; so the preview always renders, and the
    export saves a file whenever the card is mounted, the canvas gives a
    context and the background image, if any, decodes: the exceptions of
    the handlers are out of reach. *)
Theorem X23_page_stays_ready (h : Host) (s : State) :
  Rev1Ui.Reachable h s ->
  Ready s
  /\ isSome (Rev1Ui.cardPreview s) = true
  /\ isSome (savedAs (Rev1.downloadFinalCard h s))
     = cardRef_current h && getContext_2d h && backgroundLoads h (design s).
Proof.
  intros Hreach. apply Reachable_ready in Hreach as [Hready Hwf].
  split; [exact Hready|].
  destruct Hready as (Hk & (t & tpl & Ht & Htpl & _) & _).
  assert (Hact : Rev1.activeTemplate (design s) = Js.Own tpl)
    by (unfold Rev1.activeTemplate; rewrite Ht; now apply lookup_Own).
  assert (Hname : exists n, (cardData s).["name"] = Some n)
    by (apply keys_get; rewrite Hk; now left).
  destruct Hname as [n Hn]. split.
  - unfold Rev1Ui.cardPreview. now rewrite Hact.
  - unfold savedAs. rewrite rev1_timeline, rev1_exported, Hact, Hn.
    now destruct (cardRef_current h && getContext_2d h
                  && backgroundLoads h (design s)).
Qed.

Lemma X23_page_stays_ready_witness :
  Ready (stateAfter (Rev1Ui.handler (Rev1Ui.ClickTemplate "minimal") browser
                       (stateAfter (Rev1Ui.handler (Rev1Ui.TypeText "title" "")
                                      browser Rev1.initialState))))
  /\ isSome (Rev1Ui.cardPreview
               (stateAfter (Rev1Ui.handler (Rev1Ui.ClickTemplate "minimal") browser
                              (stateAfter (Rev1Ui.handler (Rev1Ui.TypeText "title" "")
                                             browser Rev1.initialState))))) = true
  /\ isSome (savedAs (Rev1.downloadFinalCard browser
               (stateAfter (Rev1Ui.handler (Rev1Ui.ClickTemplate "minimal") browser
                              (stateAfter (Rev1Ui.handler (Rev1Ui.TypeText "title" "")
                                             browser Rev1.initialState))))))
     = cardRef_current browser && getContext_2d browser
       && backgroundLoads browser
            (design (stateAfter (Rev1Ui.handler (Rev1Ui.ClickTemplate "minimal") browser
                       (stateAfter (Rev1Ui.handler (Rev1Ui.TypeText "title" "")
                                      browser Rev1.initialState))))).
Proof.
  apply (@X23_page_stays_ready browser).
  apply Rev1Ui.reach_event; [|reflexivity].
  apply Rev1Ui.reach_event; [|reflexivity].
  apply Rev1Ui.reach_initial.
Defined.

(** Outside the page the handlers can leave these states: a colour change
    written to the key [template] makes the export throw. *)
Example stray_template_breaks_export :
  savedAs (Rev1.downloadFinalCard browser
             (stateAfter (handleColorChange "template" "#ff0000" browser
                            Rev1.initialState))) = None
  /\ Rev1Ui.cardPreview
       (stateAfter (handleColorChange "template" "#ff0000" browser
                      Rev1.initialState)) = None.
Proof. split; reflexivity. Qed.

(** *** The name in the third revision *)

Section Rev3NameFacts.

Lemma rev3_templates_place_name t tpl :
  Rev3.templates.[t] = Some tpl ->
  exists pos, tpl.["name"] = Some (Rev3.Position pos).
Proof.
  intros H. apply get_In in H.
  assert (Hall : Forall (fun kv => exists pos,
                           (snd kv).["name"] = Some (Rev3.Position pos))
                   (Js.entries Rev3.templates)).
  { vm_compute. repeat constructor; eexists; reflexivity. }
  rewrite Forall_forall in Hall. apply (Hall _ H).
Qed.

Lemma rev3_name_not_painted tpl d cd v :
  textOrigins (flat_map (rev3FieldCalls tpl d) (Js.entries (cd.["name" := v])))
  = textOrigins (flat_map (rev3FieldCalls tpl d) (Js.entries cd)).
Proof.
  assert (Hname : forall text, rev3FieldCalls tpl d ("name"%string, text) = []).
  { intros text. unfold rev3FieldCalls. simpl.
    destruct (tpl.["name"]) as [[|]|]; try reflexivity.
    now rewrite andb_false_r. }
  unfold Js.entries. induction cd as [|[k0 v0] rest IH]; simpl.
  - now rewrite Hname.
  - destruct (String.eqb_spec k0 "name") as [->|Hne]; simpl.
    + now rewrite !Hname.
    + now rewrite !textOrigins_app, IH.
Qed.

Lemma rev3Save_no_origin cd : textOrigins (rev3Save cd) = [].
Proof. unfold rev3Save. now destruct (cd.["name"]). Qed.

Lemma rev3_name_no_influence h cd d v :
  textOrigins (rev3FinalCard h (cd.["name" := v]) d)
  = textOrigins (rev3FinalCard h cd d).
Proof.
  rewrite !rev3FinalCard_shape.
  destruct (getContext_2d h && backgroundLoads h d); [|reflexivity].
  rewrite !textOrigins_app. f_equal.
  assert (Htext : textOrigins (rev3Text (cd.["name" := v]) d)
                  = textOrigins (rev3Text cd d)).
  { unfold rev3Text. destruct (Rev3.activeTemplate d); try reflexivity.
    apply rev3_name_not_painted. }
  assert (Hsave : forall (b : bool) cd',
            textOrigins (if b then rev3Save cd' else []) = []).
  { intros [] cd'; [apply rev3Save_no_origin | reflexivity]. }
  unfold rev3AfterBackground.
  destruct (Js.truthy (Js.prop d "logoImage")) as [logo|].
  - rewrite !textOrigins_app, !rev3Save_no_origin. simpl.
    destruct (decodes h logo); [|reflexivity]. simpl. exact Htext.
  - now rewrite !textOrigins_app, !Hsave, Htext.
Qed.

End Rev3NameFacts.

(** X24: in the third revision every template places the name of the
    card, and the label that each literal writes first under the same key
    is lost; yet the name has no influence on what the export paints:
    whatever is typed into it, the texts painted and their places are the
    same. *)
Theorem X24_rev3_name_has_no_influence (h : Host) (s : State)
    (tpl : Rev3.Template) (v : string) :
  Rev3.activeTemplate (design s) = Js.Own tpl ->
  (exists pos, Rev3Ui.templateLabel (design s) = Some (Rev3.Position pos))
  /\ textOrigins (timeline ((handleTextChange "name" v ;; Rev3.downloadFinalCard) h s))
     = textOrigins (timeline (Rev3.downloadFinalCard h s)).
Proof.
  intros Htpl. split.
  - unfold Rev3Ui.templateLabel. rewrite Htpl.
    apply lookup_Own in Htpl. exact (rev3_templates_place_name _ Htpl).
  - destruct (@after_setter unit (handleTextChange "name" v) Rev3.downloadFinalCard
                h s (stateAfter (handleTextChange "name" v h s)) eq_refl) as [-> _].
    rewrite !rev3_timeline. apply rev3_name_no_influence.
Qed.

Lemma X24_rev3_name_has_no_influence_witness :
  (exists pos, Rev3Ui.templateLabel (design Rev3.initialState)
               = Some (Rev3.Position pos))
  /\ textOrigins (timeline ((handleTextChange "name" "Avery Chen"
                             ;; Rev3.downloadFinalCard) browser Rev3.initialState))
     = textOrigins (timeline (Rev3.downloadFinalCard browser Rev3.initialState)).
Proof.
  destruct (Rev3.activeTemplate (design Rev3.initialState)) as [tpl| |] eqn:E;
    [|discriminate E|discriminate E].
  exact (@X24_rev3_name_has_no_influence browser Rev3.initialState tpl
           "Avery Chen" E).
Defined.

(** *** The preview of the third revision *)

(** Under a template of the table the badge of the preview throws. *)
Lemma rev3_badge_throws d t tpl :
  Js.prop d "template" = Js.Str t ->
  Rev3.templates.[t] = Some tpl ->
  Rev3Ui.badge d = None.
Proof.
  intros Ht Htpl.
  assert (Hact : Rev3.activeTemplate d = Js.Own tpl)
    by (unfold Rev3.activeTemplate; rewrite Ht; now apply lookup_Own).
  unfold Rev3Ui.badge, Rev3Ui.templateLabel. rewrite Hact.
  destruct (rev3_templates_place_name _ Htpl) as [pos ->]. reflexivity.
Qed.

(** The labels of the template buttons throw, whatever the state: the
    first template already keeps a position under [name]. *)
Lemma rev3_buttons_throw : Rev3Ui.buttonLabels (Js.entries Rev3.templates) = None.
Proof. reflexivity. Qed.

(** X21: the page of the third revision never shows the card.  The badge
    of the preview is given [templates[design.template].name], which in
    every template is the position of the name, the label that the
    literal writes first under that key being lost; and React throws on
    an object given as a child.  So the badge throws whenever a template
    of the table is selected: at the initial state, after a reset, after
    any of the template buttons; the labels of the template buttons throw
    in the same way, whatever the state holds; and in no state does the
    render of the page get through, although the JSX of the card itself
    evaluates to its children at the initial state. *)
Theorem X21_rev3_preview_never_renders (h : Host) (s : State) (t : string)
    (tpl : Rev3.Template) :
  Rev3.templates.[t] = Some tpl ->
  (Js.prop (design s) "template" = Js.Str t -> Rev3Ui.badge (design s) = None)
  /\ Rev3Ui.badge (design (stateAfter (selectTemplate t h s))) = None
  /\ Rev3Ui.badge (design Rev3.initialState) = None
  /\ Rev3Ui.badge (design (stateAfter (Rev3Ui.resetToDefault h s))) = None
  /\ Rev3Ui.buttonLabels (Js.entries Rev3.templates) = None
  /\ (forall s', Rev3Ui.cardPreview s' = None)
  /\ Rev3Ui.cardChildren Rev3.initialState <> None.
Proof.
  intros Htpl. repeat split.
  - intros Ht. exact (rev3_badge_throws _ Ht Htpl).
  - apply (@rev3_badge_throws _ t tpl); [|exact Htpl].
    simpl. apply prop_set_same.
  - intros s'. unfold Rev3Ui.cardPreview. rewrite rev3_buttons_throw.
    now destruct (Rev3Ui.badge (design s')).
  - discriminate.
Qed.

Lemma X21_rev3_preview_never_renders_witness :
  (Js.prop (design Rev3.initialState) "template" = Js.Str "modern" ->
   Rev3Ui.badge (design Rev3.initialState) = None)
  /\ Rev3Ui.badge (design (stateAfter (selectTemplate "modern" browser
                                         Rev3.initialState))) = None
  /\ Rev3Ui.badge (design Rev3.initialState) = None
  /\ Rev3Ui.badge (design (stateAfter (Rev3Ui.resetToDefault browser
                                         Rev3.initialState))) = None
  /\ Rev3Ui.buttonLabels (Js.entries Rev3.templates) = None
  /\ (forall s', Rev3Ui.cardPreview s' = None)
  /\ Rev3Ui.cardChildren Rev3.initialState <> None.
Proof.
  eapply (@X21_rev3_preview_never_renders browser Rev3.initialState "modern").
  reflexivity.
Defined.

(** A label that is a string is rendered: under a key that selects no
    template of the table but a member that every object inherits, the
    badge shows the name of that built-in. *)
Example badge_of_inherited_member :
  Rev3Ui.renderChild (Some (Rev3.Text "Modern Professional"))
  = Some "Modern Professional"
  /\ Rev3Ui.badge (design (stateAfter (handleColorChange "template" "constructor"
                                         browser Rev3.initialState)))
     = Some "Object".
Proof. split; reflexivity. Qed.
